(** * Accounting-Tool backend: the metadata store and the agent service

    A shallow embedding of [app/storage.py], [app/agents/schemas.py] and
    [app/services/agent_service.py].

    - Python values that come out of [response.json()] are dynamically typed;
      they are modelled by [Py.value].  A Python [str] is a [string] whose
      characters stand for code points 0..255.
    - Exceptions are modelled by [Py.exn]; a call either returns or raises
      ([Py.outcome]).
    - The SQLite file behind [MetadataStore] is a [Storage.Database]: two
      optional tables, each a list of rows in rowid order together with the
      AUTOINCREMENT counter.
    - Everything the code consults outside itself (the HTTP client and the
      provider's answers, the clock, the file system and the SQLite engine)
      is gathered in [Service.Env];
      the effects of a call (requests issued, database contents) are threaded
      through [Service.World].
    - A coroutine is modelled by the sequence of its effects: every [await]
      of the two operations is waited for before the next statement runs,
      and [asyncio.to_thread] hands back the exception of the function it
      ran.  Calls of [logger] change neither the result nor the store and
      are left out. *)

From Stdlib Require Import ZArith List String Ascii Bool Lia DecimalString.
From Stdlib Require Import DecimalZ DecimalPos.
From Stdlib Require Import Floats.SpecFloat.
Import ListNotations.
#[local] Set Warnings "-register-all".
Local Open Scope string_scope.
Local Open Scope Z_scope.

(* ===================================================================== *)
(** * Python values, strings and exceptions *)
(* ===================================================================== *)

Module Py.

(** ** Strings *)

(** [s[:n]] *)
Fixpoint str_take (n : nat) (s : string) : string :=
  match n, s with
  | O, _ => ""
  | S _, EmptyString => ""
  | S n', String c s' => String c (str_take n' s')
  end.

(** [c.isspace()] for the code points below 256: TAB..CR, FS..US, SPACE,
    NEL (0x85) and NBSP (0xA0). *)
Definition isspace (c : ascii) : bool :=
  let n := Z.of_nat (nat_of_ascii c) in
  ((9 <=? n) && (n <=? 13)) || ((28 <=? n) && (n <=? 32))
  || (n =? 133) || (n =? 160).

Definition str_is_empty (s : string) : bool :=
  match s with EmptyString => true | String _ _ => false end.

(** [c.isascii()] *)
Definition isascii (c : ascii) : bool := Z.of_nat (nat_of_ascii c) <? 128.

(** [c.isascii() and not c.isprintable()]: the control characters 0..31
    and 127. *)
Definition ascii_control (c : ascii) : bool :=
  let n := Z.of_nat (nat_of_ascii c) in
  (n <? 32) || (n =? 127).

(** [any(p(c) for c in s)] *)
Fixpoint str_exists (p : ascii -> bool) (s : string) : bool :=
  match s with
  | EmptyString => false
  | String c s' => p c || str_exists p s'
  end.

(** [s.lstrip()] *)
Fixpoint lstrip (s : string) : string :=
  match s with
  | EmptyString => EmptyString
  | String c s' => if isspace c then lstrip s' else s
  end.

(** [s.rstrip()] *)
Fixpoint rstrip (s : string) : string :=
  match s with
  | EmptyString => EmptyString
  | String c s' =>
      let t := rstrip s' in
      if isspace c && str_is_empty t then EmptyString else String c t
  end.

(** [s.strip()] *)
Definition strip (s : string) : string := rstrip (lstrip s).

(** Every character of [s] is whitespace. *)
Fixpoint all_space (s : string) : bool :=
  match s with
  | EmptyString => true
  | String c s' => isspace c && all_space s'
  end.

(** [s] neither starts nor ends with whitespace. *)
Definition trimmed (s : string) : Prop :=
  (forall c t, s = String c t -> isspace c = false) /\
  (forall c t, s = t ++ String c "" -> isspace c = false).

(** [str(n)] for an [int]. *)
Definition str_of_int (n : Z) : string := NilZero.string_of_int (Z.to_int n).

(** [s.rjust(w, "0")] *)
Definition zfill (w : nat) (s : string) : string :=
  string_of_list_ascii (repeat "0"%char (w - String.length s))%nat ++ s.

Definition hex_digit (n : Z) : ascii :=
  match n with
  | 0 => "0" | 1 => "1" | 2 => "2" | 3 => "3" | 4 => "4" | 5 => "5"
  | 6 => "6" | 7 => "7" | 8 => "8" | 9 => "9" | 10 => "a" | 11 => "b"
  | 12 => "c" | 13 => "d" | 14 => "e" | _ => "f"
  end%char.

(** ** Dictionaries

    A [dict] with [str] keys, in insertion order. *)

Definition dict (A : Type) : Type := list (string * A).

(** [d.get(k)] *)
Fixpoint dict_get {A} (k : string) (d : dict A) : option A :=
  match d with
  | [] => None
  | (k', v) :: d' => if String.eqb k k' then Some v else dict_get k d'
  end.

(** [k in d] *)
Definition dict_contains {A} (k : string) (d : dict A) : bool :=
  match dict_get k d with Some _ => true | None => false end.

(** [d[k] = v]: an existing key keeps its position, a new one goes last. *)
Fixpoint dict_set {A} (k : string) (v : A) (d : dict A) : dict A :=
  match d with
  | [] => [(k, v)]
  | (k', v') :: d' =>
      if String.eqb k k' then (k, v) :: d' else (k', v') :: dict_set k v d'
  end.

(** ** Values *)

Inductive value : Type :=
| VNone
| VBool (b : bool)
| VInt (n : Z)
| VFloat (f : spec_float)
| VStr (s : string)
| VList (l : list value)
| VDict (d : list (string * value)).

(** [bool(v)] *)
Definition truthy (v : value) : bool :=
  match v with
  | VNone => false
  | VBool b => b
  | VInt n => negb (n =? 0)
  | VFloat (S754_zero _) => false
  | VFloat _ => true
  | VStr s => negb (str_is_empty s)
  | VList l => match l with [] => false | _ => true end
  | VDict d => match d with [] => false | _ => true end
  end.

(** [isinstance(v, (int, float))]; [bool] is a subclass of [int]. *)
Definition is_int_or_float (v : value) : bool :=
  match v with
  | VBool _ | VInt _ | VFloat _ => true
  | _ => false
  end.

(** ** Exceptions *)

Inductive sqlite_error : Type :=
| IntegrityError (msg : string)
| OperationalError (msg : string)
| ProgrammingError (msg : string).

Inductive exn : Type :=
| RuntimeError (msg : string)
| AttributeError (msg : string)
| JSONDecodeError
| OverflowError (msg : string)
| TimestampOutOfRange
| SqliteError (e : sqlite_error)
| HTTPStatusError (status_code : Z) (text : string)
| RequestError (msg : string)
| UnicodeEncodeError
| InvalidURL
| OSError (msg : string).

Inductive outcome (A : Type) : Type :=
| Returned (a : A)
| Raised (e : exn).
Arguments Returned {A} a.
Arguments Raised {A} e.

(** [x <- c ;; k]: run [c]; an exception leaves at once. *)
Definition bind_outcome {A B} (c : outcome A) (k : A -> outcome B) : outcome B :=
  match c with
  | Returned a => k a
  | Raised e => Raised e
  end.

Declare Scope outcome_scope.
Notation "x <- c ;; k" := (bind_outcome c (fun x => k))
  (at level 61, c at next level, right associativity) : outcome_scope.

(** [payload.get(k)] on whatever [response.json()] produced: only a [dict]
    has the method. *)
Definition value_get (payload : value) (k : string) (default : value)
  : outcome value :=
  match payload with
  | VDict d =>
      Returned (match dict_get k d with Some v => v | None => default end)
  | VNone => Raised (AttributeError "'NoneType' object has no attribute 'get'")
  | VBool _ => Raised (AttributeError "'bool' object has no attribute 'get'")
  | VInt _ => Raised (AttributeError "'int' object has no attribute 'get'")
  | VFloat _ => Raised (AttributeError "'float' object has no attribute 'get'")
  | VStr _ => Raised (AttributeError "'str' object has no attribute 'get'")
  | VList _ => Raised (AttributeError "'list' object has no attribute 'get'")
  end.

(** ** JSON text *)

(** The double quote character, as a string. *)
Definition dquote : string := String (ascii_of_nat 34) "".

(** One character of a JSON string; the default [ensure_ascii] escapes
    everything outside SPACE..TILDE. *)
Definition json_escape_char (c : ascii) : string :=
  let n := Z.of_nat (nat_of_ascii c) in
  if n =? 34 then "\" ++ dquote
  else if n =? 92 then "\\"
  else if n =? 8 then "\b"
  else if n =? 12 then "\f"
  else if n =? 10 then "\n"
  else if n =? 13 then "\r"
  else if n =? 9 then "\t"
  else if (32 <=? n) && (n <=? 126) then String c ""
  else "\u00" ++ String (hex_digit (n / 16)) (String (hex_digit (n mod 16)) "").

Fixpoint json_escape (s : string) : string :=
  match s with
  | EmptyString => ""
  | String c s' => json_escape_char c ++ json_escape s'
  end.

Definition json_string (s : string) : string :=
  dquote ++ json_escape s ++ dquote.

Fixpoint json_members (d : dict string) : string :=
  match d with
  | [] => ""
  | [(k, v)] => json_string k ++ ":" ++ json_string v
  | (k, v) :: d' => json_string k ++ ":" ++ json_string v ++ "," ++ json_members d'
  end.

(** [json.dumps(d, separators=(",", ":"))] for a [dict[str, str]]. *)
Definition json_dumps (d : dict string) : string :=
  "{" ++ json_members d ++ "}".

End Py.

(* ===================================================================== *)
(** * Aware UTC datetimes *)
(* ===================================================================== *)

Module Datetime.
Import Py.

(** A [datetime] whose [tzinfo] is [timezone.utc]; the code builds no
    other kind. *)
Record datetime : Type := mk_datetime {
  year : Z; month : Z; day : Z;
  hour : Z; minute : Z; second : Z; microsecond : Z
}.

(** Proleptic Gregorian date of a day count relative to 1970-01-01. *)
Definition civil_from_days (days : Z) : Z * Z * Z :=
  let z := days + 719468 in
  let era := z / 146097 in
  let doe := z - era * 146097 in
  let yoe := (doe - doe / 1460 + doe / 36524 - doe / 146096) / 365 in
  let doy := doe - (365 * yoe + yoe / 4 - yoe / 100) in
  let mp := (5 * doy + 2) / 153 in
  let d := doy - (153 * mp + 2) / 5 + 1 in
  let m := if mp <? 10 then mp + 3 else mp - 9 in
  let y := yoe + era * 400 + (if m <=? 2 then 1 else 0) in
  (y, m, d).

Definition of_epoch (secs us : Z) : datetime :=
  let '(y, m, d) := civil_from_days (secs / 86400) in
  let r := secs mod 86400 in
  {| year := y; month := m; day := d;
     hour := r / 3600; minute := (r mod 3600) / 60; second := r mod 60;
     microsecond := us |}.

(** 0001-01-01T00:00:00Z and 9999-12-31T23:59:59Z. *)
Definition min_timestamp : Z := -62135596800.
Definition max_timestamp : Z := 253402300799.

Definition checked_of_epoch (secs us : Z) : outcome datetime :=
  if (min_timestamp <=? secs) && (secs <=? max_timestamp)
  then Returned (of_epoch secs us)
  else Raised TimestampOutOfRange.

(** Nearest integer to [m * 2^e] ([m >= 0]), ties to even. *)
Definition round_half_even (m e : Z) : Z :=
  if 0 <=? e then m * 2 ^ e
  else
    let d := 2 ^ (- e) in
    let q := m / d in
    let r := m mod d in
    match (2 * r) ?= d with
    | Lt => q
    | Gt => q + 1
    | Eq => if Z.even q then q else q + 1
    end.

Definition million : spec_float := S754_finite false 1000000 0.

(** The split of a [float] timestamp into whole seconds and microseconds:
    [modf], a binary64 product with [1e6], rounding half to even, and the
    carry into the seconds. *)
Definition float_to_timeval (s : bool) (m : positive) (e : Z) : Z * Z :=
  let sign := if s then -1 else 1 in
  if 0 <=? e then (sign * (Z.pos m * 2 ^ e), 0)
  else
    let d := 2 ^ (- e) in
    let intpart := sign * (Z.pos m / d) in
    let us :=
      match Z.pos m mod d with
      | Z.pos fm =>
          match SFmul 53 1024 (S754_finite s fm e) million with
          | S754_finite _ pm pe => sign * round_half_even (Z.pos pm) pe
          | _ => 0
          end
      | _ => 0
      end in
    if 1000000 <=? us then (intpart + 1, us - 1000000)
    else if us <? 0 then (intpart - 1, us + 1000000)
    else (intpart, us).

(** [dt.datetime.fromtimestamp(t, tz=dt.timezone.utc)] for [t] an [int]
    (or [bool]) or a [float].  Every rejection by the library (a NaN, a
    value outside [time_t], a year outside 1..9999) is reported as
    [TimestampOutOfRange]. *)
Definition fromtimestamp (t : value) : outcome datetime :=
  match t with
  | VBool b => checked_of_epoch (if b then 1 else 0) 0
  | VInt n => checked_of_epoch n 0
  | VFloat (S754_zero _) => checked_of_epoch 0 0
  | VFloat (S754_finite s m e) =>
      let '(secs, us) := float_to_timeval s m e in checked_of_epoch secs us
  | _ => Raised TimestampOutOfRange
  end.

Definition pad (w : nat) (n : Z) : string := zfill w (str_of_int n).

(** [d.isoformat()] *)
Definition isoformat (d : datetime) : string :=
  pad 4 (year d) ++ "-" ++ pad 2 (month d) ++ "-" ++ pad 2 (day d) ++ "T"
  ++ pad 2 (hour d) ++ ":" ++ pad 2 (minute d) ++ ":" ++ pad 2 (second d)
  ++ (if microsecond d =? 0 then "" else "." ++ pad 6 (microsecond d))
  ++ "+00:00".

End Datetime.

(* ===================================================================== *)
(** * app/storage.py *)
(* ===================================================================== *)

Module Storage.
Import Py Datetime.

Local Open Scope outcome_scope.

(** ** The records

    The annotations say [str]; Python does not check them, and the service
    fills [file_id], [filename], [run_id], [thread_id], [assistant_id] and
    [status] with whatever JSON value the provider sent.  Those fields are
    [value]s; the others carry the type their only producer gives them. *)

Module UploadRecord.
Record t : Type := make {
  file_id : value;
  filename : value;
  provider : option string;
  content_type : string;
  bytes : Z;
  uploaded_at : datetime
}.
End UploadRecord.

Module RunRecord.
Record t : Type := make {
  run_id : value;
  thread_id : value;
  assistant_id : value;
  status : value;
  schema_profile : string;
  metadata : dict string;
  started_at : datetime
}.
End RunRecord.

(** ** The database file *)

(** A row of [uploads]; the column types and NOT NULL constraints of
    [_initialise] are the field types. *)
Module UploadRow.
Record t : Type := make {
  id : Z;
  file_id : string;
  filename : string;
  provider : option string;
  content_type : string;
  bytes : Z;
  uploaded_at : string
}.
End UploadRow.

(** A row of [runs]. *)
Module RunRow.
Record t : Type := make {
  id : Z;
  run_id : string;
  thread_id : string;
  assistant_id : option string;
  status : string;
  schema_profile : option string;
  metadata_json : option string;
  started_at : string
}.

(** [SET status = s] on one row. *)
Definition set_status (s : string) (r : t) : t :=
  make (id r) (run_id r) (thread_id r) (assistant_id r) s
       (schema_profile r) (metadata_json r) (started_at r).
End RunRow.

(** A table: its rows in insertion order and the AUTOINCREMENT counter kept
    in [sqlite_sequence]. *)
Record Table (R : Type) : Type := mk_table {
  rows : list R;
  seq : Z
}.
Arguments mk_table {R} rows seq.
Arguments rows {R} t.
Arguments seq {R} t.

(** The file at [database_path]; a table is [None] until it is created. *)
Record Database : Type := mk_database {
  uploads : option (Table UploadRow.t);
  runs : option (Table RunRow.t)
}.

Definition empty_database : Database := mk_database None None.

(** ** The engine *)

(** What lies outside the Python code: whether the engine fails the
    connection or its first statement for a reason of its own (a locked or
    read-only file, a full disk), how it renders a REAL that a TEXT column
    has to store, whether it fails a statement that follows the first one
    on the same connection, and whether the file system lets the directory
    of the database file be made ([mkdir_error] is the [str] of the
    [OSError] it raises otherwise: the path exists as a file, the parent
    is not a directory, permission is denied). *)
Record Engine : Type := mk_engine {
  fault : option sqlite_error;
  real_text : spec_float -> string;
  fault_later : option sqlite_error;
  mkdir_error : option string
}.

Inductive sqlval : Type :=
| SqlNull
| SqlInteger (n : Z)
| SqlReal (f : spec_float)
| SqlText (s : string).

Definition max_rowid : Z := 2 ^ 63 - 1.

(** Binding the [i]-th [?] of a statement. *)
Definition bind (i : Z) (v : value) : outcome sqlval :=
  let unsupported (ty : string) :=
    Raised (SqliteError (ProgrammingError
      ("Error binding parameter " ++ str_of_int i ++ ": type '" ++ ty
       ++ "' is not supported"))) in
  match v with
  | VNone => Returned SqlNull
  | VBool b => Returned (SqlInteger (if b then 1 else 0))
  | VInt n =>
      if (- 2 ^ 63 <=? n) && (n <=? max_rowid) then Returned (SqlInteger n)
      else Raised (OverflowError "Python int too large to convert to SQLite INTEGER")
  | VFloat S754_nan => Returned SqlNull
  | VFloat f => Returned (SqlReal f)
  | VStr s => Returned (SqlText s)
  | VList _ => unsupported "list"
  | VDict _ => unsupported "dict"
  end.

Definition bind_optional (i : Z) (s : option string) : outcome sqlval :=
  bind i (match s with Some s => VStr s | None => VNone end).

(** TEXT affinity: what a TEXT column holds for a bound value, and what a
    bound value is compared as against a TEXT column. *)
Definition text_affinity (e : Engine) (v : sqlval) : option string :=
  match v with
  | SqlNull => None
  | SqlInteger n => Some (str_of_int n)
  | SqlReal f => Some (real_text e f)
  | SqlText s => Some s
  end.

(** A NOT NULL column without default. *)
Definition not_null {A} (column : string) (v : option A) : outcome A :=
  match v with
  | Some a => Returned a
  | None =>
      Raised (SqliteError (IntegrityError ("NOT NULL constraint failed: " ++ column)))
  end.

(** The statement names a table. *)
Definition table_named {R} (name : string) (t : option (Table R))
  : outcome (Table R) :=
  match t with
  | Some t => Returned t
  | None => Raised (SqliteError (OperationalError ("no such table: " ++ name)))
  end.

(** The rowid an AUTOINCREMENT table gives its next row. *)
Definition next_rowid {R} (id : R -> Z) (t : Table R) : outcome Z :=
  let largest := fold_right Z.max (seq t) (map id (rows t)) in
  if largest <? max_rowid then Returned (largest + 1)
  else Raised (SqliteError (OperationalError "database or disk is full")).

(** INSERT OR REPLACE on a table whose UNIQUE column is [key]: the rows
    that hold the new row's key are deleted, the new row is appended. *)
Definition insert_or_replace {R} (key : R -> string) (row : R) (rowid : Z)
    (t : Table R) : Table R :=
  mk_table
    (filter (fun r => negb (String.eqb (key r) (key row))) (rows t) ++ [row])
    rowid.

(** ** MetadataStore *)

(** [_connect]: the body runs on a fresh connection; a normal exit commits,
    an exception closes the connection with nothing committed. *)
Definition _connect {A} (e : Engine) (body : Database -> outcome (A * Database))
    (db : Database) : outcome A * Database :=
  match fault e with
  | Some err => (Raised (SqliteError err), db)
  | None =>
      match body db with
      | Returned (a, db') => (Returned a, db')
      | Raised x => (Raised x, db)
      end
  end.

Definition create_if_not_exists {R} (t : option (Table R)) : option (Table R) :=
  match t with
  | Some t => Some t
  | None => Some (mk_table [] 0)
  end.

(** [_initialise]: two [CREATE TABLE IF NOT EXISTS] statements on one
    connection.  The [sqlite3] module opens no transaction for a DDL
    statement, so each of them is committed as it runs: when the second
    one fails, the table that the first one made stays, and the
    [connection.commit()] at the end of [_connect] has nothing left to
    commit. *)
Definition _initialise (e : Engine) (db : Database) : outcome unit * Database :=
  match fault e with
  | Some err => (Raised (SqliteError err), db)
  | None =>
      let db1 := mk_database (create_if_not_exists (uploads db)) (runs db) in
      match fault_later e with
      | Some err => (Raised (SqliteError err), db1)
      | None =>
          let db2 := mk_database (uploads db1) (create_if_not_exists (runs db1)) in
          (Returned tt, db2)
      end
  end.

(** [MetadataStore(database_path)]: the directory of the file is made
    ([mkdir(parents=True, exist_ok=True)]), then the tables. *)
Definition __init__ (e : Engine) (db : Database) : outcome unit * Database :=
  match mkdir_error e with
  | Some msg => (Raised (OSError msg), db)
  | None => _initialise e db
  end.

Definition log_upload (e : Engine) (record : UploadRecord.t) (db : Database)
  : outcome unit * Database :=
  _connect e (fun db =>
    t <- table_named "uploads" (uploads db) ;;
    p1 <- bind 1 (UploadRecord.file_id record) ;;
    p2 <- bind 2 (UploadRecord.filename record) ;;
    p3 <- bind_optional 3 (UploadRecord.provider record) ;;
    p4 <- bind 4 (VStr (UploadRecord.content_type record)) ;;
    p5 <- bind 5 (VInt (UploadRecord.bytes record)) ;;
    p6 <- bind 6 (VStr (isoformat (UploadRecord.uploaded_at record))) ;;
    rowid <- next_rowid UploadRow.id t ;;
    file_id <- not_null "uploads.file_id" (text_affinity e p1) ;;
    filename <- not_null "uploads.filename" (text_affinity e p2) ;;
    content_type <- not_null "uploads.content_type" (text_affinity e p4) ;;
    bytes <- not_null "uploads.bytes"
               (match p5 with SqlInteger n => Some n | _ => None end) ;;
    uploaded_at <- not_null "uploads.uploaded_at" (text_affinity e p6) ;;
    let row := UploadRow.make rowid file_id filename (text_affinity e p3)
                 content_type bytes uploaded_at in
    Returned (tt, mk_database
                    (Some (insert_or_replace UploadRow.file_id row rowid t))
                    (runs db))) db.

Definition log_run (e : Engine) (record : RunRecord.t) (db : Database)
  : outcome unit * Database :=
  _connect e (fun db =>
    t <- table_named "runs" (runs db) ;;
    p1 <- bind 1 (RunRecord.run_id record) ;;
    p2 <- bind 2 (RunRecord.thread_id record) ;;
    p3 <- bind 3 (RunRecord.assistant_id record) ;;
    p4 <- bind 4 (RunRecord.status record) ;;
    p5 <- bind 5 (VStr (RunRecord.schema_profile record)) ;;
    p6 <- bind 6 (VStr (json_dumps (RunRecord.metadata record))) ;;
    p7 <- bind 7 (VStr (isoformat (RunRecord.started_at record))) ;;
    rowid <- next_rowid RunRow.id t ;;
    run_id <- not_null "runs.run_id" (text_affinity e p1) ;;
    thread_id <- not_null "runs.thread_id" (text_affinity e p2) ;;
    status <- not_null "runs.status" (text_affinity e p4) ;;
    started_at <- not_null "runs.started_at" (text_affinity e p7) ;;
    let row := RunRow.make rowid run_id thread_id (text_affinity e p3) status
                 (text_affinity e p5) (text_affinity e p6) started_at in
    Returned (tt, mk_database
                    (uploads db)
                    (Some (insert_or_replace RunRow.run_id row rowid t)))) db.

(** [UPDATE runs SET status = ? WHERE run_id = ?] *)
Definition update_run_status (e : Engine) (run_id status : value) (db : Database)
  : outcome unit * Database :=
  _connect e (fun db =>
    t <- table_named "runs" (runs db) ;;
    p1 <- bind 1 status ;;
    p2 <- bind 2 run_id ;;
    let selected (r : RunRow.t) :=
      match text_affinity e p2 with
      | Some k => String.eqb (RunRow.run_id r) k
      | None => false
      end in
    if existsb selected (rows t) then
      s <- not_null "runs.status" (text_affinity e p1) ;;
      Returned (tt, mk_database
                      (uploads db)
                      (Some (mk_table
                               (map (fun r => if selected r
                                              then RunRow.set_status s r else r)
                                    (rows t))
                               (seq t))))
    else Returned (tt, db)) db.

(** ** Reading the store *)

(** The TEXT a column holds for a Python value; [None] where it holds NULL
    or the value cannot be bound. *)
Definition stored_text (e : Engine) (v : value) : option string :=
  match bind 0 v with
  | Returned p => text_affinity e p
  | Raised _ => None
  end.

(** The rows of a table that may not exist. *)
Definition rows_of {R} (t : option (Table R)) : list R :=
  match t with
  | Some t => rows t
  | None => []
  end.

(** The rows of [uploads] whose [file_id] is [k], and the rows of [runs]
    whose [run_id] is [k]. *)
Definition uploads_with (k : string) (db : Database) : list UploadRow.t :=
  filter (fun r => String.eqb (UploadRow.file_id r) k) (rows_of (uploads db)).

Definition runs_with (k : string) (db : Database) : list RunRow.t :=
  filter (fun r => String.eqb (RunRow.run_id r) k) (rows_of (runs db)).

(** The UNIQUE constraints of the two tables. *)
Definition keys_unique (db : Database) : Prop :=
  NoDup (map UploadRow.file_id (rows_of (uploads db))) /\
  NoDup (map RunRow.run_id (rows_of (runs db))).

(** [row] holds the field values of [record]. *)
Definition upload_row_holds (e : Engine) (record : UploadRecord.t)
    (row : UploadRow.t) : Prop :=
  stored_text e (UploadRecord.file_id record) = Some (UploadRow.file_id row) /\
  stored_text e (UploadRecord.filename record) = Some (UploadRow.filename row) /\
  UploadRow.provider row = UploadRecord.provider record /\
  UploadRow.content_type row = UploadRecord.content_type record /\
  UploadRow.bytes row = UploadRecord.bytes record /\
  UploadRow.uploaded_at row = isoformat (UploadRecord.uploaded_at record).

Definition run_row_holds (e : Engine) (record : RunRecord.t)
    (row : RunRow.t) : Prop :=
  stored_text e (RunRecord.run_id record) = Some (RunRow.run_id row) /\
  stored_text e (RunRecord.thread_id record) = Some (RunRow.thread_id row) /\
  RunRow.assistant_id row = stored_text e (RunRecord.assistant_id record) /\
  stored_text e (RunRecord.status record) = Some (RunRow.status row) /\
  RunRow.schema_profile row = Some (RunRecord.schema_profile record) /\
  RunRow.metadata_json row = Some (json_dumps (RunRecord.metadata record)) /\
  RunRow.started_at row = isoformat (RunRecord.started_at record).

(** [SET status = s WHERE run_id = k] on one row. *)
Definition with_status (k s : string) (r : RunRow.t) : RunRow.t :=
  if String.eqb (RunRow.run_id r) k then RunRow.set_status s r else r.

(** [r'] is [r] with at most its [status] column changed, to [s]. *)
Definition same_but_status (s : string) (r r' : RunRow.t) : Prop :=
  RunRow.id r' = RunRow.id r /\
  RunRow.run_id r' = RunRow.run_id r /\
  RunRow.thread_id r' = RunRow.thread_id r /\
  RunRow.assistant_id r' = RunRow.assistant_id r /\
  RunRow.status r' = s /\
  RunRow.schema_profile r' = RunRow.schema_profile r /\
  RunRow.metadata_json r' = RunRow.metadata_json r /\
  RunRow.started_at r' = RunRow.started_at r.

End Storage.

(* ===================================================================== *)
(** * app/agents/schemas.py *)
(* ===================================================================== *)

Module Schemas.
Import Py.

Definition ty (name : string) : value := VDict [("type", VStr name)].

(** The literal [{"type": "object", "additionalProperties": False,
    "required": [...], "properties": {...}}]. *)
Definition closed_object (required : list string) (properties : dict value)
  : value :=
  VDict [("type", VStr "object");
         ("additionalProperties", VBool false);
         ("required", VList (map VStr required));
         ("properties", VDict properties)].

Definition label_total_list : value :=
  VDict [("type", VStr "array");
         ("items", closed_object ["label"; "total"]
                     [("label", ty "string"); ("total", ty "number")])].

Definition FINANCIAL_REPORT_SCHEMA : value :=
  VDict
    [("name", VStr "financial_reports");
     ("schema",
      VDict
        [("$schema", VStr "http://json-schema.org/draft-07/schema#");
         ("type", VStr "object");
         ("additionalProperties", VBool false);
         ("required",
          VList [VStr "income_statement"; VStr "cash_flow";
                 VStr "expense_breakdown"]);
         ("properties",
          VDict
            [("income_statement",
              closed_object ["periods"]
                [("periods",
                  VDict
                    [("type", VStr "array");
                     ("minItems", VInt 1);
                     ("items",
                      closed_object
                        ["label"; "revenue"; "cogs"; "gross_profit";
                         "operating_expenses"; "operating_income";
                         "other_net"; "taxes"; "net_income"; "margins"]
                        [("label", ty "string");
                         ("revenue", ty "number");
                         ("cogs", ty "number");
                         ("gross_profit", ty "number");
                         ("operating_expenses", ty "number");
                         ("operating_income", ty "number");
                         ("other_net", ty "number");
                         ("taxes", ty "number");
                         ("net_income", ty "number");
                         ("margins",
                          closed_object ["gross"; "operating"; "net"]
                            [("gross", ty "number");
                             ("operating", ty "number");
                             ("net", ty "number")])])])]);
             ("cash_flow",
              closed_object ["operating"; "investing"; "financing"; "net_change"]
                [("operating", ty "number");
                 ("investing", ty "number");
                 ("financing", ty "number");
                 ("net_change", ty "number")]);
             ("expense_breakdown",
              closed_object ["by_category"; "by_vendor"; "by_month"]
                [("by_category", label_total_list);
                 ("by_vendor", label_total_list);
                 ("by_month", label_total_list)])])]);
     ("strict", VBool true)].

Definition SCHEMA_PROFILES : dict value :=
  [("income_cashflow_expense",
    VDict [("type", VStr "json_schema");
           ("json_schema", FINANCIAL_REPORT_SCHEMA);
           ("strict", VBool true)])].

(** [SCHEMA_PROFILES.get(profile)] *)
Definition get_response_format (profile : string) : value :=
  match dict_get profile SCHEMA_PROFILES with
  | Some v => v
  | None => VNone
  end.

End Schemas.

(* ===================================================================== *)
(** * app/services/agent_service.py *)
(* ===================================================================== *)

Module Service.
Import Py Datetime Storage Schemas.

(** ** Configuration and inputs *)

(** [app.config.Settings] *)
Record Settings : Type := mk_settings {
  environment : string;
  openai_api_key : option string;
  openai_base_url : string;
  openai_assistant_id : option string;
  cors_allow_origins : list string;
  data_directory : string;
  database_path : string
}.

(** The [MetadataStore] object: a handle on the file at its path. *)
Record MetadataStore : Type := mk_store { _database_path : string }.

Record AgentService : Type := mk_service {
  _settings : Settings;
  _store : option MetadataStore;
  _base_url : string
}.

(** [s.rstrip("/")] *)
Fixpoint rstrip_slash (s : string) : string :=
  match s with
  | EmptyString => EmptyString
  | String c s' =>
      let t := rstrip_slash s' in
      if Ascii.eqb c "/" && str_is_empty t then EmptyString else String c t
  end.

(** [AgentService(settings, store)] *)
Definition new_service (settings : Settings) (store : option MetadataStore)
  : AgentService :=
  mk_service settings store (rstrip_slash (openai_base_url settings)).

(** What the service reads of a FastAPI [UploadFile]. *)
Module UploadFile.
Record t : Type := make {
  filename : option string;
  content_type : option string;
  contents : list Byte.byte
}.
End UploadFile.

(** [app.schemas.AgentRunRequest] *)
Module AgentRunRequest.
Record t : Type := make {
  file_ids : list string;
  instructions : string;
  response_schema : string;
  metadata : option (dict string)
}.
End AgentRunRequest.

(** The dictionaries the two operations return. *)
Module UploadResult.
Record t : Type := make {
  file_id : value;
  filename : value;
  provider : option string;
  content_type : string;
  bytes : Z;
  uploaded_at : datetime
}.
End UploadResult.

Module RunResult.
Record t : Type := make {
  run_id : value;
  status : value;
  thread_id : value;
  started_at : datetime;
  dashboard_url : value;
  assistant_id : value;
  requested_schema : string;
  metadata : dict string
}.
End RunResult.

(** ** The provider *)

(** The path of a POST; [ThreadRuns id] is [f"/threads/{id}/runs"]. *)
Inductive Endpoint : Type :=
| Files
| Threads
| ThreadRuns (thread_id : value).

Inductive Body : Type :=
| Multipart (data : dict string)
            (files : dict (string * list Byte.byte * string))
| Json (json : value).

Record Request : Type := mk_request {
  base_url : string;
  headers : dict string;
  timeout : Z;
  endpoint : Endpoint;
  body : Body
}.

(** A response: [json] is [None] when the body does not parse. *)
Record Response : Type := mk_response {
  status_code : Z;
  text : string;
  json : option value
}.

(** What a POST comes to: a response; an [httpx.RequestError] whose [str]
    is [msg]; or an exception [e] that the client raises before it sends
    anything, because it cannot build the client or the request. *)
Inductive Reply : Type :=
| Responded (r : Response)
| Unreachable (msg : string)
| Refused (e : exn).

(** ** What the client refuses *)

(** [Headers(headers)] encodes every name and value as ASCII and raises
    [UnicodeEncodeError] for a text that has another character. *)
Definition encodable (headers : dict string) : bool :=
  forallb (fun kv => negb (str_exists (fun c => negb (isascii c)) (fst kv))
                     && negb (str_exists (fun c => negb (isascii c)) (snd kv)))
          headers.

(** [URL(text)] raises [httpx.InvalidURL] for a text with an ASCII
    character that is not printable. *)
Definition parses (url : string) : bool := negb (str_exists ascii_control url).

(** The path of a POST parses.  [f"/threads/{thread_id}/runs"] holds
    [str(thread_id)]: the text itself for a [str]; for any other value
    [str] writes such characters escaped, or writes none. *)
Definition path_parses (ep : Endpoint) : bool :=
  match ep with
  | ThreadRuns (VStr thread_id) => parses thread_id
  | _ => true
  end.

(** The exception a request is refused with, for the reasons above.  The
    client is built first, from [base_url] and then [headers]; the path is
    parsed when [post] is called. *)
Definition refusal (req : Request) : option exn :=
  if negb (parses (base_url req)) then Some InvalidURL
  else if negb (encodable (headers req)) then Some UnicodeEncodeError
  else if negb (path_parses (endpoint req)) then Some InvalidURL
  else None.

(** ** The environment and the effects *)

(** [transport] is what the client and the provider do with a request:
    the answer, the transport error, or a refusal of the client for a
    reason that is not fixed above (a URL it finds too long, a host it
    cannot encode). *)
Record Env : Type := mk_env {
  transport : Request -> Reply;
  utcnow : datetime;
  engine : Engine
}.

(** What a POST of [req] comes to: a refusal when [transport] reports one
    or when one of the reasons fixed above applies, and the reply of
    [transport] otherwise.  A request that gets a response, or a transport
    error, is one that the client did not refuse. *)
Definition http (env : Env) (req : Request) : Reply :=
  match transport env req with
  | Refused e => Refused e
  | reply =>
      match refusal req with
      | Some e => Refused e
      | None => reply
      end
  end.

Record World : Type := mk_world {
  requests : list Request;
  database : Database
}.

Definition M (A : Type) : Type := World -> outcome A * World.

Definition ret {A} (a : A) : M A := fun w => (Returned a, w).

Definition raise {A} (e : exn) : M A := fun w => (Raised e, w).

Definition bind_M {A B} (c : M A) (k : A -> M B) : M B :=
  fun w =>
    match c w with
    | (Returned a, w') => k a w'
    | (Raised e, w') => (Raised e, w')
    end.

(** [try: body except ...: handler] *)
Definition try_except {A} (body : M A) (handler : exn -> M A) : M A :=
  fun w =>
    match body w with
    | (Returned a, w') => (Returned a, w')
    | (Raised e, w') => handler e w'
    end.

Definition lift {A} (c : outcome A) : M A := fun w => (c, w).

Declare Scope io_scope.
Notation "x <- c ;; k" := (bind_M c (fun x => k))
  (at level 61, c at next level, right associativity) : io_scope.
Notation "c ;;; k" := (bind_M c (fun _ => k))
  (at level 61, right associativity) : io_scope.
Local Open Scope io_scope.

Section Operations.

Variable env : Env.

(** [httpx.AsyncClient(...)] and [await client.post(...)] followed by
    [response.raise_for_status()]: a request that the client refuses
    raises with nothing sent; otherwise the request goes out, a transport
    failure is an [httpx.RequestError], and [raise_for_status], as httpx
    documents it, raises [httpx.HTTPStatusError] for every answer that is
    not a 2xx success. *)
Definition post (req : Request) : M Response :=
  fun w =>
    let w' := mk_world (requests w ++ [req]) (database w) in
    match http env req with
    | Refused e => (Raised e, w)
    | Unreachable msg => (Raised (RequestError msg), w')
    | Responded r =>
        if (200 <=? status_code r) && (status_code r <=? 299)
        then (Returned r, w')
        else (Raised (HTTPStatusError (status_code r) (text r)), w')
    end.

(** [response.json()] *)
Definition response_json (r : Response) : M value :=
  match json r with
  | Some v => ret v
  | None => raise JSONDecodeError
  end.

(** [dt.datetime.now(tz=dt.timezone.utc)] *)
Definition now : M datetime := ret (utcnow env).

(** A call of a [MetadataStore] method on the file. *)
Definition on_store (op : Database -> outcome unit * Database) : M unit :=
  fun w =>
    let '(o, db) := op (database w) in
    (o, mk_world (requests w) db).

(** [not s] for an optional string. *)
Definition unset (s : option string) : bool :=
  match s with
  | Some s => str_is_empty s
  | None => true
  end.

(** [s or default] *)
Definition or_default (s : option string) (default : string) : string :=
  match s with
  | Some s => if str_is_empty s then default else s
  | None => default
  end.

(** [if not s: raise RuntimeError(msg)], then [s] is a non-empty [str]. *)
Definition configured (s : option string) (msg : string) : M string :=
  if unset s then raise (RuntimeError msg)
  else ret (match s with Some v => v | None => "" end).

Definition _build_headers (self : AgentService) : M (dict string) :=
  openai_api_key <-
    configured (openai_api_key (_settings self)) "OPENAI_API_KEY is not configured." ;;
  ret [("Authorization", "Bearer " ++ openai_api_key);
       ("OpenAI-Beta", "assistants=v2")].

Definition upload_source (self : AgentService) (file : UploadFile.t)
    (provider : option string) : M UploadResult.t :=
  headers <- _build_headers self ;;
  let contents := UploadFile.contents file in
  let filename := or_default (UploadFile.filename file) "upload" in
  let content_type :=
    or_default (UploadFile.content_type file) "application/octet-stream" in
  let data := [("purpose", "assistants")] in
  let files := [("file", (filename, contents, content_type))] in
  response <-
    try_except
      (post (mk_request (_base_url self) headers 60 Files (Multipart data files)))
      (fun exc =>
         match exc with
         | HTTPStatusError status_code text =>
             let error_body := str_take 500 text in
             raise (RuntimeError ("OpenAI Files API error ("
                                  ++ str_of_int status_code ++ "): " ++ error_body))
         | RequestError msg =>
             raise (RuntimeError ("Failed to reach OpenAI Files API: " ++ msg))
         | _ => raise exc
         end) ;;
  payload <- response_json response ;;
  file_id <- lift (value_get payload "id" VNone) ;;
  if negb (truthy file_id)
  then raise (RuntimeError "OpenAI Files API response did not include a file id.")
  else
    uploaded_at <- now ;;
    result_filename <- lift (value_get payload "filename" (VStr filename)) ;;
    let result :=
      UploadResult.make file_id result_filename provider content_type
        (Z.of_nat (List.length contents)) uploaded_at in
    match _store self with
    | Some store =>
        if truthy file_id
        then on_store (log_upload (engine env)
                         (UploadRecord.make file_id (UploadResult.filename result)
                            provider content_type
                            (Z.of_nat (List.length contents)) uploaded_at))
        else ret tt
    | None => ret tt
    end ;;;
    ret result.

Definition default_instructions : string :=
  "Read the uploaded spreadsheets and produce the structured JSON outputs defined by the schema.".

Definition message_payload (file_ids : list string) : value :=
  VDict
    [("role", VStr "user");
     ("content",
      VList [VDict [("type", VStr "text");
                    ("text", VStr "Please review the attached spreadsheets. Follow the run instructions to generate the required financial summaries.")]]);
     ("attachments", VList (map (fun file_id => VDict [("file_id", VStr file_id)]) file_ids))].

(** [request.metadata or {}] *)
Definition metadata_or_empty (request : AgentRunRequest.t) : dict string :=
  match AgentRunRequest.metadata request with
  | Some ((_ :: _) as d) => d
  | _ => []
  end.

Definition str_dict (d : dict string) : value :=
  VDict (map (fun kv => (fst kv, VStr (snd kv))) d).

(** The [run_body] of [start_agent_run], as it stands when it is posted. *)
Definition build_run_body (assistant_id : string) (request : AgentRunRequest.t)
  : dict value :=
  let run_body := [("assistant_id", VStr assistant_id)] in
  let run_body :=
    match AgentRunRequest.metadata request with
    | Some ((_ :: _) as d) => dict_set "metadata" (str_dict d) run_body
    | _ => run_body
    end in
  let response_format :=
    get_response_format (AgentRunRequest.response_schema request) in
  let run_body :=
    if truthy response_format
    then dict_set "response_format" response_format run_body
    else run_body in
  let instructions_text := strip (AgentRunRequest.instructions request) in
  let run_body :=
    if negb (str_is_empty instructions_text)
    then dict_set "instructions" (VStr instructions_text) run_body
    else run_body in
  let run_body :=
    if negb (dict_contains "instructions" run_body)
    then dict_set "instructions" (VStr default_instructions) run_body
    else run_body in
  run_body.

Definition start_agent_run (self : AgentService) (request : AgentRunRequest.t)
  : M RunResult.t :=
  headers <- _build_headers self ;;
  assistant_id <-
    configured (openai_assistant_id (_settings self))
      "OPENAI_ASSISTANT_ID is not configured." ;;
  (
    let client := mk_request (_base_url self) headers 60 in
    tr <-
      try_except
        (thread_response <-
           post (client Threads
                   (Json (VDict [("messages",
                                  VList [message_payload
                                           (AgentRunRequest.file_ids request)])]))) ;;
         thread_payload <- response_json thread_response ;;
         thread_id <- lift (value_get thread_payload "id" VNone) ;;
         if negb (truthy thread_id)
         then raise (RuntimeError "OpenAI Threads API response did not include a thread id.")
         else
           let run_body := build_run_body assistant_id request in
           run_response <- post (client (ThreadRuns thread_id) (Json (VDict run_body))) ;;
           ret (thread_id, run_response))
        (fun exc =>
           match exc with
           | HTTPStatusError status_code text =>
               let error_body := str_take 500 text in
               raise (RuntimeError ("OpenAI Agents API error ("
                                    ++ str_of_int status_code ++ "): " ++ error_body))
           | RequestError msg =>
               raise (RuntimeError ("Failed to reach OpenAI Agents API: " ++ msg))
           | _ => raise exc
           end) ;;
    let '(thread_id, run_response) := tr in
    run_payload <- response_json run_response ;;
    run_id <- lift (value_get run_payload "id" VNone) ;;
    if negb (truthy run_id)
    then raise (RuntimeError "OpenAI Agents API response did not include a run id.")
    else
      status <- lift (value_get run_payload "status" (VStr "queued")) ;;
      created_at <- lift (value_get run_payload "created_at" VNone) ;;
      started_at <-
        (if is_int_or_float created_at
         then lift (fromtimestamp created_at)
         else now) ;;
      dashboard_url <- lift (value_get run_payload "dashboard_url" VNone) ;;
      result_assistant_id <-
        lift (value_get run_payload "assistant_id" (VStr assistant_id)) ;;
      let result :=
        RunResult.make run_id status thread_id started_at dashboard_url
          result_assistant_id (AgentRunRequest.response_schema request)
          (metadata_or_empty request) in
      match _store self with
      | Some store =>
          if truthy run_id
          then on_store (log_run (engine env)
                           (RunRecord.make run_id thread_id
                              (RunResult.assistant_id result) status
                              (AgentRunRequest.response_schema request)
                              (metadata_or_empty request) started_at))
          else ret tt
      | None => ret tt
      end ;;;
      ret result).

End Operations.

(** ** Reading a call *)

(** The requests a call adds to the log. *)
Definition issued {A} (c : M A) (w : World) : list Request :=
  skipn (List.length (requests w)) (requests (snd (c w))).

(** A response is a success when its status is 2xx. *)
Definition is_success (r : Response) : bool :=
  (200 <=? status_code r) && (status_code r <=? 299).

(** [d.get(k, default)] on a dictionary. *)
Definition get_or (d : dict value) (k : string) (default : value) : value :=
  match dict_get k d with
  | Some v => v
  | None => default
  end.

(** The dictionary [upload_source] builds from the Files payload [d]. *)
Definition upload_result (env : Env) (file : UploadFile.t)
    (provider : option string) (d : dict value) : UploadResult.t :=
  UploadResult.make
    (get_or d "id" VNone)
    (get_or d "filename" (VStr (or_default (UploadFile.filename file) "upload")))
    provider
    (or_default (UploadFile.content_type file) "application/octet-stream")
    (Z.of_nat (List.length (UploadFile.contents file)))
    (utcnow env).

(** The record it hands to [log_upload]. *)
Definition upload_record (result : UploadResult.t) : UploadRecord.t :=
  UploadRecord.make
    (UploadResult.file_id result) (UploadResult.filename result)
    (UploadResult.provider result) (UploadResult.content_type result)
    (UploadResult.bytes result) (UploadResult.uploaded_at result).

(** The [started_at] that [start_agent_run] reads off the Runs payload [d]. *)
Definition started_at_of (env : Env) (d : dict value) : outcome datetime :=
  if is_int_or_float (get_or d "created_at" VNone)
  then fromtimestamp (get_or d "created_at" VNone)
  else Returned (utcnow env).

(** The dictionary [start_agent_run] builds from the Runs payload [d]. *)
Definition run_result (request : AgentRunRequest.t) (assistant_id : string)
    (thread_id : value) (d : dict value) (started_at : datetime)
  : RunResult.t :=
  RunResult.make
    (get_or d "id" VNone)
    (get_or d "status" (VStr "queued"))
    thread_id
    started_at
    (get_or d "dashboard_url" VNone)
    (get_or d "assistant_id" (VStr assistant_id))
    (AgentRunRequest.response_schema request)
    (metadata_or_empty request).

(** The record it hands to [log_run]. *)
Definition run_record (result : RunResult.t) : RunRecord.t :=
  RunRecord.make
    (RunResult.run_id result) (RunResult.thread_id result)
    (RunResult.assistant_id result) (RunResult.status result)
    (RunResult.requested_schema result) (RunResult.metadata result)
    (RunResult.started_at result).

(** A 2xx answer whose body is the JSON object [d]. *)
Definition success_with (r : Response) (d : dict value) : Prop :=
  is_success r = true /\ json r = Some (VDict d).

(** The service's errors are all [RuntimeError]s; the kind of failure is in
    the message. *)
Definition api_key_not_configured : exn :=
  RuntimeError "OPENAI_API_KEY is not configured.".

Definition assistant_id_not_configured : exn :=
  RuntimeError "OPENAI_ASSISTANT_ID is not configured.".

Definition ConfigurationError (e : exn) : Prop :=
  e = api_key_not_configured \/ e = assistant_id_not_configured.

Definition missing_file_id : exn :=
  RuntimeError "OpenAI Files API response did not include a file id.".

Definition missing_thread_id : exn :=
  RuntimeError "OpenAI Threads API response did not include a thread id.".

Definition missing_run_id : exn :=
  RuntimeError "OpenAI Agents API response did not include a run id.".

Definition ProtocolError (e : exn) : Prop :=
  e = missing_file_id \/ e = missing_thread_id \/ e = missing_run_id.

End Service.

(* ===================================================================== *)
(** * A concrete deployment, used to run the model *)
(* ===================================================================== *)

Module Examples.
Import Py Datetime Storage Schemas Service.

Definition settings : Settings :=
  mk_settings "staging" (Some "sk-test") "https://api.openai.com/v1/"
    (Some "asst_1") ["http://localhost:3000"] "./data" "./data/metadata.db".

Definition no_credential : Settings :=
  mk_settings "staging" None "https://api.openai.com/v1/"
    (Some "asst_1") ["http://localhost:3000"] "./data" "./data/metadata.db".

Definition service : AgentService :=
  new_service settings (Some (mk_store "./data/metadata.db")).

Definition service_without_credential : AgentService :=
  new_service no_credential (Some (mk_store "./data/metadata.db")).

(** A 1024-byte CSV. *)
Definition q1_csv : UploadFile.t :=
  UploadFile.make (Some "q1.csv") (Some "text/csv") (repeat Byte.x2c 1024%nat).

Definition run_request : AgentRunRequest.t :=
  AgentRunRequest.make ["file_abc"] "" "income_cashflow_expense" None.

Definition default_profile_request : AgentRunRequest.t :=
  AgentRunRequest.make ["file_abc"] "  Summarise Q1.  " "default"
    (Some [("client", "acme")]).

(** An engine that works (no REAL is ever stored in these runs), and one
    whose database file is locked. *)
Definition sqlite : Engine := mk_engine None (fun _ => "0.0") None None.

Definition locked : Engine :=
  mk_engine (Some (OperationalError "database is locked")) (fun _ => "0.0")
    None None.

Definition clock : datetime := mk_datetime 2024 1 15 9 30 0 0.

Definition member (k : string) (v : string) : string :=
  json_string k ++ ":" ++ v.

Definition file_response : Response :=
  mk_response 200
    (json_dumps [("id", "file_abc"); ("filename", "q1.csv")])
    (Some (VDict [("id", VStr "file_abc"); ("filename", VStr "q1.csv")])).

Definition thread_response : Response :=
  mk_response 200
    (json_dumps [("id", "thread_1")])
    (Some (VDict [("id", VStr "thread_1")])).

Definition run_response : Response :=
  mk_response 200
    ("{" ++ member "id" (json_string "run_1") ++ ","
         ++ member "status" (json_string "queued") ++ ","
         ++ member "created_at" "1700000000" ++ "}")
    (Some (VDict [("id", VStr "run_1"); ("status", VStr "queued");
                  ("created_at", VInt 1700000000)])).

(** A run whose [created_at] is the JSON literal [true]. *)
Definition run_response_created_at_true : Response :=
  mk_response 200
    ("{" ++ member "id" (json_string "run_1") ++ ","
         ++ member "created_at" "true" ++ "}")
    (Some (VDict [("id", VStr "run_1"); ("created_at", VBool true)])).

(** A 2xx answer that is a JSON object with no [id]. *)
Definition response_without_id : Response :=
  mk_response 200
    (json_dumps [("object", "unknown")])
    (Some (VDict [("object", VStr "unknown")])).

Definition rate_limited : Response :=
  mk_response 429 "Rate limit reached for requests" None.

(** The provider: one reply per endpoint. *)
Definition provider (files threads runs : Response) (req : Request) : Reply :=
  match endpoint req with
  | Files => Responded files
  | Threads => Responded threads
  | ThreadRuns _ => Responded runs
  end.

Definition env : Env :=
  mk_env (provider file_response thread_response run_response) clock sqlite.

Definition env_locked : Env :=
  mk_env (provider file_response thread_response run_response) clock locked.

Definition env_rate_limited : Env :=
  mk_env (provider rate_limited thread_response rate_limited) clock sqlite.

Definition env_without_id : Env :=
  mk_env (provider response_without_id response_without_id response_without_id)
    clock sqlite.

Definition env_thread_only : Env :=
  mk_env (provider file_response thread_response response_without_id)
    clock sqlite.

Definition env_created_at_true : Env :=
  mk_env (provider file_response thread_response run_response_created_at_true)
    clock sqlite.

(** The database right after [MetadataStore(database_path)], and the world
    the service starts in. *)
Definition fresh_database : Database := snd (__init__ sqlite empty_database).

Definition world : World := mk_world [] fresh_database.

(** The run-creation request that [service] sends for [request] on the
    thread [thread_1]. *)
Definition runs_request (request : AgentRunRequest.t) : Request :=
  mk_request "https://api.openai.com/v1"
    [("Authorization", "Bearer sk-test"); ("OpenAI-Beta", "assistants=v2")]
    60 (ThreadRuns (VStr "thread_1"))
    (Json (VDict (build_run_body "asst_1" request))).

Definition upload_record (file_id filename : string) (size : Z) : UploadRecord.t :=
  UploadRecord.make (VStr file_id) (VStr filename) None "text/csv" size clock.

Definition run_record (run_id status : string) : RunRecord.t :=
  RunRecord.make (VStr run_id) (VStr "thread_1") (VStr "asst_1") (VStr status)
    "income_cashflow_expense" [] clock.

End Examples.

(* ===================================================================== *)
(** * Reading the store: what a write needs and what it leaves *)
(* ===================================================================== *)

Module Store.
Import Py Datetime Storage.

(** The engine can bind the value to a [?]. *)
Definition bindable (v : value) : Prop :=
  exists p, bind 0 v = Returned p.

(** The table can still number a new row. *)
Definition rowid_available {R} (id : R -> Z) (t : Table R) : Prop :=
  fold_right Z.max (seq t) (map id (rows t)) < max_rowid.

(** What [log_upload] needs of a record: TEXT that is not NULL for the two
    NOT NULL columns filled from the provider's answer, and a byte count
    that fits an SQLite INTEGER. *)
Definition upload_storable (e : Engine) (record : UploadRecord.t) : Prop :=
  (exists k, stored_text e (UploadRecord.file_id record) = Some k) /\
  (exists n, stored_text e (UploadRecord.filename record) = Some n) /\
  - 2 ^ 63 <= UploadRecord.bytes record <= max_rowid.

(** What [log_run] needs of a record. *)
Definition run_storable (e : Engine) (record : RunRecord.t) : Prop :=
  (exists k, stored_text e (RunRecord.run_id record) = Some k) /\
  (exists t, stored_text e (RunRecord.thread_id record) = Some t) /\
  bindable (RunRecord.assistant_id record) /\
  (exists s, stored_text e (RunRecord.status record) = Some s).

(** The exceptions that [sqlite3] raises through the store: its own
    errors, and [OverflowError] for an [int] that does not fit 64 bits. *)
Definition database_error (x : exn) : Prop :=
  match x with
  | SqliteError _ | OverflowError _ => True
  | _ => False
  end.

(** The [OSError] of the directory that cannot be made. *)
Definition filesystem_error (x : exn) : Prop :=
  match x with
  | OSError _ => True
  | _ => False
  end.

(** Every rowid of the table is below [bound]. *)
Definition rowids_below {R} (id : R -> Z) (bound : Z) (l : list R) : Prop :=
  Forall (fun r => id r < bound) l.

End Store.

(* ===================================================================== *)
(** * The requests the service sends *)
(* ===================================================================== *)

Module Requests.
Import Py Datetime Storage Schemas Service.

(** The value of a setting that has passed [if not s: raise]. *)
Definition setting (s : option string) : string :=
  match s with
  | Some v => v
  | None => ""
  end.

(** The headers [_build_headers] returns. *)
Definition auth_headers (self : AgentService) : dict string :=
  [("Authorization", "Bearer " ++ setting (openai_api_key (_settings self)));
   ("OpenAI-Beta", "assistants=v2")].

(** [client.post("/files", data=data, files=files)] *)
Definition files_request (self : AgentService) (file : UploadFile.t) : Request :=
  mk_request (_base_url self) (auth_headers self) 60 Files
    (Multipart [("purpose", "assistants")]
       [("file", (or_default (UploadFile.filename file) "upload",
                  UploadFile.contents file,
                  or_default (UploadFile.content_type file)
                    "application/octet-stream"))]).

(** [client.post("/threads", json={"messages": [message_payload]})] *)
Definition threads_request (self : AgentService) (request : AgentRunRequest.t)
  : Request :=
  mk_request (_base_url self) (auth_headers self) 60 Threads
    (Json (VDict [("messages",
                   VList [message_payload (AgentRunRequest.file_ids request)])])).

(** [client.post(f"/threads/{thread_id}/runs", json=run_body)] *)
Definition runs_request (self : AgentService) (request : AgentRunRequest.t)
    (thread_id : value) : Request :=
  mk_request (_base_url self) (auth_headers self) 60 (ThreadRuns thread_id)
    (Json (VDict (build_run_body
                    (setting (openai_assistant_id (_settings self))) request))).

(** The thread id a reply to the Threads request carries, when the reply is
    one the service goes on with: a 2xx JSON object with a truthy [id]. *)
Definition accepted_thread (reply : Reply) : option value :=
  match reply with
  | Responded r =>
      if is_success r then
        match json r with
        | Some (VDict d) =>
            if truthy (get_or d "id" VNone) then Some (get_or d "id" VNone)
            else None
        | _ => None
        end
      else None
  | Unreachable _ => None
  | Refused _ => None
  end.

(** The requests that a POST of [req] puts on the wire. *)
Definition sent (env : Env) (req : Request) : list Request :=
  match http env req with
  | Refused _ => []
  | _ => [req]
  end.


(** The text ends with a slash. *)
Fixpoint ends_with_slash (s : string) : bool :=
  match s with
  | EmptyString => false
  | String c EmptyString => Ascii.eqb c "/"
  | String _ s' => ends_with_slash s'
  end.

(** [n] slashes. *)
Fixpoint slashes (n : nat) : string :=
  match n with
  | O => EmptyString
  | S n' => String "/" (slashes n')
  end.

(** [request.metadata] is truthy. *)
Definition has_metadata (request : AgentRunRequest.t) : bool :=
  match AgentRunRequest.metadata request with
  | Some (_ :: _) => true
  | _ => false
  end.

End Requests.

(* ===================================================================== *)
(** * app/config.py *)
(* ===================================================================== *)

Module Config.
Import Py Service.

(** [s.split(sep)] for a one-character separator. *)
Fixpoint split (sep : ascii) (s : string) : list string :=
  match s with
  | EmptyString => [EmptyString]
  | String c s' =>
      if Ascii.eqb c sep then EmptyString :: split sep s'
      else
        match split sep s' with
        | piece :: pieces => String c piece :: pieces
        | [] => [String c EmptyString]
        end
  end.

(** What [Settings.<field>] evaluates to.  The class is declared with
    [@dataclass(slots=True)]: the decorator rebuilds the class with
    [__slots__] and drops the defaults from the class namespace, so the
    name of a field, read off the class, is the slot's member descriptor
    and not the default value of the field. *)
Inductive class_attribute : Type :=
| member_descriptor (field : string).

Definition Settings_attribute (field : string) : class_attribute :=
  member_descriptor field.

(** [attr.as_posix()] on such an attribute. *)
Definition as_posix (a : class_attribute) : outcome string :=
  match a with
  | member_descriptor _ =>
      Raised (AttributeError "'member_descriptor' object has no attribute 'as_posix'")
  end.

(** The value of the local [origins]. *)
Inductive origins_value : Type :=
| Tuple (items : list string)
| ClassDefault (a : class_attribute).

(** The character occurs in the text. *)
Definition occurs (c : ascii) (s : string) : Prop :=
  In c (list_ascii_of_string s).

(** The local [origins] of [get_settings], for the text [raw] that
    [os.getenv("CORS_ALLOW_ORIGINS", ...)] gave. *)
Definition origins_of (raw : string) : origins_value :=
  let cors_origins := strip raw in
  if negb (str_is_empty cors_origins)
  then Tuple (map strip
                (filter (fun origin => negb (str_is_empty (strip origin)))
                        (split "," cors_origins)))
  else ClassDefault (Settings_attribute "cors_allow_origins").

Section GetSettings.

(** [os.getenv] *)
Variable getenv : string -> option string.

(** The statements of [get_settings] from the call of [Path] on: they
    receive [origins] and the default of [DATA_DIRECTORY]. *)
Variable settings_from : origins_value -> string -> outcome Settings.

(** [os.getenv(name, default)] *)
Definition getenv_or (name default : string) : string :=
  match getenv name with
  | Some v => v
  | None => default
  end.

(** The body of [get_settings]; the arguments of a call are evaluated
    before the call. *)
Definition get_settings : outcome Settings :=
  let origins := origins_of (getenv_or "CORS_ALLOW_ORIGINS" "") in
  bind_outcome (as_posix (Settings_attribute "data_directory"))
    (fun default_directory => settings_from origins default_directory).

End GetSettings.

End Config.

(* ===================================================================== *)
(** * app/api/routes.py *)
(* ===================================================================== *)

Module Routes.
Import Py Datetime Storage Service.

(** What a route hands back to the framework: the response model, an
    [HTTPException], the validation error of the response model, or an
    exception it does not handle. *)
Inductive reply (A : Type) : Type :=
| Response (a : A)
| HTTPException (status_code : Z) (detail : string)
| ValidationError
| Unhandled (e : exn).
Arguments Response {A} a.
Arguments HTTPException {A} status_code detail.
Arguments ValidationError {A}.
Arguments Unhandled {A} e.

Definition supported_content_types : list string :=
  ["text/csv"; "application/vnd.ms-excel";
   "application/vnd.openxmlformats-officedocument.spreadsheetml.sheet"].

(** [file.content_type in {...}] *)
Definition supported (content_type : option string) : bool :=
  match content_type with
  | Some c => existsb (String.eqb c) supported_content_types
  | None => false
  end.

(** [except RuntimeError as exc: raise HTTPException(502, detail=str(exc))];
    any other exception leaves the route as it is. *)
Definition bad_gateway {A} (e : exn) : reply A :=
  match e with
  | RuntimeError msg => HTTPException 502 msg
  | _ => Unhandled e
  end.

Section Handlers.

Variable env : Env.

(** The pydantic models of [app/schemas.py]: building one validates the
    dictionary and gives the model or fails. *)
Variables upload_model run_model : Type.
Variable FileUploadResponse : UploadResult.t -> option upload_model.
Variable AgentRunResponse : RunResult.t -> option run_model.

Definition validated {A B} (model : A -> option B) (result : A) : reply B :=
  match model result with
  | Some m => Response m
  | None => ValidationError
  end.

Definition upload_file (file : UploadFile.t) (provider : option string)
    (service : AgentService) (w : World) : reply upload_model * World :=
  if negb (supported (UploadFile.content_type file))
  then (HTTPException 415 "Only CSV or XLSX files are supported.", w)
  else
    match upload_source env service file provider w with
    | (Raised exc, w') => (bad_gateway exc, w')
    | (Returned result, w') => (validated FileUploadResponse result, w')
    end.

Definition create_run (request : AgentRunRequest.t) (service : AgentService)
    (w : World) : reply run_model * World :=
  match start_agent_run env service request w with
  | (Raised exc, w') => (bad_gateway exc, w')
  | (Returned run, w') => (validated AgentRunResponse run, w')
  end.

End Handlers.

End Routes.

(* ===================================================================== *)
(** * More runs of the model *)
(* ===================================================================== *)

Module Scenarios.
Import Py Datetime Storage Schemas Service.

(** The provider cannot be reached. *)
Definition offline (req : Request) : Reply :=
  Unreachable "All connection attempts failed".

Definition env_offline : Env :=
  mk_env offline Examples.clock Examples.sqlite.

(** The Runs endpoint cannot be reached once the thread exists. *)
Definition runs_offline (req : Request) : Reply :=
  match endpoint req with
  | ThreadRuns _ => Unreachable "All connection attempts failed"
  | _ => Responded Examples.thread_response
  end.

Definition env_runs_offline : Env :=
  mk_env runs_offline Examples.clock Examples.sqlite.

(** A 2xx answer whose body is the JSON list [[]], and one whose body is
    no JSON at all. *)
Definition list_response : Response :=
  mk_response 200 "[]" (Some (VList [])).


Definition env_list : Env :=
  mk_env (Examples.provider list_response list_response list_response)
    Examples.clock Examples.sqlite.


Definition env_list_run : Env :=
  mk_env (Examples.provider list_response Examples.thread_response list_response)
    Examples.clock Examples.sqlite.

(** A run whose [created_at] counts milliseconds. *)
Definition run_response_in_milliseconds : Response :=
  mk_response 200
    ("{" ++ Examples.member "id" (json_string "run_1") ++ ","
         ++ Examples.member "created_at" "1700000000000" ++ "}")
    (Some (VDict [("id", VStr "run_1"); ("created_at", VInt 1700000000000)])).

Definition env_milliseconds : Env :=
  mk_env (Examples.provider Examples.file_response Examples.thread_response
            run_response_in_milliseconds)
    Examples.clock Examples.sqlite.

Definition service_without_assistant : AgentService :=
  new_service
    (mk_settings "staging" (Some "sk-test") "https://api.openai.com/v1/" None
       ["http://localhost:3000"] "./data" "./data/metadata.db")
    (Some (mk_store "./data/metadata.db")).

Definition service_without_store : AgentService :=
  new_service Examples.settings None.

(** An upload whose content type the route does not accept. *)
Definition notes_txt : UploadFile.t :=
  UploadFile.make (Some "notes.txt") (Some "text/plain") [Byte.x68; Byte.x69].

(** The database after one upload and one run have been logged. *)
Definition one_of_each : Database :=
  snd (log_run Examples.sqlite (Examples.run_record "run_1" "queued")
         (snd (log_upload Examples.sqlite
                 (Examples.upload_record "file_abc" "q1.csv" 1024)
                 Examples.fresh_database))).

(** An error whose body is longer than the excerpt that is reported:
    600 times [x]. *)
Definition xs (n : nat) : string := string_of_list_ascii (repeat "x"%char n).

Definition long_error : Response := mk_response 503 (xs 600) None.

Definition env_long_error : Env :=
  mk_env (Examples.provider long_error Examples.thread_response long_error)
    Examples.clock Examples.sqlite.

(** A service whose API key ends in [U+00E9], which is not ASCII. *)
Definition service_with_latin_key : AgentService :=
  new_service
    (mk_settings "staging" (Some ("sk-" ++ String (ascii_of_nat 233) ""))
       "https://api.openai.com/v1/" (Some "asst_1")
       ["http://localhost:3000"] "./data" "./data/metadata.db")
    (Some (mk_store "./data/metadata.db")).

(** A thread whose id holds a line feed. *)
Definition thread_with_line_feed : string :=
  "thread" ++ String (ascii_of_nat 10) "1".

Definition thread_response_with_line_feed : Response :=
  mk_response 200
    (json_dumps [("id", thread_with_line_feed)])
    (Some (VDict [("id", VStr thread_with_line_feed)])).

Definition env_line_feed : Env :=
  mk_env (Examples.provider Examples.file_response
            thread_response_with_line_feed Examples.run_response)
    Examples.clock Examples.sqlite.

(** An engine whose disk is full once the first statement of a connection
    has run, and one that cannot make the directory of the file. *)
Definition full_after_one : Engine :=
  mk_engine None (fun _ => "0.0")
    (Some (OperationalError "database or disk is full")) None.

Definition no_directory : Engine :=
  mk_engine None (fun _ => "0.0") None
    (Some "[Errno 17] File exists: 'data'").

(** An environment of the process: only [CORS_ALLOW_ORIGINS] is set. *)
Definition environ (name : string) : option string :=
  if String.eqb name "CORS_ALLOW_ORIGINS"
  then Some " https://a.example , https://b.example "
  else None.

End Scenarios.

(* ===================================================================== *)
(** * Facts about the string operations *)
(* ===================================================================== *)

Module PyFacts.
Import Py.

Lemma str_take_length (n : nat) (s : string) :
  (String.length (str_take n s) <= n)%nat.
Proof.
  revert s; induction n as [|n IH]; intros [|c s]; simpl; try lia.
  specialize (IH s); lia.
Qed.

Lemma str_take_prefix (n : nat) (s : string) :
  exists rest, s = str_take n s ++ rest.
Proof.
  revert s; induction n as [|n IH]; intros s.
  - exists s; reflexivity.
  - destruct s as [|c s]; simpl.
    + exists ""; reflexivity.
    + destruct (IH s) as [rest E]. exists rest. now rewrite <- E.
Qed.

Lemma str_take_length_min (n : nat) (s : string) :
  String.length (str_take n s) = Nat.min n (String.length s).
Proof.
  revert s; induction n as [|n IH]; intros [|c s]; simpl; try reflexivity.
  now rewrite IH.
Qed.

Lemma str_take_all (n : nat) (s : string) :
  (String.length s <= n)%nat -> str_take n s = s.
Proof.
  revert s; induction n as [|n IH]; intros [|c s]; simpl; intros H;
    try reflexivity; try lia.
  f_equal; apply IH; lia.
Qed.

(** [str(n)] is the decimal numeral of [n]: it reads back as [n]. *)
Lemma str_of_int_decimal (n : Z) :
  option_map Z.of_int (NilZero.int_of_string (str_of_int n)) = Some n.
Proof.
  unfold str_of_int. rewrite NilZero.isi.
  - simpl. now rewrite DecimalZ.of_to.
  - destruct n; simpl; try discriminate.
    intros [= H]. now apply (DecimalPos.Unsigned.to_uint_nonnil p).
  - destruct n; simpl; try discriminate.
    intros [= H]. now apply (DecimalPos.Unsigned.to_uint_nonnil p).
Qed.

Lemma lstrip_split (s : string) :
  exists l, s = l ++ lstrip s /\ all_space l = true.
Proof.
  induction s as [|c s [l [E Hl]]]; simpl.
  - exists ""; split; reflexivity.
  - destruct (isspace c) eqn:Hc.
    + exists (String c l); simpl. rewrite Hc, Hl, <- E. split; reflexivity.
    + exists ""; split; reflexivity.
Qed.

Lemma lstrip_head (s : string) (c : ascii) (t : string) :
  lstrip s = String c t -> isspace c = false.
Proof.
  induction s as [|a s IH]; simpl; [discriminate|].
  destruct (isspace a) eqn:Ha; [exact IH|].
  intros E; injection E as <- _; exact Ha.
Qed.

Lemma rstrip_split (s : string) :
  exists r, s = rstrip s ++ r /\ all_space r = true.
Proof.
  induction s as [|c s [r [E Hr]]]; simpl.
  - exists ""; split; reflexivity.
  - destruct (isspace c && str_is_empty (rstrip s)) eqn:Hc.
    + apply andb_prop in Hc as [Hc He].
      destruct (rstrip s); [|discriminate]. simpl in E; subst r.
      exists (String c s); simpl. rewrite Hc, Hr. split; reflexivity.
    + exists r; simpl. rewrite <- E. split; [reflexivity|exact Hr].
Qed.

Lemma rstrip_last (s : string) (c : ascii) (t : string) :
  rstrip s = t ++ String c "" -> isspace c = false.
Proof.
  revert t; induction s as [|a s IH]; intros t; simpl.
  - destruct t; discriminate.
  - destruct (isspace a && str_is_empty (rstrip s)) eqn:Ha.
    + destruct t; discriminate.
    + destruct t as [|b t]; simpl; intros E; injection E as E1 E2.
      * subst a. rewrite E2 in Ha. simpl in Ha.
        now rewrite andb_true_r in Ha.
      * exact (IH _ E2).
Qed.

Lemma rstrip_head (s : string) (c : ascii) (t : string) :
  rstrip s = String c t -> exists t', s = String c t'.
Proof.
  destruct s as [|a s]; simpl; [discriminate|].
  destruct (isspace a && str_is_empty (rstrip s)); [discriminate|].
  intros E; injection E as <- _. now exists s.
Qed.

Lemma rstrip_empty (s : string) : str_is_empty (rstrip s) = all_space s.
Proof.
  induction s as [|c s IH]; simpl; [reflexivity|].
  rewrite IH. destruct (isspace c), (all_space s); reflexivity.
Qed.

Lemma append_assoc (a b c : string) : (a ++ b) ++ c = a ++ b ++ c.
Proof. induction a as [|x a IH]; simpl; [reflexivity|now rewrite IH]. Qed.

(** [strip] removes exactly a run of whitespace on each side. *)
Lemma strip_spec (s : string) :
  exists l r,
    s = l ++ strip s ++ r /\ all_space l = true /\ all_space r = true /\
    trimmed (strip s).
Proof.
  destruct (lstrip_split s) as [l [El Hl]].
  destruct (rstrip_split (lstrip s)) as [r [Er Hr]].
  exists l, r. unfold strip. repeat split; try assumption.
  - now rewrite <- Er.
  - intros c t E. destruct (rstrip_head _ _ _ E) as [t' E'].
    exact (lstrip_head _ _ _ E').
  - intros c t E. exact (rstrip_last _ _ _ E).
Qed.

(** [strip] leaves nothing exactly when there is only whitespace. *)
Lemma strip_empty (s : string) : str_is_empty (strip s) = all_space s.
Proof.
  unfold strip. rewrite rstrip_empty.
  induction s as [|c s IH]; simpl; [reflexivity|].
  destruct (isspace c) eqn:Hc; simpl; [exact IH|now rewrite Hc].
Qed.

Lemma dict_get_set_same {A} (k : string) (v : A) (d : dict A) :
  dict_get k (dict_set k v d) = Some v.
Proof.
  induction d as [|[k' v'] d IH]; simpl.
  - now rewrite String.eqb_refl.
  - destruct (String.eqb k k') eqn:E; simpl.
    + now rewrite String.eqb_refl.
    + now rewrite E.
Qed.

Lemma dict_get_set_other {A} (k k' : string) (v : A) (d : dict A) :
  k <> k' -> dict_get k (dict_set k' v d) = dict_get k d.
Proof.
  intros N. apply String.eqb_neq in N.
  induction d as [|[k0 v0] d IH]; simpl.
  - now rewrite N.
  - destruct (String.eqb k' k0) eqn:E; simpl.
    + apply String.eqb_eq in E; subst k0. now rewrite N.
    + now rewrite IH.
Qed.

End PyFacts.

(* ===================================================================== *)
(** * Facts about the metadata store *)
(* ===================================================================== *)

Module StorageFacts.
Import Py Datetime Storage.
Local Open Scope outcome_scope.

(** An exception from inside [_connect] leaves the file as it was. *)
Lemma connect_raised {A} (e : Engine) (body : Database -> outcome (A * Database))
    (db db' : Database) (x : exn) :
  _connect e body db = (Raised x, db') -> db' = db.
Proof.
  unfold _connect. destruct (fault e); [now intros [= _ <-]|].
  destruct (body db) as [[a d]|y]; [discriminate|now intros [= _ <-]].
Qed.

Lemma connect_returned {A} (e : Engine) (body : Database -> outcome (A * Database))
    (db db' : Database) (a : A) :
  _connect e body db = (Returned a, db') ->
  fault e = None /\ body db = Returned (a, db').
Proof.
  unfold _connect. destruct (fault e); [discriminate|].
  destruct (body db) as [[a' d]|y]; [|discriminate].
  now intros [= <- <-].
Qed.

Lemma bind_returned (c : outcome sqlval) {B} (k : sqlval -> outcome B) (b : B) :
  (x <- c ;; k x) = Returned b -> exists p, c = Returned p /\ k p = Returned b.
Proof. destruct c as [p|x]; simpl; [now exists p|discriminate]. Qed.

Lemma bind_index (i j : Z) (v : value) (p : sqlval) :
  bind i v = Returned p -> bind j v = Returned p.
Proof.
  destruct v as [| | n |f| | |]; simpl; try (intros H; exact H); try discriminate.
Qed.

Lemma stored_text_bound (e : Engine) (i : Z) (v : value) (p : sqlval) :
  bind i v = Returned p -> stored_text e v = text_affinity e p.
Proof. intros H. unfold stored_text. now rewrite (bind_index _ 0 _ _ H). Qed.

Section InsertOrReplace.

Context {R : Type} (key : R -> string).

Lemma replaced_row_alone (row : R) (rowid : Z) (t : Table R) :
  filter (fun r => String.eqb (key r) (key row))
         (rows (insert_or_replace key row rowid t)) = [row].
Proof.
  unfold insert_or_replace; simpl. rewrite filter_app; simpl.
  rewrite String.eqb_refl.
  induction (rows t) as [|r l IH]; simpl; [reflexivity|].
  destruct (String.eqb (key r) (key row)) eqn:E; simpl; [exact IH|].
  now rewrite E.
Qed.

Lemma insert_or_replace_unique (row : R) (rowid : Z) (t : Table R) :
  NoDup (map key (rows t)) ->
  NoDup (map key (rows (insert_or_replace key row rowid t))).
Proof.
  unfold insert_or_replace; simpl. intros H.
  rewrite map_app; simpl.
  apply NoDup_app; [| repeat constructor; intros [] |].
  - induction (rows t) as [|r l IH]; simpl; [constructor|].
    inversion H as [|? ? Hr Hl]; subst.
    destruct (String.eqb (key r) (key row)); simpl; [now apply IH|].
    constructor; [|now apply IH].
    intros Hin. apply Hr. apply in_map_iff in Hin as [r' [E Hin]].
    apply filter_In in Hin as [Hin _]. rewrite <- E. now apply in_map.
  - intros k Hk [<-|[]].
    apply in_map_iff in Hk as [r' [E Hin]].
    apply filter_In in Hin as [_ Hne]. rewrite E, String.eqb_refl in Hne.
    discriminate.
Qed.

End InsertOrReplace.

Ltac bound H :=
  let p := fresh "p" in
  let B := fresh "B" in
  apply bind_returned in H as [p [B H]].

Lemma not_null_returned {A B} (column : string) (v : option A)
    (k : A -> outcome B) (b : B) :
  (x <- not_null column v ;; k x) = Returned b ->
  exists a, v = Some a /\ k a = Returned b.
Proof. destruct v as [a|]; simpl; [now exists a|discriminate]. Qed.

Lemma table_named_returned {R B} (name : string) (t : option (Table R))
    (k : Table R -> outcome B) (b : B) :
  (x <- table_named name t ;; k x) = Returned b ->
  exists t0, t = Some t0 /\ k t0 = Returned b.
Proof. destruct t as [t0|]; simpl; [now exists t0|discriminate]. Qed.

Lemma next_rowid_returned {R B} (id : R -> Z) (t : Table R)
    (k : Z -> outcome B) (b : B) :
  (x <- next_rowid id t ;; k x) = Returned b ->
  exists rowid, k rowid = Returned b.
Proof.
  unfold next_rowid. destruct (_ <? _); simpl; [eauto|discriminate].
Qed.

Ltac nonnull H :=
  let a := fresh "a" in
  let N := fresh "N" in
  apply not_null_returned in H as [a [N H]].

(** What a [log_upload] that returns has done. *)
Lemma log_upload_returned (e : Engine) (record : UploadRecord.t)
    (db db' : Database) :
  log_upload e record db = (Returned tt, db') ->
  exists t row,
    uploads db = Some t /\
    db' = mk_database
            (Some (insert_or_replace UploadRow.file_id row (UploadRow.id row) t))
            (runs db) /\
    upload_row_holds e record row.
Proof.
  intros H. apply connect_returned in H as [_ H].
  apply table_named_returned in H as [t [Ht H]].
  do 6 bound H.
  apply next_rowid_returned in H as [rowid H].
  do 5 nonnull H.
  injection H as <-.
  exists t, (UploadRow.make rowid a a0 (text_affinity e p1) a1 a2 a3).
  split; [exact Ht|]. split; [reflexivity|].
  unfold upload_row_holds; simpl.
  rewrite (stored_text_bound _ _ _ _ B), (stored_text_bound _ _ _ _ B0).
  unfold bind_optional in B1.
  destruct (UploadRecord.provider record); simpl in *;
    injection B1 as <-; injection B2 as <-; injection B4 as <-;
    simpl in *; injection N1 as <-; injection N3 as <-;
    destruct (_ && _) in B3; try discriminate; injection B3 as <-;
    injection N2 as <-; auto 10.
Qed.

Lemma log_run_returned (e : Engine) (record : RunRecord.t)
    (db db' : Database) :
  log_run e record db = (Returned tt, db') ->
  exists t row,
    runs db = Some t /\
    db' = mk_database
            (uploads db)
            (Some (insert_or_replace RunRow.run_id row (RunRow.id row) t)) /\
    run_row_holds e record row.
Proof.
  intros H. apply connect_returned in H as [_ H].
  apply table_named_returned in H as [t [Ht H]].
  do 7 bound H.
  apply next_rowid_returned in H as [rowid H].
  do 4 nonnull H.
  injection H as <-.
  exists t, (RunRow.make rowid a a0 (text_affinity e p1) a1
               (text_affinity e p3) (text_affinity e p4) a2).
  split; [exact Ht|]. split; [reflexivity|].
  unfold run_row_holds; simpl.
  rewrite (stored_text_bound _ _ _ _ B), (stored_text_bound _ _ _ _ B0),
    (stored_text_bound _ _ _ _ B1), (stored_text_bound _ _ _ _ B2).
  simpl in *. injection B3 as <-; injection B4 as <-; injection B5 as <-.
  simpl in *. injection N2 as <-. auto 10.
Qed.


(** ** The status update *)

Lemma with_status_keys (k s : string) (l : list RunRow.t) :
  map RunRow.run_id (map (with_status k s) l) = map RunRow.run_id l.
Proof.
  induction l as [|r l IH]; simpl; [reflexivity|]. rewrite IH. f_equal.
  unfold with_status. now destruct (String.eqb (RunRow.run_id r) k).
Qed.

Lemma with_status_none (k s : string) (l : list RunRow.t) :
  existsb (fun r => String.eqb (RunRow.run_id r) k) l = false ->
  map (with_status k s) l = l.
Proof.
  induction l as [|r l IH]; simpl; [reflexivity|].
  intros H. apply orb_false_iff in H as [Hr Hl].
  rewrite (IH Hl). unfold with_status. now rewrite Hr.
Qed.

Lemma with_status_frame (k s : string) (l : list RunRow.t) :
  Forall2 (fun r r' => if String.eqb (RunRow.run_id r) k
                       then same_but_status s r r' else r' = r)
          l (map (with_status k s) l).
Proof.
  induction l as [|r l IH]; simpl; constructor; [|exact IH].
  unfold with_status. destruct (String.eqb (RunRow.run_id r) k);
    [|reflexivity].
  unfold same_but_status; simpl. auto 10.
Qed.

Lemma filter_nil_existsb {A} (f : A -> bool) (l : list A) :
  filter f l = [] -> existsb f l = false.
Proof.
  induction l as [|a l IH]; simpl; [reflexivity|].
  destruct (f a); [discriminate|exact IH].
Qed.

(** What an [update_run_status] that returns has done. *)
Lemma update_run_status_returned (e : Engine) (run_id status : value)
    (db db' : Database) :
  update_run_status e run_id status db = (Returned tt, db') ->
  db' = db \/
  exists t k s,
    runs db = Some t /\
    db' = mk_database (uploads db)
            (Some (mk_table (map (with_status k s) (rows t)) (seq t))).
Proof.
  intros H. apply connect_returned in H as [_ H].
  apply table_named_returned in H as [t [Ht H]].
  do 2 bound H.
  destruct (existsb _ (rows t)) eqn:Hex; [|left; now injection H].
  nonnull H. injection H as <-. right.
  destruct (text_affinity e p0) as [k|] eqn:Hk.
  - exists t, k, a. split; [exact Ht|reflexivity].
  - exfalso. clear -Hex. induction (rows t); simpl in Hex; [discriminate|auto].
Qed.

(** ** The UNIQUE constraints hold after every operation *)

Lemma rows_of_created {R} (t : option (Table R)) :
  rows_of (create_if_not_exists t) = rows_of t.
Proof. now destruct t. Qed.

Lemma initialise_unique (e : Engine) (db : Database) :
  keys_unique db -> keys_unique (snd (_initialise e db)).
Proof.
  intros H. unfold _initialise. destruct (fault e); [exact H|].
  destruct (fault_later e); unfold keys_unique; simpl;
    now rewrite ?rows_of_created.
Qed.

Lemma log_upload_unique (e : Engine) (record : UploadRecord.t) (db : Database) :
  keys_unique db -> keys_unique (snd (log_upload e record db)).
Proof.
  intros [Hu Hr]. destruct (log_upload e record db) as [[[]|x] db'] eqn:E; simpl.
  - apply log_upload_returned in E as (t & row & Ht & -> & _).
    split; [|exact Hr].
    apply (insert_or_replace_unique UploadRow.file_id row (UploadRow.id row) t).
    now rewrite Ht in Hu.
  - apply connect_raised in E as ->. now split.
Qed.

Lemma log_run_unique (e : Engine) (record : RunRecord.t) (db : Database) :
  keys_unique db -> keys_unique (snd (log_run e record db)).
Proof.
  intros [Hu Hr]. destruct (log_run e record db) as [[[]|x] db'] eqn:E; simpl.
  - apply log_run_returned in E as (t & row & Ht & -> & _).
    split; [exact Hu|].
    apply (insert_or_replace_unique RunRow.run_id row (RunRow.id row) t).
    now rewrite Ht in Hr.
  - apply connect_raised in E as ->. now split.
Qed.

Lemma update_run_status_unique (e : Engine) (run_id status : value)
    (db : Database) :
  keys_unique db -> keys_unique (snd (update_run_status e run_id status db)).
Proof.
  intros [Hu Hr].
  destruct (update_run_status e run_id status db) as [[[]|x] db'] eqn:E; simpl.
  - apply update_run_status_returned in E as [->|(t & k & s & Ht & ->)];
      [now split|].
    split; simpl; [exact Hu|]. rewrite with_status_keys. now rewrite Ht in Hr.
  - apply connect_raised in E as ->. now split.
Qed.

(** C8. Logging a record whose [file_id] (or [run_id]) was logged before
    leaves exactly one row under that id, and the row holds the field
    values of the later call; no operation of the store ever breaks the
    uniqueness of [file_id] in [uploads] and of [run_id] in [runs]. *)
Theorem logging_twice_keeps_one_row :
  (forall e1 e2 first second db db2,
      UploadRecord.file_id first = UploadRecord.file_id second ->
      log_upload e2 second (snd (log_upload e1 first db)) = (Returned tt, db2) ->
      exists k row,
        stored_text e2 (UploadRecord.file_id second) = Some k /\
        uploads_with k db2 = [row] /\
        upload_row_holds e2 second row) /\
  (forall e1 e2 first second db db2,
      RunRecord.run_id first = RunRecord.run_id second ->
      log_run e2 second (snd (log_run e1 first db)) = (Returned tt, db2) ->
      exists k row,
        stored_text e2 (RunRecord.run_id second) = Some k /\
        runs_with k db2 = [row] /\
        run_row_holds e2 second row) /\
  (forall e db,
      keys_unique db ->
      keys_unique (snd (_initialise e db)) /\
      (forall record, keys_unique (snd (log_upload e record db))) /\
      (forall record, keys_unique (snd (log_run e record db))) /\
      (forall run_id status,
          keys_unique (snd (update_run_status e run_id status db)))).
Proof.
  split; [|split].
  - intros e1 e2 first second db db2 _ H.
    apply log_upload_returned in H as (t & row & _ & -> & Hrow).
    exists (UploadRow.file_id row), row.
    split; [apply Hrow|]. split; [|exact Hrow].
    apply (replaced_row_alone UploadRow.file_id).
  - intros e1 e2 first second db db2 _ H.
    apply log_run_returned in H as (t & row & _ & -> & Hrow).
    exists (RunRow.run_id row), row.
    split; [apply Hrow|]. split; [|exact Hrow].
    apply (replaced_row_alone RunRow.run_id).
  - intros e db H. split; [now apply initialise_unique|].
    split; [intros; now apply log_upload_unique|].
    split; [intros; now apply log_run_unique|].
    intros; now apply update_run_status_unique.
Qed.

(** C9. [update_run_status] on an existing table changes the [status]
    column of the rows with that [run_id] and nothing else; with no such
    row the whole file is as before and the call returns; a call that
    raises leaves the file as before. *)
Theorem update_run_status_changes_only_status :
  (forall e run_id status db t,
      fault e = None ->
      runs db = Some t ->
      exists t',
        update_run_status e (VStr run_id) (VStr status) db
          = (Returned tt, mk_database (uploads db) (Some t')) /\
        seq t' = seq t /\
        Forall2 (fun r r' => if String.eqb (RunRow.run_id r) run_id
                             then same_but_status status r r' else r' = r)
                (rows t) (rows t')) /\
  (forall e run_id status db,
      runs_with run_id db = [] ->
      snd (update_run_status e (VStr run_id) (VStr status) db) = db) /\
  (forall e run_id status db x,
      fst (update_run_status e run_id status db) = Raised x ->
      snd (update_run_status e run_id status db) = db).
Proof.
  split; [|split].
  - intros e run_id status db t Hf Ht.
    exists (mk_table (map (with_status run_id status) (rows t)) (seq t)).
    split; [|split; [reflexivity|apply with_status_frame]].
    unfold update_run_status, _connect. rewrite Hf, Ht. simpl.
    destruct (existsb _ (rows t)) eqn:Hex; simpl; [reflexivity|].
    rewrite (with_status_none _ _ _ Hex).
    destruct db as [u r]; simpl in *; subst r. now destruct t.
  - intros e run_id status db Hnone.
    unfold update_run_status, _connect. destruct (fault e); [reflexivity|].
    unfold runs_with in Hnone.
    destruct (runs db) as [t|]; simpl in *; [|reflexivity].
    now rewrite (filter_nil_existsb _ _ Hnone).
  - intros e run_id status db x H.
    destruct (update_run_status e run_id status db) as [o db'] eqn:E.
    simpl in *; subst o. now apply connect_raised in E.
Qed.


Lemma logging_twice_keeps_one_row_witness :
  (exists k row,
      stored_text Examples.sqlite (VStr "file_abc") = Some k /\
      uploads_with k
        (snd (log_upload Examples.sqlite (Examples.upload_record "file_abc" "q1-final.csv" 2048)
           (snd (log_upload Examples.sqlite (Examples.upload_record "file_abc" "q1.csv" 1024)
              Examples.fresh_database)))) = [row] /\
      upload_row_holds Examples.sqlite
        (Examples.upload_record "file_abc" "q1-final.csv" 2048) row) /\
  (exists k row,
      stored_text Examples.sqlite (VStr "run_1") = Some k /\
      runs_with k
        (snd (log_run Examples.sqlite (Examples.run_record "run_1" "completed")
           (snd (log_run Examples.sqlite (Examples.run_record "run_1" "queued")
              Examples.fresh_database)))) = [row] /\
      run_row_holds Examples.sqlite (Examples.run_record "run_1" "completed") row) /\
  keys_unique
    (snd (log_upload Examples.sqlite (Examples.upload_record "file_abc" "q1.csv" 1024)
       Examples.fresh_database)).
Proof.
  destruct logging_twice_keeps_one_row as (U & R & I).
  split; [|split].
  - apply (U Examples.sqlite Examples.sqlite
             (Examples.upload_record "file_abc" "q1.csv" 1024)
             (Examples.upload_record "file_abc" "q1-final.csv" 2048)
             Examples.fresh_database); reflexivity.
  - apply (R Examples.sqlite Examples.sqlite
             (Examples.run_record "run_1" "queued")
             (Examples.run_record "run_1" "completed")
             Examples.fresh_database); reflexivity.
  - apply (I Examples.sqlite Examples.fresh_database).
    split; simpl; constructor.
Defined.

Lemma update_run_status_changes_only_status_witness :
  exists t',
    update_run_status Examples.sqlite (VStr "run_1") (VStr "running")
      (snd (log_run Examples.sqlite (Examples.run_record "run_1" "queued")
         Examples.fresh_database))
    = (Returned tt, mk_database (Some (mk_table [] 0)) (Some t')) /\
    seq t' = 1 /\
    Forall2 (fun r r' => if String.eqb (RunRow.run_id r) "run_1"
                         then same_but_status "running" r r' else r' = r)
      [RunRow.make 1 "run_1" "thread_1" (Some "asst_1") "queued"
         (Some "income_cashflow_expense") (Some "{}")
         "2024-01-15T09:30:00+00:00"]
      (rows t').
Proof.
  apply (proj1 update_run_status_changes_only_status Examples.sqlite
           "run_1" "running"
           (snd (log_run Examples.sqlite (Examples.run_record "run_1" "queued")
              Examples.fresh_database))
           (mk_table
              [RunRow.make 1 "run_1" "thread_1" (Some "asst_1") "queued"
                 (Some "income_cashflow_expense") (Some "{}")
                 "2024-01-15T09:30:00+00:00"] 1));
    reflexivity.
Defined.

End StorageFacts.

(* ===================================================================== *)
(** * Facts about the agent service *)
(* ===================================================================== *)

Module ServiceFacts.
Import Py Datetime Storage Schemas Service Requests.
Import PyFacts StorageFacts.

Ltac unfold_service :=
  unfold upload_source, start_agent_run, _build_headers, configured, bind_M,
    try_except, post, ret, raise, lift, response_json, now, on_store,
    issued, is_success, success_with in *.

Ltac reduce :=
  cbn -[log_upload log_run truthy is_int_or_float fromtimestamp
        build_run_body str_of_int str_take skipn String.append http] in *.

(** Case analysis on the innermost undecided test of the goal. *)
Ltac case_step :=
  match goal with
  | |- context [match ?x with _ => _ end] =>
      lazymatch x with
      | context [match _ with _ => _ end] => fail
      | _ => let E := fresh "E" in destruct x eqn:E
      end
  end.

(** What is known of a dictionary settles the branch. *)
Ltac known :=
  repeat match goal with
  | E : dict_get ?k ?d = _, H : context [dict_get ?k ?d] |- _ =>
      lazymatch type of H with
      | dict_get k d = _ => fail
      | _ => rewrite E in H
      end
  end;
  try congruence.

Ltac cases := repeat (reduce; try case_step; try known).

(** Following the one path that the hypotheses select. *)
Ltac along :=
  unfold files_request, threads_request, runs_request, auth_headers, setting,
    get_or in *;
  repeat (reduce;
          match goal with
          | H : ?l = _ |- context [?l] => rewrite H
          end).

Lemma skipn_own_length {A} (l l' : list A) :
  skipn (List.length l) (l ++ l') = l'.
Proof. induction l; simpl; auto. Qed.

Lemma skipn_whole {A} (l : list A) : skipn (List.length l) l = [].
Proof. induction l; simpl; auto. Qed.

(** C2. Without a credential [upload_source] raises the configuration
    error at once: the world is as before, no request has gone out. *)
Theorem upload_without_credential_fails_before_any_request :
  forall env self file provider w,
    unset (openai_api_key (_settings self)) = true ->
    upload_source env self file provider w = (Raised api_key_not_configured, w) /\
    ConfigurationError api_key_not_configured /\
    issued (upload_source env self file provider) w = [].
Proof.
  intros env self file provider w H.
  assert (E : upload_source env self file provider w
              = (Raised api_key_not_configured, w)).
  { unfold_service. now rewrite H. }
  split; [exact E|]. split; [now left|].
  unfold issued. rewrite E. apply skipn_whole.
Qed.

Lemma upload_without_credential_witness :
  upload_source Examples.env Examples.service_without_credential
    Examples.q1_csv None Examples.world
    = (Raised api_key_not_configured, Examples.world) /\
  ConfigurationError api_key_not_configured /\
  issued (upload_source Examples.env Examples.service_without_credential
            Examples.q1_csv None) Examples.world = [].
Proof.
  apply (upload_without_credential_fails_before_any_request
           Examples.env Examples.service_without_credential
           Examples.q1_csv None Examples.world).
  reflexivity.
Defined.

Lemma upload_source_error_keeps_database env self file provider w x :
  fst (upload_source env self file provider w) = Raised x ->
  database (snd (upload_source env self file provider w)) = database w.
Proof.
  unfold_service. cases.
  all: intros _; match goal with E : log_upload _ _ _ = _ |- _ =>
    now apply connect_raised in E end.
Qed.

Lemma start_agent_run_error_keeps_database env self request w x :
  fst (start_agent_run env self request w) = Raised x ->
  database (snd (start_agent_run env self request w)) = database w.
Proof.
  unfold_service. cases.
  all: intros _; match goal with E : log_run _ _ _ = _ |- _ =>
    now apply connect_raised in E end.
Qed.

(** C10. A call that raises, whatever the exception, leaves the database
    as it was. *)
Theorem errors_leave_the_store_unchanged :
  (forall env self file provider w x,
      fst (upload_source env self file provider w) = Raised x ->
      database (snd (upload_source env self file provider w)) = database w) /\
  (forall env self request w x,
      fst (start_agent_run env self request w) = Raised x ->
      database (snd (start_agent_run env self request w)) = database w).
Proof.
  split.
  - exact upload_source_error_keeps_database.
  - exact start_agent_run_error_keeps_database.
Qed.


(** ** Results carry an id *)

Lemma truthy_not_none (v : value) : truthy v = true -> v <> VNone.
Proof. intros H ->. discriminate. Qed.

Lemma upload_result_has_id env self file provider w result :
  fst (upload_source env self file provider w) = Returned result ->
  truthy (UploadResult.file_id result) = true.
Proof.
  unfold_service. cases.
  all: intros [= <-]; reduce;
    first [assumption | now apply negb_false_iff].
Qed.

Lemma run_result_has_ids env self request w result :
  fst (start_agent_run env self request w) = Returned result ->
  truthy (RunResult.run_id result) = true /\
  truthy (RunResult.thread_id result) = true.
Proof.
  unfold_service. cases.
  all: intros [= <-]; reduce; split;
    first [assumption | now apply negb_false_iff].
Qed.


(** ** Answers that are not a success *)

Lemma upload_upstream_status env self file provider w r :
  unset (openai_api_key (_settings self)) = false ->
  http env (files_request self file) = Responded r ->
  is_success r = false ->
  fst (upload_source env self file provider w)
    = Raised (RuntimeError ("OpenAI Files API error ("
                            ++ str_of_int (status_code r) ++ "): "
                            ++ str_take 500 (text r))).
Proof.
  intros Hk Ha Hs. unfold_service. along. reflexivity.
Qed.

Lemma run_upstream_status env self request w rt dt r :
  unset (openai_api_key (_settings self)) = false ->
  unset (openai_assistant_id (_settings self)) = false ->
  http env (threads_request self request) = Responded rt ->
  success_with rt dt ->
  truthy (get_or dt "id" VNone) = true ->
  http env (runs_request self request (get_or dt "id" VNone)) = Responded r ->
  is_success r = false ->
  fst (start_agent_run env self request w)
    = Raised (RuntimeError ("OpenAI Agents API error ("
                            ++ str_of_int (status_code r) ++ "): "
                            ++ str_take 500 (text r))).
Proof.
  intros Hk Hi Ht [Hts Htj] Hid Hr Hs. unfold_service. along. reflexivity.
Qed.

Lemma thread_upstream_status env self request w r :
  unset (openai_api_key (_settings self)) = false ->
  unset (openai_assistant_id (_settings self)) = false ->
  http env (threads_request self request) = Responded r ->
  is_success r = false ->
  fst (start_agent_run env self request w)
    = Raised (RuntimeError ("OpenAI Agents API error ("
                            ++ str_of_int (status_code r) ++ "): "
                            ++ str_take 500 (text r))).
Proof.
  intros Hk Hi Ht Hs. unfold_service. along. reflexivity.
Qed.


(** C3. When the Files endpoint, or the Runs endpoint of the thread just
    created, answers with a status outside 200..299, the operation raises
    an error whose message holds the status code in decimal and the
    response body cut at 500 characters: the excerpt is the body's prefix
    of length [min 500 (length body)], the whole body when it has at most
    500 characters. *)
Theorem upstream_status_is_reported_with_code_and_excerpt :
  (forall env self file provider w r,
      unset (openai_api_key (_settings self)) = false ->
      http env (files_request self file) = Responded r ->
      is_success r = false ->
      fst (upload_source env self file provider w)
        = Raised (RuntimeError ("OpenAI Files API error ("
                                ++ str_of_int (status_code r) ++ "): "
                                ++ str_take 500 (text r)))) /\
  (forall env self request w rt dt r,
      unset (openai_api_key (_settings self)) = false ->
      unset (openai_assistant_id (_settings self)) = false ->
      http env (threads_request self request) = Responded rt ->
      success_with rt dt ->
      truthy (get_or dt "id" VNone) = true ->
      http env (runs_request self request (get_or dt "id" VNone)) = Responded r ->
      is_success r = false ->
      fst (start_agent_run env self request w)
        = Raised (RuntimeError ("OpenAI Agents API error ("
                                ++ str_of_int (status_code r) ++ "): "
                                ++ str_take 500 (text r)))) /\
  (forall body,
      String.length (str_take 500 body)
      = Nat.min 500 (String.length body) /\
      (exists rest, body = str_take 500 body ++ rest) /\
      ((String.length body <= 500)%nat -> str_take 500 body = body)) /\
  (forall status_code,
      option_map Z.of_int (NilZero.int_of_string (str_of_int status_code))
      = Some status_code).
Proof.
  split; [|split; [|split]].
  - exact upload_upstream_status.
  - exact run_upstream_status.
  - intros body. split; [apply str_take_length_min|].
    split; [apply str_take_prefix|apply str_take_all].
  - exact str_of_int_decimal.
Qed.

Lemma upstream_status_is_reported_witness :
  fst (upload_source Examples.env_rate_limited Examples.service
         Examples.q1_csv None Examples.world)
    = Raised (RuntimeError
                "OpenAI Files API error (429): Rate limit reached for requests") /\
  fst (start_agent_run Examples.env_rate_limited Examples.service
         Examples.run_request Examples.world)
    = Raised (RuntimeError
                "OpenAI Agents API error (429): Rate limit reached for requests") /\
  fst (upload_source Scenarios.env_long_error Examples.service
         Examples.q1_csv None Examples.world)
    = Raised (RuntimeError ("OpenAI Files API error (503): "
                            ++ Scenarios.xs 500)).
Proof.
  destruct upstream_status_is_reported_with_code_and_excerpt as (U & R & _).
  split; [|split].
  - apply (U Examples.env_rate_limited Examples.service Examples.q1_csv None
             Examples.world Examples.rate_limited);
      reflexivity.
  - apply (R Examples.env_rate_limited Examples.service Examples.run_request
             Examples.world Examples.thread_response
             [("id", VStr "thread_1")] Examples.rate_limited);
      first [reflexivity | now split].
  - apply (U Scenarios.env_long_error Examples.service Examples.q1_csv None
             Examples.world Scenarios.long_error);
      reflexivity.
Defined.


(** ** Answers without an id *)

Lemma upload_missing_id env self file provider w r d :
  unset (openai_api_key (_settings self)) = false ->
  http env (files_request self file) = Responded r ->
  success_with r d ->
  dict_get "id" d = None ->
  fst (upload_source env self file provider w)
    = Raised (RuntimeError "OpenAI Files API response did not include a file id.").
Proof.
  intros Hk Ha [Hs Hj] Hid. unfold_service. along. reflexivity.
Qed.

Lemma thread_missing_id env self request w r d :
  unset (openai_api_key (_settings self)) = false ->
  unset (openai_assistant_id (_settings self)) = false ->
  http env (threads_request self request) = Responded r ->
  success_with r d ->
  dict_get "id" d = None ->
  fst (start_agent_run env self request w)
    = Raised (RuntimeError "OpenAI Threads API response did not include a thread id.").
Proof.
  intros Hk Hi Ha [Hs Hj] Hid. unfold_service. along. reflexivity.
Qed.

Lemma run_missing_id env self request w rt dt r d :
  unset (openai_api_key (_settings self)) = false ->
  unset (openai_assistant_id (_settings self)) = false ->
  http env (threads_request self request) = Responded rt ->
  success_with rt dt ->
  truthy (get_or dt "id" VNone) = true ->
  http env (runs_request self request (get_or dt "id" VNone)) = Responded r ->
  success_with r d ->
  dict_get "id" d = None ->
  fst (start_agent_run env self request w)
    = Raised (RuntimeError "OpenAI Agents API response did not include a run id.").
Proof.
  intros Hk Hi Ht [Hts Htj] Htid Hr [Hs Hj] Hid. unfold_service. along.
  reflexivity.
Qed.

(** A 2xx answer of the Files, Threads or Runs endpoint that is a JSON
    object without [id] makes the operation raise its protocol error, a
    [RuntimeError] and no other exception; and whatever the provider
    answers, a result that is returned has ids that are not [None]. *)
Theorem answer_without_id_is_a_protocol_error :
  (forall env self file provider w r d,
      unset (openai_api_key (_settings self)) = false ->
      http env (files_request self file) = Responded r ->
      success_with r d ->
      dict_get "id" d = None ->
      fst (upload_source env self file provider w) = Raised missing_file_id) /\
  (forall env self request w r d,
      unset (openai_api_key (_settings self)) = false ->
      unset (openai_assistant_id (_settings self)) = false ->
      http env (threads_request self request) = Responded r ->
      success_with r d ->
      dict_get "id" d = None ->
      fst (start_agent_run env self request w) = Raised missing_thread_id) /\
  (forall env self request w rt dt r d,
      unset (openai_api_key (_settings self)) = false ->
      unset (openai_assistant_id (_settings self)) = false ->
      http env (threads_request self request) = Responded rt ->
      success_with rt dt ->
      truthy (get_or dt "id" VNone) = true ->
      http env (runs_request self request (get_or dt "id" VNone)) = Responded r ->
      success_with r d ->
      dict_get "id" d = None ->
      fst (start_agent_run env self request w) = Raised missing_run_id) /\
  (ProtocolError missing_file_id /\ ProtocolError missing_thread_id /\
   ProtocolError missing_run_id) /\
  (forall env self file provider w result,
      fst (upload_source env self file provider w) = Returned result ->
      UploadResult.file_id result <> VNone) /\
  (forall env self request w result,
      fst (start_agent_run env self request w) = Returned result ->
      RunResult.run_id result <> VNone /\
      RunResult.thread_id result <> VNone).
Proof.
  repeat split.
  - exact upload_missing_id.
  - exact thread_missing_id.
  - exact run_missing_id.
  - now left.
  - right; now left.
  - right; now right.
  - intros env self file provider w result H.
    apply truthy_not_none. exact (upload_result_has_id _ _ _ _ _ _ H).
  - apply truthy_not_none. eapply run_result_has_ids; eauto.
  - apply truthy_not_none. eapply run_result_has_ids; eauto.
Qed.

Lemma answer_without_id_witness :
  fst (upload_source Examples.env_without_id Examples.service
         Examples.q1_csv None Examples.world) = Raised missing_file_id /\
  fst (start_agent_run Examples.env_without_id Examples.service
         Examples.run_request Examples.world) = Raised missing_thread_id /\
  fst (start_agent_run Examples.env_thread_only Examples.service
         Examples.run_request Examples.world) = Raised missing_run_id /\
  UploadResult.file_id (upload_result Examples.env Examples.q1_csv None
                          [("id", VStr "file_abc"); ("filename", VStr "q1.csv")])
    <> VNone.
Proof.
  destruct answer_without_id_is_a_protocol_error as (U & T & R & _ & I & _).
  split; [|split; [|split]].
  - apply (U Examples.env_without_id Examples.service Examples.q1_csv None
             Examples.world Examples.response_without_id
             [("object", VStr "unknown")]);
      first [reflexivity | now split].
  - apply (T Examples.env_without_id Examples.service Examples.run_request
             Examples.world Examples.response_without_id
             [("object", VStr "unknown")]);
      first [reflexivity | now split].
  - apply (R Examples.env_thread_only Examples.service Examples.run_request
             Examples.world Examples.thread_response [("id", VStr "thread_1")]
             Examples.response_without_id [("object", VStr "unknown")]);
      first [reflexivity | now split].
  - apply (I Examples.env Examples.service Examples.q1_csv None Examples.world).
    reflexivity.
Defined.

(** C4, at the input where the code departs from it.  The endpoint
    answers 200 with the JSON body [[]]: a 2xx answer whose body lacks
    [id].  [payload.get] is called on the list, and the operation fails
    with the [AttributeError] of that call, which is no [RuntimeError] and
    none of the protocol errors.  So it is for the Files answer, the
    Threads answer and the Runs answer. *)
Theorem answer_that_is_no_object_crashes :
  is_success Scenarios.list_response = true /\
  json Scenarios.list_response = Some (VList []) /\
  fst (upload_source Scenarios.env_list Examples.service Examples.q1_csv None
         Examples.world)
    = Raised (AttributeError "'list' object has no attribute 'get'") /\
  fst (start_agent_run Scenarios.env_list Examples.service
         Examples.run_request Examples.world)
    = Raised (AttributeError "'list' object has no attribute 'get'") /\
  fst (start_agent_run Scenarios.env_list_run Examples.service
         Examples.run_request Examples.world)
    = Raised (AttributeError "'list' object has no attribute 'get'") /\
  ~ ProtocolError (AttributeError "'list' object has no attribute 'get'") /\
  (forall msg,
      AttributeError "'list' object has no attribute 'get'" <> RuntimeError msg).
Proof.
  repeat split; try reflexivity; try discriminate.
  intros [H|[H|H]]; discriminate H.
Qed.


(** ** Calls that reach the store *)







(** ** The body of the run-creation request *)

Lemma run_requests_body env self request w req thread_id :
  In req (issued (start_agent_run env self request) w) ->
  endpoint req = ThreadRuns thread_id ->
  exists assistant_id,
    openai_assistant_id (_settings self) = Some assistant_id /\
    body req = Json (VDict (build_run_body assistant_id request)).
Proof.
  unfold_service. cases.
  all: rewrite <- ?app_assoc, ?skipn_own_length, ?skipn_whole; simpl.
  all: intuition (subst; try discriminate); eauto.
Qed.

Lemma run_body_response_format assistant_id request :
  dict_get "response_format" (build_run_body assistant_id request)
  = dict_get (AgentRunRequest.response_schema request) SCHEMA_PROFILES.
Proof.
  unfold build_run_body, get_response_format.
  destruct (AgentRunRequest.metadata request) as [[|? ?]|];
    destruct (dict_get _ SCHEMA_PROFILES) as [v|] eqn:E;
    destruct (str_is_empty (strip _));
    try reflexivity.
  all: simpl in E;
    destruct (String.eqb _ "income_cashflow_expense"); [|discriminate];
    injection E as <-; reflexivity.
Qed.

Lemma run_body_instructions assistant_id request :
  dict_get "instructions" (build_run_body assistant_id request)
  = Some (VStr (if all_space (AgentRunRequest.instructions request)
                then default_instructions
                else strip (AgentRunRequest.instructions request))).
Proof.
  rewrite <- strip_empty. unfold build_run_body, get_response_format.
  destruct (AgentRunRequest.metadata request) as [[|? ?]|];
    destruct (dict_get _ SCHEMA_PROFILES) as [v|] eqn:E;
    destruct (str_is_empty (strip _));
    try reflexivity.
  all: simpl in E;
    destruct (String.eqb _ "income_cashflow_expense"); [|discriminate];
    injection E as <-; reflexivity.
Qed.


(** C5. The body of every run-creation request carries, under
    [response_format], the registry entry of the profile
    [income_cashflow_expense] when that profile is requested, and has no
    such key when the requested profile is not in the registry, as is the
    case of [default]. *)
Theorem response_format_follows_the_profile :
  forall env self request w req thread_id,
    In req (issued (start_agent_run env self request) w) ->
    endpoint req = ThreadRuns thread_id ->
    exists run_body,
      body req = Json (VDict run_body) /\
      (AgentRunRequest.response_schema request = "income_cashflow_expense" ->
       dict_get "response_format" run_body
         = Some (VDict [("type", VStr "json_schema");
                        ("json_schema", FINANCIAL_REPORT_SCHEMA);
                        ("strict", VBool true)])) /\
      (dict_get (AgentRunRequest.response_schema request) SCHEMA_PROFILES = None ->
       dict_get "response_format" run_body = None) /\
      dict_get "default" SCHEMA_PROFILES = None.
Proof.
  intros env self request w req thread_id Hin Hep.
  destruct (run_requests_body _ _ _ _ _ _ Hin Hep) as (a & _ & Hb).
  exists (build_run_body a request). split; [exact Hb|].
  rewrite run_body_response_format. split; [|split].
  - intros ->. reflexivity.
  - auto.
  - reflexivity.
Qed.

Lemma response_format_follows_the_profile_witness :
  (exists run_body,
      body (Examples.runs_request Examples.run_request) = Json (VDict run_body) /\
      dict_get "response_format" run_body
        = Some (VDict [("type", VStr "json_schema");
                       ("json_schema", FINANCIAL_REPORT_SCHEMA);
                       ("strict", VBool true)])) /\
  (exists run_body,
      body (Examples.runs_request Examples.default_profile_request)
        = Json (VDict run_body) /\
      dict_get "response_format" run_body = None).
Proof.
  split.
  - destruct (response_format_follows_the_profile
                Examples.env Examples.service Examples.run_request
                Examples.world (Examples.runs_request Examples.run_request)
                (VStr "thread_1"))
      as (b & Hb & Hyes & _); [vm_compute; auto | reflexivity |].
    exists b. split; [exact Hb|]. apply Hyes. reflexivity.
  - destruct (response_format_follows_the_profile
                Examples.env Examples.service Examples.default_profile_request
                Examples.world
                (Examples.runs_request Examples.default_profile_request)
                (VStr "thread_1"))
      as (b & Hb & _ & Hno & _); [vm_compute; auto | reflexivity |].
    exists b. split; [exact Hb|]. apply Hno. reflexivity.
Defined.

(** C6. The body of every run-creation request carries, under
    [instructions], the caller's instructions stripped of the whitespace
    at both ends when something is left, and the fixed default text when
    nothing is left, which is when the instructions are empty or all
    whitespace. *)
Theorem instructions_are_trimmed_or_default :
  forall env self request w req thread_id,
    In req (issued (start_agent_run env self request) w) ->
    endpoint req = ThreadRuns thread_id ->
    let given := AgentRunRequest.instructions request in
    exists run_body,
      body req = Json (VDict run_body) /\
      dict_get "instructions" run_body
        = Some (VStr (if str_is_empty (strip given)
                      then default_instructions else strip given)) /\
      str_is_empty (strip given) = all_space given /\
      exists l r,
        given = l ++ strip given ++ r /\
        all_space l = true /\ all_space r = true /\ trimmed (strip given).
Proof.
  intros env self request w req thread_id Hin Hep given.
  destruct (run_requests_body _ _ _ _ _ _ Hin Hep) as (a & _ & Hb).
  exists (build_run_body a request). split; [exact Hb|].
  rewrite run_body_instructions, strip_empty. split; [reflexivity|].
  split; [reflexivity|]. apply strip_spec.
Qed.

Lemma instructions_are_trimmed_or_default_witness :
  (exists run_body,
      body (Examples.runs_request Examples.default_profile_request)
        = Json (VDict run_body) /\
      dict_get "instructions" run_body = Some (VStr "Summarise Q1.")) /\
  (exists run_body,
      body (Examples.runs_request Examples.run_request) = Json (VDict run_body) /\
      dict_get "instructions" run_body = Some (VStr default_instructions)).
Proof.
  split.
  - destruct (instructions_are_trimmed_or_default
                Examples.env Examples.service Examples.default_profile_request
                Examples.world
                (Examples.runs_request Examples.default_profile_request)
                (VStr "thread_1"))
      as (b & Hb & Hi & _); [vm_compute; auto | reflexivity |].
    exists b. split; [exact Hb|exact Hi].
  - destruct (instructions_are_trimmed_or_default
                Examples.env Examples.service Examples.run_request
                Examples.world (Examples.runs_request Examples.run_request)
                (VStr "thread_1"))
      as (b & Hb & Hi & _); [vm_compute; auto | reflexivity |].
    exists b. split; [exact Hb|exact Hi].
Defined.

(** The rule the code follows for [started_at]: an [int] or a [float] is
    a timestamp, and so is a [bool]; anything else gives the current time. *)
Lemma started_at_of_cases env d :
  match get_or d "created_at" VNone with
  | VInt n => started_at_of env d = fromtimestamp (VInt n)
  | VFloat f => started_at_of env d = fromtimestamp (VFloat f)
  | VBool b => started_at_of env d = fromtimestamp (VInt (if b then 1 else 0))
  | _ => started_at_of env d = Returned (utcnow env)
  end.
Proof.
  unfold started_at_of. destruct (get_or d "created_at" VNone); reflexivity.
Qed.

(** C7, at the input where the code departs from it.  The Runs endpoint
    answers [{"id": "run_1", "created_at": true}]: [created_at] is no
    number, yet the run comes back started one second after the epoch and
    not at the current time of the server. *)
Theorem created_at_true_is_read_as_a_timestamp :
  exists result,
    fst (start_agent_run Examples.env_created_at_true Examples.service
           Examples.run_request Examples.world) = Returned result /\
    RunResult.started_at result = mk_datetime 1970 1 1 0 0 1 0 /\
    utcnow Examples.env_created_at_true = mk_datetime 2024 1 15 9 30 0 0 /\
    RunResult.started_at result <> utcnow Examples.env_created_at_true.
Proof.
  eexists. split; [vm_compute; reflexivity|].
  split; [reflexivity|]. split; [reflexivity|]. discriminate.
Qed.


Lemma errors_leave_the_store_unchanged_witness :
  database (snd (upload_source Examples.env_rate_limited Examples.service
                   Examples.q1_csv None Examples.world))
    = database Examples.world /\
  database (snd (start_agent_run Examples.env_locked Examples.service
                   Examples.run_request Examples.world))
    = database Examples.world.
Proof.
  destruct errors_leave_the_store_unchanged as (U & R).
  split.
  - eapply (U Examples.env_rate_limited Examples.service Examples.q1_csv None
              Examples.world).
    vm_compute. reflexivity.
  - eapply (R Examples.env_locked Examples.service Examples.run_request
              Examples.world).
    vm_compute. reflexivity.
Defined.

End ServiceFacts.

(* ===================================================================== *)
(** * More facts about the metadata store *)
(* ===================================================================== *)

Module StoreFacts.
Import Py Datetime Storage Store.
Import StorageFacts.
Local Open Scope outcome_scope.

(** ** Initialisation *)

(** X1. [_initialise] that returns leaves both tables in place with the
    rows they had (none for a table it had to create), and running it
    again changes nothing.  [_initialise] that raises has added and lost
    no row and has left the [runs] table as it was; the file is as before
    when the first statement failed, and holds the [uploads] table when
    the second one did: the first [CREATE TABLE] is not undone. *)
Theorem initialise_creates_once_and_keeps_rows :
  forall e db,
    (fst (_initialise e db) = Returned tt ->
     uploads (snd (_initialise e db)) <> None /\
     runs (snd (_initialise e db)) <> None /\
     rows_of (uploads (snd (_initialise e db))) = rows_of (uploads db) /\
     rows_of (runs (snd (_initialise e db))) = rows_of (runs db) /\
     (uploads db <> None -> runs db <> None -> snd (_initialise e db) = db) /\
     _initialise e (snd (_initialise e db))
       = (Returned tt, snd (_initialise e db))) /\
    (forall x,
        fst (_initialise e db) = Raised x ->
        rows_of (uploads (snd (_initialise e db))) = rows_of (uploads db) /\
        runs (snd (_initialise e db)) = runs db /\
        (fault e <> None -> snd (_initialise e db) = db) /\
        (fault e = None ->
         uploads (snd (_initialise e db)) = create_if_not_exists (uploads db))).
Proof.
  intros e db. unfold _initialise.
  destruct (fault e) eqn:F; simpl.
  - split; [discriminate|]. intros x _. repeat split; congruence.
  - destruct (fault_later e) eqn:L; simpl.
    + split; [discriminate|]. intros x _.
      rewrite rows_of_created. repeat split; congruence.
    + split; [|discriminate]. intros _. rewrite ?F, ?L.
      destruct db as [[u|] [r|]]; simpl; repeat split; try discriminate;
        try reflexivity; intros H1 H2; congruence.
Qed.

Lemma initialise_creates_once_witness :
  uploads Examples.fresh_database <> None /\
  runs Examples.fresh_database <> None /\
  rows_of (uploads (snd (_initialise Examples.sqlite Scenarios.one_of_each)))
    = rows_of (uploads Scenarios.one_of_each) /\
  snd (_initialise Examples.sqlite Scenarios.one_of_each) = Scenarios.one_of_each /\
  snd (_initialise Examples.locked empty_database) = empty_database /\
  uploads (snd (_initialise Scenarios.full_after_one empty_database))
    = Some (mk_table [] 0) /\
  runs (snd (_initialise Scenarios.full_after_one empty_database)) = None.
Proof.
  destruct (initialise_creates_once_and_keeps_rows Examples.sqlite empty_database)
    as [H _].
  destruct (H eq_refl) as (Hu & Hr & _).
  destruct (initialise_creates_once_and_keeps_rows Examples.sqlite
              Scenarios.one_of_each) as [H1 _].
  destruct (H1 eq_refl) as (_ & _ & Hrows & _ & Hsame & _).
  destruct (initialise_creates_once_and_keeps_rows Examples.locked empty_database)
    as [_ H2].
  destruct (initialise_creates_once_and_keeps_rows Scenarios.full_after_one
              empty_database) as [_ H3].
  destruct (H3 _ eq_refl) as (_ & Hruns & _ & Hmade).
  destruct (H2 _ eq_refl) as (_ & _ & Hlocked & _).
  split; [exact Hu|]. split; [exact Hr|]. split; [exact Hrows|].
  split; [apply Hsame; discriminate|].
  split; [apply Hlocked; discriminate|].
  split; [exact (Hmade eq_refl)|exact Hruns].
Defined.

(** ** Writes are all or nothing *)

(** X2. A [log_upload] or [log_run] that raises has written nothing: the
    file is exactly as before the call. *)
Theorem failed_write_leaves_the_file :
  (forall e record db x,
      fst (log_upload e record db) = Raised x ->
      snd (log_upload e record db) = db) /\
  (forall e record db x,
      fst (log_run e record db) = Raised x ->
      snd (log_run e record db) = db).
Proof.
  split; intros e record db x H.
  - destruct (log_upload e record db) as [o db'] eqn:E. simpl in *; subst o.
    now apply connect_raised in E.
  - destruct (log_run e record db) as [o db'] eqn:E. simpl in *; subst o.
    now apply connect_raised in E.
Qed.

Lemma failed_write_leaves_the_file_witness :
  snd (log_upload Examples.sqlite
         (UploadRecord.make (VStr "file_xyz") VNone None "text/csv" 10
            Examples.clock)
         Scenarios.one_of_each) = Scenarios.one_of_each /\
  snd (log_run Examples.locked (Examples.run_record "run_2" "queued")
         Scenarios.one_of_each) = Scenarios.one_of_each.
Proof.
  destruct failed_write_leaves_the_file as (U & R).
  split.
  - eapply U. vm_compute. reflexivity.
  - eapply R. vm_compute. reflexivity.
Defined.


(** ** When a write goes through *)

Lemma next_rowid_spec {R B} (id : R -> Z) (t : Table R)
    (k : Z -> outcome B) (b : B) :
  (x <- next_rowid id t ;; k x) = Returned b ->
  rowid_available id t /\
  k (fold_right Z.max (seq t) (map id (rows t)) + 1) = Returned b.
Proof.
  unfold next_rowid, rowid_available.
  destruct (_ <? _) eqn:E; simpl; [|discriminate].
  intros H. split; [now apply Z.ltb_lt|exact H].
Qed.

Lemma next_rowid_available {R} (id : R -> Z) (t : Table R) :
  rowid_available id t ->
  next_rowid id t
    = Returned (fold_right Z.max (seq t) (map id (rows t)) + 1).
Proof.
  unfold next_rowid, rowid_available. intros H.
  apply Z.ltb_lt in H. now rewrite H.
Qed.

Lemma stored_text_binds (e : Engine) (v : value) (k : string) (i : Z) :
  stored_text e v = Some k ->
  exists p, bind i v = Returned p /\ text_affinity e p = Some k.
Proof.
  unfold stored_text. destruct (bind 0 v) as [p|x] eqn:B; [|discriminate].
  intros H. exists p. split; [exact (bind_index _ _ _ _ B)|exact H].
Qed.

Lemma bindable_binds (v : value) (i : Z) :
  bindable v -> exists p, bind i v = Returned p.
Proof. intros [p B]. exists p. exact (bind_index _ _ _ _ B). Qed.

Lemma bind_int_range (i n : Z) (p : sqlval) :
  bind i (VInt n) = Returned p -> - 2 ^ 63 <= n <= max_rowid /\ p = SqlInteger n.
Proof.
  cbn [bind]. destruct (_ && _) eqn:E; [|discriminate].
  intros [= <-]. apply andb_prop in E as [E1 E2].
  apply Z.leb_le in E1, E2. split; [split; assumption|reflexivity].
Qed.

Lemma bind_int_in_range (i n : Z) :
  - 2 ^ 63 <= n <= max_rowid -> bind i (VInt n) = Returned (SqlInteger n).
Proof.
  intros [H1 H2]. cbn [bind]. apply Z.leb_le in H1, H2.
  now rewrite H1, H2.
Qed.

Lemma bind_str (i : Z) (s : string) : bind i (VStr s) = Returned (SqlText s).
Proof. reflexivity. Qed.

Lemma bind_none (i : Z) : bind i VNone = Returned SqlNull.
Proof. reflexivity. Qed.

Lemma log_upload_needs (e : Engine) (record : UploadRecord.t)
    (db db' : Database) :
  log_upload e record db = (Returned tt, db') ->
  fault e = None /\
  (exists t, uploads db = Some t /\ rowid_available UploadRow.id t) /\
  upload_storable e record.
Proof.
  intros H. apply connect_returned in H as [F H].
  apply table_named_returned in H as [t [Ht H]].
  do 6 bound H.
  apply next_rowid_spec in H as [Hrow H].
  do 5 nonnull H.
  split; [exact F|]. split; [now exists t|].
  unfold upload_storable.
  rewrite (stored_text_bound _ _ _ _ B), (stored_text_bound _ _ _ _ B0).
  split; [now exists a|]. split; [now exists a0|].
  now apply bind_int_range in B3.
Qed.

Lemma log_upload_goes_through (e : Engine) (record : UploadRecord.t)
    (db : Database) (t : Table UploadRow.t) :
  fault e = None ->
  uploads db = Some t ->
  rowid_available UploadRow.id t ->
  upload_storable e record ->
  exists db', log_upload e record db = (Returned tt, db').
Proof.
  intros F Ht Hrow ([k Hk] & [n Hn] & Hb).
  destruct (stored_text_binds _ _ _ 1 Hk) as (p1 & B1 & T1).
  destruct (stored_text_binds _ _ _ 2 Hn) as (p2 & B2 & T2).
  unfold log_upload, _connect. rewrite F, Ht. simpl table_named.
  cbn [bind_outcome]. rewrite B1, B2. cbn [bind_outcome].
  unfold bind_optional.
  destruct (UploadRecord.provider record);
    rewrite ?bind_str, ?bind_none, (bind_int_in_range 5 _ Hb);
    cbn [bind_outcome];
    rewrite (next_rowid_available _ _ Hrow); cbn [bind_outcome];
    rewrite T1, T2; cbn; eauto.
Qed.

Lemma log_run_needs (e : Engine) (record : RunRecord.t) (db db' : Database) :
  log_run e record db = (Returned tt, db') ->
  fault e = None /\
  (exists t, runs db = Some t /\ rowid_available RunRow.id t) /\
  run_storable e record.
Proof.
  intros H. apply connect_returned in H as [F H].
  apply table_named_returned in H as [t [Ht H]].
  do 7 bound H.
  apply next_rowid_spec in H as [Hrow H].
  do 4 nonnull H.
  split; [exact F|]. split; [now exists t|].
  unfold run_storable.
  rewrite (stored_text_bound _ _ _ _ B), (stored_text_bound _ _ _ _ B0),
    (stored_text_bound _ _ _ _ B2).
  split; [now exists a|]. split; [now exists a0|].
  split; [|now exists a1].
  exists p1. exact (bind_index _ _ _ _ B1).
Qed.

Lemma log_run_goes_through (e : Engine) (record : RunRecord.t)
    (db : Database) (t : Table RunRow.t) :
  fault e = None ->
  runs db = Some t ->
  rowid_available RunRow.id t ->
  run_storable e record ->
  exists db', log_run e record db = (Returned tt, db').
Proof.
  intros F Ht Hrow ([k Hk] & [n Hn] & Ha & [s Hs]).
  destruct (stored_text_binds _ _ _ 1 Hk) as (p1 & B1 & T1).
  destruct (stored_text_binds _ _ _ 2 Hn) as (p2 & B2 & T2).
  destruct (bindable_binds _ 3 Ha) as (p3 & B3).
  destruct (stored_text_binds _ _ _ 4 Hs) as (p4 & B4 & T4).
  unfold log_run, _connect. rewrite F, Ht. simpl table_named.
  cbn [bind_outcome]. rewrite B1, B2, B3, B4, !bind_str. cbn [bind_outcome].
  rewrite (next_rowid_available _ _ Hrow); cbn [bind_outcome].
  rewrite T1, T2, T4; cbn; eauto.
Qed.

(** X3. [log_upload] returns exactly when the engine does not fail, the
    table exists and can number one more row, [file_id] and [filename]
    store as TEXT that is not NULL and [bytes] fits an SQLite INTEGER;
    [log_run] likewise, with [run_id], [thread_id] and [status] not NULL
    and an [assistant_id] the engine can bind. *)
Theorem a_write_returns_exactly_when_storable :
  (forall e record db,
      (exists db', log_upload e record db = (Returned tt, db')) <->
      fault e = None /\
      (exists t, uploads db = Some t /\ rowid_available UploadRow.id t) /\
      upload_storable e record) /\
  (forall e record db,
      (exists db', log_run e record db = (Returned tt, db')) <->
      fault e = None /\
      (exists t, runs db = Some t /\ rowid_available RunRow.id t) /\
      run_storable e record).
Proof.
  split; intros e record db; split.
  - intros [db' H]. exact (log_upload_needs _ _ _ _ H).
  - intros (F & (t & Ht & Hrow) & Hs).
    exact (log_upload_goes_through _ _ _ _ F Ht Hrow Hs).
  - intros [db' H]. exact (log_run_needs _ _ _ _ H).
  - intros (F & (t & Ht & Hrow) & Hs).
    exact (log_run_goes_through _ _ _ _ F Ht Hrow Hs).
Qed.

Lemma a_write_returns_witness :
  (exists db',
      log_upload Examples.sqlite
        (Examples.upload_record "file_new" "q2.csv" 0) Scenarios.one_of_each
      = (Returned tt, db')) /\
  upload_storable Examples.sqlite
    (Examples.upload_record "file_abc" "q1.csv" 1024).
Proof.
  destruct a_write_returns_exactly_when_storable as (U & _).
  split.
  - apply (proj2 (U Examples.sqlite (Examples.upload_record "file_new" "q2.csv" 0)
                    Scenarios.one_of_each)).
    split; [reflexivity|]. split.
    + eexists. split; [reflexivity|]. unfold rowid_available. vm_compute.
      reflexivity.
    + split; [eexists; reflexivity|]. split; [eexists; reflexivity|].
      vm_compute. split; discriminate.
  - apply (proj1 (U Examples.sqlite
                    (Examples.upload_record "file_abc" "q1.csv" 1024)
                    Examples.fresh_database)).
    eexists. vm_compute. reflexivity.
Defined.


(** ** Rowids *)

Lemma largest_bounds {R} (id : R -> Z) (l : list R) (s : Z) :
  s <= fold_right Z.max s (map id l) /\
  Forall (fun r => id r <= fold_right Z.max s (map id l)) l.
Proof.
  induction l as [|r l [IH1 IH2]]; simpl.
  - split; [lia|constructor].
  - split; [lia|]. constructor; [lia|].
    eapply Forall_impl; [|exact IH2]. simpl. intros; lia.
Qed.

Section NewRow.

Context {R : Type} (key : R -> string) (id : R -> Z).

Lemma new_row_is_last (row : R) (t : Table R) :
  next_rowid id t = Returned (id row) ->
  seq t < id row /\
  rowids_below id (id row) (rows t) /\
  (NoDup (map id (rows t)) ->
   NoDup (map id (rows (insert_or_replace key row (id row) t)))).
Proof.
  unfold next_rowid. destruct (_ <? _); [|discriminate].
  intros [= E]. destruct (largest_bounds id (rows t) (seq t)) as [Hs Hl].
  assert (Hb : rowids_below id (id row) (rows t)).
  { eapply Forall_impl; [|exact Hl]. simpl. intros; lia. }
  split; [lia|]. split; [exact Hb|].
  intros Hn. unfold insert_or_replace; cbn [rows]. rewrite map_app.
  apply NoDup_app.
  - clear -Hn. induction (rows t) as [|r l IH]; simpl; [constructor|].
    inversion Hn as [|? ? Hr Hl]; subst.
    destruct (negb _); simpl; [|now apply IH].
    constructor; [|now apply IH].
    intros Hin. apply Hr. apply in_map_iff in Hin as [r' [Er Hin]].
    apply filter_In in Hin as [Hin _]. rewrite <- Er. now apply in_map.
  - repeat constructor. intros [].
  - intros i Hi [<-|[]].
    apply in_map_iff in Hi as [r' [Er Hin]].
    apply filter_In in Hin as [Hin _].
    unfold rowids_below in Hb. rewrite Forall_forall in Hb.
    specialize (Hb _ Hin). lia.
Qed.

End NewRow.

Lemma log_upload_returned_rowid (e : Engine) (record : UploadRecord.t)
    (db db' : Database) :
  log_upload e record db = (Returned tt, db') ->
  exists t row,
    uploads db = Some t /\
    next_rowid UploadRow.id t = Returned (UploadRow.id row) /\
    stored_text e (UploadRecord.file_id record) = Some (UploadRow.file_id row) /\
    db' = mk_database
            (Some (insert_or_replace UploadRow.file_id row (UploadRow.id row) t))
            (runs db).
Proof.
  intros H. apply connect_returned in H as [_ H].
  apply table_named_returned in H as [t [Ht H]].
  do 6 bound H.
  apply next_rowid_spec in H as [Hrow H].
  do 5 nonnull H.
  injection H as <-.
  exists t, (UploadRow.make (fold_right Z.max (seq t) (map UploadRow.id (rows t)) + 1)
               a a0 (text_affinity e p1) a1 a2 a3).
  split; [exact Ht|]. split; [exact (next_rowid_available _ _ Hrow)|].
  split; [|reflexivity].
  now rewrite (stored_text_bound _ _ _ _ B).
Qed.

Lemma log_run_returned_rowid (e : Engine) (record : RunRecord.t)
    (db db' : Database) :
  log_run e record db = (Returned tt, db') ->
  exists t row,
    runs db = Some t /\
    next_rowid RunRow.id t = Returned (RunRow.id row) /\
    stored_text e (RunRecord.run_id record) = Some (RunRow.run_id row) /\
    db' = mk_database
            (uploads db)
            (Some (insert_or_replace RunRow.run_id row (RunRow.id row) t)).
Proof.
  intros H. apply connect_returned in H as [_ H].
  apply table_named_returned in H as [t [Ht H]].
  do 7 bound H.
  apply next_rowid_spec in H as [Hrow H].
  do 4 nonnull H.
  injection H as <-.
  exists t, (RunRow.make (fold_right Z.max (seq t) (map RunRow.id (rows t)) + 1)
               a a0 (text_affinity e p1) a1
               (text_affinity e p3) (text_affinity e p4) a2).
  split; [exact Ht|]. split; [exact (next_rowid_available _ _ Hrow)|].
  split; [|reflexivity].
  now rewrite (stored_text_bound _ _ _ _ B).
Qed.

(** X4. The row a returning [log_upload] or [log_run] writes is the last
    row of its table and gets a rowid above the counter and above every
    rowid of the table, also when it replaces a row; that rowid is the new
    counter, and distinct rowids stay distinct. *)
Theorem a_logged_row_gets_a_fresh_rowid :
  (forall e record db db' t,
      log_upload e record db = (Returned tt, db') ->
      uploads db = Some t ->
      exists t' row,
        uploads db' = Some t' /\
        stored_text e (UploadRecord.file_id record) = Some (UploadRow.file_id row) /\
        rows t' = (filter (fun r => negb (String.eqb (UploadRow.file_id r)
                                                     (UploadRow.file_id row)))
                          (rows t) ++ [row])%list /\
        seq t' = UploadRow.id row /\
        seq t < UploadRow.id row /\
        rowids_below UploadRow.id (UploadRow.id row) (rows t) /\
        (NoDup (map UploadRow.id (rows t)) ->
         NoDup (map UploadRow.id (rows t')))) /\
  (forall e record db db' t,
      log_run e record db = (Returned tt, db') ->
      runs db = Some t ->
      exists t' row,
        runs db' = Some t' /\
        stored_text e (RunRecord.run_id record) = Some (RunRow.run_id row) /\
        rows t' = (filter (fun r => negb (String.eqb (RunRow.run_id r)
                                                     (RunRow.run_id row)))
                          (rows t) ++ [row])%list /\
        seq t' = RunRow.id row /\
        seq t < RunRow.id row /\
        rowids_below RunRow.id (RunRow.id row) (rows t) /\
        (NoDup (map RunRow.id (rows t)) ->
         NoDup (map RunRow.id (rows t')))).
Proof.
  split; intros e record db db' t H Ht.
  - apply log_upload_returned_rowid in H as (t0 & row & Ht0 & Hid & Hk & ->).
    rewrite Ht in Ht0; injection Ht0 as <-.
    destruct (new_row_is_last UploadRow.file_id UploadRow.id row t Hid)
      as (Hs & Hb & Hn).
    eexists _, row. split; [reflexivity|]. split; [exact Hk|].
    split; [reflexivity|].
    split; [reflexivity|]. split; [exact Hs|]. split; [exact Hb|exact Hn].
  - apply log_run_returned_rowid in H as (t0 & row & Ht0 & Hid & Hk & ->).
    rewrite Ht in Ht0; injection Ht0 as <-.
    destruct (new_row_is_last RunRow.run_id RunRow.id row t Hid)
      as (Hs & Hb & Hn).
    eexists _, row. split; [reflexivity|]. split; [exact Hk|].
    split; [reflexivity|].
    split; [reflexivity|]. split; [exact Hs|]. split; [exact Hb|exact Hn].
Qed.

Lemma a_logged_row_gets_a_fresh_rowid_witness :
  exists t' row,
    uploads (snd (log_upload Examples.sqlite
                    (Examples.upload_record "file_abc" "q1-final.csv" 2048)
                    Scenarios.one_of_each)) = Some t' /\
    stored_text Examples.sqlite (VStr "file_abc") = Some (UploadRow.file_id row) /\
    rows t' = (filter (fun r => negb (String.eqb (UploadRow.file_id r)
                                                 (UploadRow.file_id row)))
                      [UploadRow.make 1 "file_abc" "q1.csv" None "text/csv" 1024
                         "2024-01-15T09:30:00+00:00"] ++ [row])%list /\
    seq t' = UploadRow.id row /\
    1 < UploadRow.id row /\
    rowids_below UploadRow.id (UploadRow.id row)
      [UploadRow.make 1 "file_abc" "q1.csv" None "text/csv" 1024
         "2024-01-15T09:30:00+00:00"] /\
    (NoDup (map UploadRow.id
              [UploadRow.make 1 "file_abc" "q1.csv" None "text/csv" 1024
                 "2024-01-15T09:30:00+00:00"]) ->
     NoDup (map UploadRow.id (rows t'))).
Proof.
  apply (proj1 a_logged_row_gets_a_fresh_rowid Examples.sqlite
           (Examples.upload_record "file_abc" "q1-final.csv" 2048)
           Scenarios.one_of_each
           (snd (log_upload Examples.sqlite
                   (Examples.upload_record "file_abc" "q1-final.csv" 2048)
                   Scenarios.one_of_each))
           (mk_table
              [UploadRow.make 1 "file_abc" "q1.csv" None "text/csv" 1024
                 "2024-01-15T09:30:00+00:00"] 1)); reflexivity.
Defined.

(** ** What a write leaves alone *)

Lemma other_keys_kept {R} (key : R -> string) (row : R) (rowid : Z)
    (t : Table R) (k : string) :
  key row <> k ->
  filter (fun r => String.eqb (key r) k)
         (rows (insert_or_replace key row rowid t))
  = filter (fun r => String.eqb (key r) k) (rows t).
Proof.
  intros N. unfold insert_or_replace; cbn [rows]. rewrite filter_app; simpl.
  apply String.eqb_neq in N. rewrite N, app_nil_r.
  induction (rows t) as [|r l IH]; simpl; [reflexivity|].
  destruct (String.eqb (key r) (key row)) eqn:E1; simpl.
  - apply String.eqb_eq in E1. rewrite E1, N. exact IH.
  - destruct (String.eqb (key r) k); [now rewrite IH|exact IH].
Qed.

(** X5. A returning [log_upload] leaves the [runs] table and every upload
    row under another [file_id] as they were; a returning [log_run] leaves
    the [uploads] table and every run row under another [run_id]. *)
Theorem a_write_touches_one_key_of_one_table :
  (forall e record db db' k,
      log_upload e record db = (Returned tt, db') ->
      stored_text e (UploadRecord.file_id record) <> Some k ->
      runs db' = runs db /\ uploads_with k db' = uploads_with k db) /\
  (forall e record db db' k,
      log_run e record db = (Returned tt, db') ->
      stored_text e (RunRecord.run_id record) <> Some k ->
      uploads db' = uploads db /\ runs_with k db' = runs_with k db).
Proof.
  split; intros e record db db' k H N.
  - apply log_upload_returned_rowid in H as (t & row & Ht & _ & Hk & ->).
    split; [reflexivity|]. unfold uploads_with. rewrite Ht. cbn [uploads rows_of].
    apply other_keys_kept. intros E. apply N. now rewrite Hk, E.
  - apply log_run_returned_rowid in H as (t & row & Ht & _ & Hk & ->).
    split; [reflexivity|]. unfold runs_with. rewrite Ht. cbn [runs rows_of].
    apply other_keys_kept. intros E. apply N. now rewrite Hk, E.
Qed.

Lemma a_write_touches_one_key_witness :
  runs (snd (log_upload Examples.sqlite
               (Examples.upload_record "file_new" "q2.csv" 7)
               Scenarios.one_of_each)) = runs Scenarios.one_of_each /\
  uploads_with "file_abc"
    (snd (log_upload Examples.sqlite
            (Examples.upload_record "file_new" "q2.csv" 7)
            Scenarios.one_of_each))
  = uploads_with "file_abc" Scenarios.one_of_each.
Proof.
  apply (proj1 a_write_touches_one_key_of_one_table Examples.sqlite
           (Examples.upload_record "file_new" "q2.csv" 7)
           Scenarios.one_of_each).
  - reflexivity.
  - discriminate.
Defined.


(** ** The two tables do not interfere *)

Ltac bind_cases :=
  repeat match goal with
  | |- context [bind_outcome ?c _] => destruct c; cbn [bind_outcome]
  end.

Lemma log_upload_reads_uploads (e : Engine) (record : UploadRecord.t)
    (db1 db2 : Database) :
  uploads db1 = uploads db2 ->
  fst (log_upload e record db1) = fst (log_upload e record db2) /\
  uploads (snd (log_upload e record db1)) = uploads (snd (log_upload e record db2)) /\
  runs (snd (log_upload e record db1)) = runs db1.
Proof.
  intros E. unfold log_upload, _connect.
  destruct (fault e); [simpl; repeat split; congruence|].
  cbn beta. rewrite E. unfold table_named.
  destruct (uploads db2) eqn:E2; cbn [bind_outcome];
    [|simpl; repeat split; congruence].
  bind_cases; simpl; repeat split; congruence.
Qed.

Lemma log_run_reads_runs (e : Engine) (record : RunRecord.t)
    (db1 db2 : Database) :
  runs db1 = runs db2 ->
  fst (log_run e record db1) = fst (log_run e record db2) /\
  runs (snd (log_run e record db1)) = runs (snd (log_run e record db2)) /\
  uploads (snd (log_run e record db1)) = uploads db1.
Proof.
  intros E. unfold log_run, _connect.
  destruct (fault e); [simpl; repeat split; congruence|].
  cbn beta. rewrite E. unfold table_named.
  destruct (runs db2) eqn:E2; cbn [bind_outcome];
    [|simpl; repeat split; congruence].
  bind_cases; simpl; repeat split; congruence.
Qed.

Lemma database_ext (db1 db2 : Database) :
  uploads db1 = uploads db2 -> runs db1 = runs db2 -> db1 = db2.
Proof. destruct db1, db2; simpl; intros -> ->; reflexivity. Qed.

(** X6. Logging an upload and logging a run do not interfere: in either
    order they leave the same file, and each has the outcome it would have
    had alone. *)
Theorem uploads_and_runs_are_logged_independently :
  forall e1 e2 upload run db,
    snd (log_upload e1 upload (snd (log_run e2 run db)))
      = snd (log_run e2 run (snd (log_upload e1 upload db))) /\
    fst (log_upload e1 upload (snd (log_run e2 run db)))
      = fst (log_upload e1 upload db) /\
    fst (log_run e2 run (snd (log_upload e1 upload db)))
      = fst (log_run e2 run db).
Proof.
  intros e1 e2 upload run db.
  destruct (log_run_reads_runs e2 run db db eq_refl) as (_ & _ & Hu).
  destruct (log_upload_reads_uploads e1 upload db db eq_refl) as (_ & _ & Hr).
  destruct (log_upload_reads_uploads e1 upload (snd (log_run e2 run db)) db Hu)
    as (Ho1 & Hu1 & Hr1).
  destruct (log_run_reads_runs e2 run (snd (log_upload e1 upload db)) db Hr)
    as (Ho2 & Hr2 & Hu2).
  split; [|split; assumption].
  apply database_ext; congruence.
Qed.

(** ** Status updates compose *)

Lemma update_of_strings (e : Engine) (k s : string) (db : Database)
    (t : Table RunRow.t) :
  fault e = None ->
  runs db = Some t ->
  update_run_status e (VStr k) (VStr s) db
  = (Returned tt,
     mk_database (uploads db)
       (Some (mk_table (map (with_status k s) (rows t)) (seq t)))).
Proof.
  intros F Ht. unfold update_run_status, _connect. rewrite F, Ht. simpl.
  destruct (existsb _ (rows t)) eqn:Hex; simpl; [reflexivity|].
  rewrite (with_status_none _ _ _ Hex).
  destruct db as [u r]; simpl in *; subst r. now destruct t.
Qed.

Lemma update_unavailable (e : Engine) (k s : value) (db : Database) :
  fault e <> None \/ runs db = None ->
  snd (update_run_status e k s db) = db.
Proof.
  unfold update_run_status, _connect. intros [F|Ht].
  - destruct (fault e); [reflexivity|contradiction].
  - destruct (fault e); [reflexivity|]. now rewrite Ht.
Qed.

Lemma with_status_twice (k s1 s2 : string) (r : RunRow.t) :
  with_status k s2 (with_status k s1 r) = with_status k s2 r.
Proof.
  unfold with_status. destruct (String.eqb (RunRow.run_id r) k) eqn:E.
  - simpl. now rewrite E.
  - now rewrite E.
Qed.

Lemma with_status_swap (k1 k2 s1 s2 : string) (r : RunRow.t) :
  k1 <> k2 ->
  with_status k1 s1 (with_status k2 s2 r)
  = with_status k2 s2 (with_status k1 s1 r).
Proof.
  intros N. unfold with_status.
  destruct (String.eqb (RunRow.run_id r) k1) eqn:E1;
    destruct (String.eqb (RunRow.run_id r) k2) eqn:E2; simpl;
    rewrite ?E1, ?E2; try reflexivity.
  apply String.eqb_eq in E1, E2. congruence.
Qed.

Lemma with_status_read (k s : string) (l : list RunRow.t) :
  Forall (fun r => RunRow.status r = s)
         (filter (fun r => String.eqb (RunRow.run_id r) k)
                 (map (with_status k s) l)).
Proof.
  induction l as [|r l IH]; simpl; [constructor|].
  destruct (String.eqb (RunRow.run_id (with_status k s r)) k) eqn:E';
    [|exact IH].
  constructor; [|exact IH]. unfold with_status in *.
  destruct (String.eqb (RunRow.run_id r) k) eqn:E; [reflexivity|].
  rewrite E in E'. discriminate.
Qed.

(** X7. Status updates with [str] arguments compose as writes to one
    column: after an update that returns, every row of that run shows the
    new status; of two updates of the same run the later one decides;
    updates of different runs can be made in either order. *)
Theorem status_updates_compose :
  (forall e k s db,
      fst (update_run_status e (VStr k) (VStr s) db) = Returned tt ->
      Forall (fun r => RunRow.status r = s)
             (runs_with k (snd (update_run_status e (VStr k) (VStr s) db)))) /\
  (forall e k s1 s2 db,
      snd (update_run_status e (VStr k) (VStr s2)
             (snd (update_run_status e (VStr k) (VStr s1) db)))
      = snd (update_run_status e (VStr k) (VStr s2) db)) /\
  (forall e k1 k2 s1 s2 db,
      k1 <> k2 ->
      snd (update_run_status e (VStr k1) (VStr s1)
             (snd (update_run_status e (VStr k2) (VStr s2) db)))
      = snd (update_run_status e (VStr k2) (VStr s2)
               (snd (update_run_status e (VStr k1) (VStr s1) db)))).
Proof.
  split; [|split].
  - intros e k s db H.
    destruct (fault e) eqn:F.
    { unfold update_run_status, _connect in H. rewrite F in H. discriminate. }
    destruct (runs db) as [t|] eqn:Ht.
    2:{ unfold update_run_status, _connect in H. rewrite F, Ht in H.
        discriminate. }
    rewrite (update_of_strings _ _ _ _ _ F Ht). unfold runs_with; simpl.
    apply with_status_read.
  - intros e k s1 s2 db.
    destruct (fault e) eqn:F.
    { assert (U : forall a b d, snd (update_run_status e a b d) = d)
        by (intros; apply update_unavailable; left; congruence).
      now rewrite !U. }
    destruct (runs db) as [t|] eqn:Ht.
    2:{ rewrite (update_unavailable e (VStr k) (VStr s1) db) by auto.
        reflexivity. }
    rewrite (update_of_strings _ k s1 _ _ F Ht); cbn [snd].
    rewrite (update_of_strings e k s2
               (mk_database (uploads db)
                  (Some (mk_table (map (with_status k s1) (rows t)) (seq t))))
               (mk_table (map (with_status k s1) (rows t)) (seq t)) F eq_refl).
    rewrite (update_of_strings _ k s2 _ _ F Ht). cbn.
    rewrite map_map. do 3 f_equal.
    apply map_ext. intros r. apply with_status_twice.
  - intros e k1 k2 s1 s2 db N.
    destruct (fault e) eqn:F.
    { assert (U : forall a b d, snd (update_run_status e a b d) = d)
        by (intros; apply update_unavailable; left; congruence).
      now rewrite !U. }
    destruct (runs db) as [t|] eqn:Ht.
    2:{ rewrite (update_unavailable e (VStr k2) (VStr s2) db) by auto.
        rewrite (update_unavailable e (VStr k1) (VStr s1) db) by auto.
        rewrite (update_unavailable e (VStr k2) (VStr s2) db) by auto.
        reflexivity. }
    rewrite (update_of_strings _ k2 s2 _ _ F Ht); cbn [snd].
    rewrite (update_of_strings e k1 s1
               (mk_database (uploads db)
                  (Some (mk_table (map (with_status k2 s2) (rows t)) (seq t))))
               (mk_table (map (with_status k2 s2) (rows t)) (seq t)) F eq_refl).
    rewrite (update_of_strings _ k1 s1 _ _ F Ht); cbn [snd].
    rewrite (update_of_strings e k2 s2
               (mk_database (uploads db)
                  (Some (mk_table (map (with_status k1 s1) (rows t)) (seq t))))
               (mk_table (map (with_status k1 s1) (rows t)) (seq t)) F eq_refl).
    cbn.
    rewrite !map_map. do 3 f_equal.
    apply map_ext. intros r. now apply with_status_swap.
Qed.

Lemma status_updates_compose_witness :
  Forall (fun r => RunRow.status r = "running")
    (runs_with "run_1"
       (snd (update_run_status Examples.sqlite (VStr "run_1") (VStr "running")
               Scenarios.one_of_each))) /\
  snd (update_run_status Examples.sqlite (VStr "run_1") (VStr "completed")
         (snd (update_run_status Examples.sqlite (VStr "run_2") (VStr "failed")
                 Scenarios.one_of_each)))
  = snd (update_run_status Examples.sqlite (VStr "run_2") (VStr "failed")
           (snd (update_run_status Examples.sqlite (VStr "run_1") (VStr "completed")
                   Scenarios.one_of_each))).
Proof.
  destruct status_updates_compose as (R & _ & C).
  split.
  - apply (R Examples.sqlite "run_1" "running" Scenarios.one_of_each).
    reflexivity.
  - apply (C Examples.sqlite "run_1" "run_2" "completed" "failed"
             Scenarios.one_of_each).
    discriminate.
Defined.

(** ** The errors of the store *)

Lemma step_raised {A B} (c : outcome A) (k : A -> outcome B) (x : exn) :
  (a <- c ;; k a) = Raised x ->
  c = Raised x \/ exists a, c = Returned a /\ k a = Raised x.
Proof. destruct c as [a|y]; simpl; [eauto|intros [= ->]; now left]. Qed.

Lemma bind_error (i : Z) (v : value) (x : exn) :
  bind i v = Raised x -> database_error x.
Proof.
  destruct v as [| | n |f| | |]; cbn [bind]; try discriminate;
    try (intros [= <-]; exact I).
  - destruct (_ && _); [discriminate|]. intros [= <-]. exact I.
  - destruct f; discriminate.
Qed.

Lemma bind_optional_error (i : Z) (s : option string) (x : exn) :
  bind_optional i s = Raised x -> database_error x.
Proof. apply bind_error. Qed.

Lemma not_null_error {A} (column : string) (v : option A) (x : exn) :
  not_null column v = Raised x -> database_error x.
Proof. destruct v; simpl; [discriminate|]. intros [= <-]. exact I. Qed.

Lemma table_named_error {R} (name : string) (t : option (Table R)) (x : exn) :
  table_named name t = Raised x -> database_error x.
Proof. destruct t; simpl; [discriminate|]. intros [= <-]. exact I. Qed.

Lemma next_rowid_error {R} (id : R -> Z) (t : Table R) (x : exn) :
  next_rowid id t = Raised x -> database_error x.
Proof.
  unfold next_rowid. destruct (_ <? _); [discriminate|]. intros [= <-]. exact I.
Qed.

Lemma connect_error {A} (e : Engine) (body : Database -> outcome (A * Database))
    (db : Database) (x : exn) :
  fst (_connect e body db) = Raised x ->
  (forall y, body db = Raised y -> database_error y) ->
  database_error x.
Proof.
  unfold _connect. destruct (fault e); cbn.
  - intros [= <-] _. exact I.
  - destruct (body db) as [[a db']|y]; cbn; [discriminate|].
    intros [= <-] H. now apply H.
Qed.

(** A statement that failed, blamed on the step that raised. *)
Ltac blame H :=
  repeat (apply step_raised in H as [H|(? & _ & H)];
          [first [ now apply bind_error in H
                 | now apply bind_optional_error in H
                 | now apply not_null_error in H
                 | now apply table_named_error in H
                 | now apply next_rowid_error in H ]|]);
  try discriminate H.

Lemma initialise_error (e : Engine) (db : Database) (x : exn) :
  fst (_initialise e db) = Raised x -> database_error x.
Proof.
  unfold _initialise. destruct (fault e); cbn; [now intros [= <-]|].
  destruct (fault_later e); cbn; [now intros [= <-]|discriminate].
Qed.

Lemma the_store_errors (e : Engine) (db : Database) (x : exn) :
  (fst (_initialise e db) = Raised x -> database_error x) /\
  (forall record,
      fst (log_upload e record db) = Raised x -> database_error x) /\
  (forall record,
      fst (log_run e record db) = Raised x -> database_error x) /\
  (forall run_id status,
      fst (update_run_status e run_id status db) = Raised x ->
      database_error x).
Proof.
  split; [|split; [|split]].
  - apply initialise_error.
  - intros record H. apply (connect_error _ _ _ _ H). intros y E. blame E.
  - intros record H. apply (connect_error _ _ _ _ H). intros y E. blame E.
  - intros run_id status H. apply (connect_error _ _ _ _ H). intros y E.
    blame E. destruct (existsb _ _); [blame E|discriminate].
Qed.

(** X8. What the store raises.  [MetadataStore(path)] raises the [OSError]
    of [mkdir] when the directory cannot be made, with the file untouched,
    and otherwise what [_initialise] raises.  Whatever [_initialise],
    [log_upload], [log_run] and [update_run_status] raise is an error of
    the database layer: an [sqlite3] error or the [OverflowError] of a
    number that does not fit.  None of these is a [RuntimeError]. *)
Theorem the_store_raises_no_runtime_error :
  forall e db x,
    (fst (__init__ e db) = Raised x ->
     match mkdir_error e with
     | Some msg => x = OSError msg /\ snd (__init__ e db) = db
     | None => database_error x
     end) /\
    (fst (_initialise e db) = Raised x -> database_error x) /\
    (forall record,
        fst (log_upload e record db) = Raised x -> database_error x) /\
    (forall record,
        fst (log_run e record db) = Raised x -> database_error x) /\
    (forall run_id status,
        fst (update_run_status e run_id status db) = Raised x ->
        database_error x) /\
    (database_error x \/ filesystem_error x ->
     forall msg, x <> RuntimeError msg).
Proof.
  intros e db x. split; [|split; [|split; [|split; [|split]]]];
    try apply the_store_errors.
  - unfold __init__. destruct (mkdir_error e); cbn.
    + now intros [= <-].
    + apply initialise_error.
  - intros [H|H] msg ->; exact H.
Qed.

Lemma the_store_raises_no_runtime_error_witness :
  database_error (SqliteError (OperationalError "database is locked")) /\
  database_error
    (OverflowError "Python int too large to convert to SQLite INTEGER") /\
  snd (__init__ Scenarios.no_directory empty_database) = empty_database.
Proof.
  split; [|split].
  - destruct (the_store_raises_no_runtime_error Examples.locked
                Examples.fresh_database
                (SqliteError (OperationalError "database is locked")))
      as (I & _).
    apply I. reflexivity.
  - destruct (the_store_raises_no_runtime_error Examples.sqlite
                Examples.fresh_database
                (OverflowError
                   "Python int too large to convert to SQLite INTEGER"))
      as (_ & _ & U & _).
    apply (U (Examples.upload_record "file_abc" "q1.csv" (2 ^ 63))).
    reflexivity.
  - destruct (the_store_raises_no_runtime_error Scenarios.no_directory
                empty_database (OSError "[Errno 17] File exists: 'data'"))
      as (I & _).
    apply I. reflexivity.
Defined.

End StoreFacts.

(* ===================================================================== *)
(** * More facts about the agent service *)
(* ===================================================================== *)

Module AgentFacts.
Import Py Datetime Storage Schemas Service Store Requests.
Import PyFacts StorageFacts ServiceFacts StoreFacts.

(** The headers of a request, once the key is known to be set. *)
Ltac headers :=
  unfold files_request, threads_request, runs_request, auth_headers, setting;
  repeat match goal with
  | E : openai_api_key _ = _ |- _ => rewrite E
  | E : openai_assistant_id _ = _ |- _ => rewrite E
  end.

Ltac trace :=
  rewrite <- ?app_assoc, ?skipn_own_length, ?skipn_whole; cbn [app].

(** Branches that contradict each other. *)
Ltac tidy :=
  repeat match goal with
  | H : Returned _ = Returned _ |- _ => injection H as H; try subst
  | H : Some _ = Some _ |- _ => injection H as H; try subst
  | H : VDict _ = VDict _ |- _ => injection H as H; try subst
  | H : Unreachable _ = Unreachable _ |- _ => injection H as H; try subst
  | H : Refused _ = Refused _ |- _ => injection H as H; try subst
  | E : http ?env ?req = _, H : http ?env ?req = _ |- _ => rewrite E in H
  | H : Responded _ = Responded _ |- _ => injection H as H; try subst
  | H : truthy ?x = _, H' : context [truthy ?x] |- _ =>
      lazymatch type of H' with
      | truthy x = _ => fail
      | _ => rewrite H in H'
      end
  end;
  try discriminate; try congruence; try reflexivity.

(** Case analysis on a variable that a hypothesis tests. *)
Ltac hyp_step :=
  match goal with
  | H : context [match ?x with _ => _ end] |- _ =>
      is_var x; destruct x; try discriminate H
  | H : context [match ?x with _ => _ end] |- _ =>
      lazymatch x with
      | context [match _ with _ => _ end] => fail
      | _ => let E := fresh "E" in destruct x eqn:E; try discriminate H
      end
  end.

Ltac settle := repeat (reduce; first [case_step | hyp_step | idtac]; tidy).

(** ** The requests that go out *)

(** A request that the client is bound to refuse is refused, whatever the
    transport says; a request that got a reply was not. *)
Lemma refusal_refuses env req e :
  refusal req = Some e -> exists e', http env req = Refused e'.
Proof.
  intros H. unfold http. rewrite H. destruct (transport env req); eauto.
Qed.

Lemma refused_is_not_sent env req e :
  refusal req = Some e -> sent env req = [].
Proof.
  intros H. unfold sent.
  now destruct (refusal_refuses env req e H) as [e' ->].
Qed.

Lemma answered_is_not_refused env req r :
  http env req = Responded r -> refusal req = None.
Proof.
  unfold http.
  destruct (transport env req), (refusal req); now try discriminate.
Qed.

Lemma not_refused req :
  refusal req = None ->
  parses (base_url req) = true /\ encodable (headers req) = true /\
  path_parses (endpoint req) = true.
Proof.
  unfold refusal.
  destruct (parses (base_url req)), (encodable (headers req)),
    (path_parses (endpoint req)); cbn; now try discriminate.
Qed.

Lemma key_refusal (self : AgentService) (ep : Endpoint) (b : Body) :
  parses (_base_url self) = false \/ encodable (auth_headers self) = false ->
  exists e,
    refusal (mk_request (_base_url self) (auth_headers self) 60 ep b) = Some e.
Proof.
  unfold refusal; cbn [base_url headers endpoint].
  intros [H|H]; rewrite ?H; cbn [negb]; [eauto|].
  destruct (parses (_base_url self)); cbn [negb]; eauto.
Qed.

Lemma thread_refusal (self : AgentService) (thread_id : string) (b : Body) :
  parses thread_id = false ->
  exists e,
    refusal (mk_request (_base_url self) (auth_headers self) 60
               (ThreadRuns (VStr thread_id)) b) = Some e.
Proof.
  unfold refusal; cbn [base_url headers endpoint path_parses].
  intros ->. cbn [negb].
  destruct (parses (_base_url self)), (encodable (auth_headers self));
    cbn [negb]; eauto.
Qed.

Lemma upload_source_issues env self file provider w :
  issued (upload_source env self file provider) w
  = if unset (openai_api_key (_settings self)) then []
    else sent env (files_request self file).
Proof.
  destruct (unset (openai_api_key (_settings self))) eqn:K.
  - unfold_service. rewrite K. cbn. apply skipn_whole.
  - unfold sent. unfold_service. rewrite K.
    unfold files_request, auth_headers, setting.
    cases; trace; reflexivity.
Qed.

(** X9. [upload_source] sends nothing without a credential.  With one it
    sends the multipart POST of the file to the Files endpoint, with the
    bearer and beta headers and a timeout of 60 seconds, unless the client
    refuses that request, and nothing else whatever the answer: there is
    no second attempt.  A key that is not ASCII, or a base URL with a
    control character, is always refused, so that nothing is sent. *)
Theorem upload_source_sends_one_request :
  forall env self file provider w,
    issued (upload_source env self file provider) w
    = (if unset (openai_api_key (_settings self)) then []
       else sent env (files_request self file)) /\
    (parses (_base_url self) = false \/ encodable (auth_headers self) = false ->
     issued (upload_source env self file provider) w = []).
Proof.
  intros env self file provider w. split; [apply upload_source_issues|].
  intros H. rewrite upload_source_issues.
  destruct (unset _); [reflexivity|].
  destruct (key_refusal self Files
              (Multipart [("purpose", "assistants")]
                 [("file", (or_default (UploadFile.filename file) "upload",
                            UploadFile.contents file,
                            or_default (UploadFile.content_type file)
                              "application/octet-stream"))]) H) as [e R].
  exact (refused_is_not_sent env _ e R).
Qed.

Lemma upload_source_sends_one_request_witness :
  issued (upload_source Examples.env Scenarios.service_with_latin_key
            Examples.q1_csv None) Examples.world = [] /\
  upload_source Examples.env Scenarios.service_with_latin_key Examples.q1_csv
    None Examples.world
  = (Raised UnicodeEncodeError, Examples.world).
Proof.
  split; [|reflexivity].
  apply (upload_source_sends_one_request Examples.env
           Scenarios.service_with_latin_key Examples.q1_csv None
           Examples.world).
  right. reflexivity.
Defined.

Lemma start_agent_run_issues env self request w :
  issued (start_agent_run env self request) w
  = if unset (openai_api_key (_settings self))
       || unset (openai_assistant_id (_settings self))
    then []
    else (sent env (threads_request self request)
          ++ match accepted_thread (http env (threads_request self request)) with
             | Some thread_id => sent env (runs_request self request thread_id)
             | None => []
             end)%list.
Proof.
  unfold sent, threads_request, runs_request, auth_headers, setting,
    accepted_thread, get_or.
  destruct (openai_api_key (_settings self)) as [key|] eqn:K;
    destruct (openai_assistant_id (_settings self)) as [assistant|] eqn:A;
    unfold_service; rewrite ?K, ?A; cases; trace;
    rewrite ?orb_true_r; try reflexivity; tidy.
Qed.

(** X10. [start_agent_run] sends nothing unless both the credential and the
    assistant id are set.  Otherwise it posts the thread, with the file
    ids as attachments in the order given, and then, only if the answer is
    a 2xx JSON object with a truthy [id], the run on that thread; a
    request that the client refuses is not sent.  Nothing else is sent: no
    retry after a failure, and no request that would remove the thread
    when the run cannot be created.  A thread id with a control character
    is always refused: the thread request is then the only one sent. *)
Theorem start_agent_run_sends_thread_then_run :
  forall env self request w,
    issued (start_agent_run env self request) w
    = (if unset (openai_api_key (_settings self))
          || unset (openai_assistant_id (_settings self))
       then []
       else (sent env (threads_request self request)
             ++ match accepted_thread
                        (http env (threads_request self request)) with
                | Some thread_id =>
                    sent env (runs_request self request thread_id)
                | None => []
                end)%list) /\
    (parses (_base_url self) = false \/ encodable (auth_headers self) = false ->
     issued (start_agent_run env self request) w = []) /\
    (forall thread_id,
        unset (openai_api_key (_settings self)) = false ->
        unset (openai_assistant_id (_settings self)) = false ->
        accepted_thread (http env (threads_request self request))
          = Some (VStr thread_id) ->
        parses thread_id = false ->
        issued (start_agent_run env self request) w
        = [threads_request self request]).
Proof.
  intros env self request w. split; [apply start_agent_run_issues|]. split.
  - intros H. rewrite start_agent_run_issues.
    destruct (_ || _); [reflexivity|].
    destruct (key_refusal self Threads
                (Json (VDict [("messages",
                               VList [message_payload
                                        (AgentRunRequest.file_ids request)])]))
                H) as [e R].
    destruct (refusal_refuses env _ e R) as [e' E].
    unfold threads_request. rewrite E. cbn [accepted_thread].
    rewrite (refused_is_not_sent env _ e R). reflexivity.
  - intros thread_id K A T P. rewrite start_agent_run_issues, K, A, T.
    cbn [orb].
    destruct (thread_refusal self thread_id
                (Json (VDict (build_run_body
                                (setting (openai_assistant_id (_settings self)))
                                request))) P) as [e R].
    unfold runs_request. rewrite (refused_is_not_sent env _ e R).
    unfold sent.
    destruct (http env (threads_request self request)); try discriminate T.
    reflexivity.
Qed.

Lemma start_agent_run_sends_thread_then_run_witness :
  issued (start_agent_run Examples.env Scenarios.service_with_latin_key
            Examples.run_request) Examples.world = [] /\
  issued (start_agent_run Scenarios.env_line_feed Examples.service
            Examples.run_request) Examples.world
  = [threads_request Examples.service Examples.run_request] /\
  fst (start_agent_run Scenarios.env_line_feed Examples.service
         Examples.run_request Examples.world)
  = Raised InvalidURL.
Proof.
  destruct (start_agent_run_sends_thread_then_run Examples.env
              Scenarios.service_with_latin_key Examples.run_request
              Examples.world) as (_ & K & _).
  destruct (start_agent_run_sends_thread_then_run Scenarios.env_line_feed
              Examples.service Examples.run_request Examples.world)
    as (_ & _ & T).
  split; [apply K; right; reflexivity|].
  split; [|reflexivity].
  apply (T Scenarios.thread_with_line_feed); reflexivity.
Defined.


(** X11. When a request cannot be delivered, the operation raises a
    [RuntimeError] that carries the text of the transport error, after
    that one attempt and with the database untouched; for a run this holds
    for the thread request and for the run request alike. *)
Theorem undelivered_request_is_reported :
  (forall env self file provider w msg,
      unset (openai_api_key (_settings self)) = false ->
      http env (files_request self file) = Unreachable msg ->
      upload_source env self file provider w
      = (Raised (RuntimeError ("Failed to reach OpenAI Files API: " ++ msg)),
         mk_world (requests w ++ [files_request self file]) (database w))) /\
  (forall env self request w msg,
      unset (openai_api_key (_settings self)) = false ->
      unset (openai_assistant_id (_settings self)) = false ->
      http env (threads_request self request) = Unreachable msg ->
      start_agent_run env self request w
      = (Raised (RuntimeError ("Failed to reach OpenAI Agents API: " ++ msg)),
         mk_world (requests w ++ [threads_request self request]) (database w))) /\
  (forall env self request w thread_id msg,
      unset (openai_api_key (_settings self)) = false ->
      unset (openai_assistant_id (_settings self)) = false ->
      accepted_thread (http env (threads_request self request)) = Some thread_id ->
      http env (runs_request self request thread_id) = Unreachable msg ->
      start_agent_run env self request w
      = (Raised (RuntimeError ("Failed to reach OpenAI Agents API: " ++ msg)),
         mk_world (requests w ++ [threads_request self request;
                                  runs_request self request thread_id])
           (database w))).
Proof.
  split; [|split].
  - intros env self file provider w msg K H.
    unfold files_request, auth_headers, setting in *.
    destruct (openai_api_key (_settings self)) as [key|] eqn:Ek;
      [|discriminate].
    unfold_service. rewrite Ek, K. settle.
  - intros env self request w msg K A H.
    unfold threads_request, auth_headers, setting in *.
    destruct (openai_api_key (_settings self)) as [key|] eqn:Ek;
      [|discriminate].
    destruct (openai_assistant_id (_settings self)) as [assistant|] eqn:Ea;
      [|discriminate].
    unfold_service. rewrite Ek, Ea, K, A. settle.
  - intros env self request w thread_id msg K A T H.
    unfold threads_request, runs_request, auth_headers, setting,
      accepted_thread, get_or in *.
    destruct (openai_api_key (_settings self)) as [key|] eqn:Ek;
      [|discriminate].
    destruct (openai_assistant_id (_settings self)) as [assistant|] eqn:Ea;
      [|discriminate].
    unfold_service. rewrite Ek, Ea, K, A. settle.
    all: now rewrite <- ?app_assoc.
Qed.


Lemma undelivered_request_witness :
  upload_source Scenarios.env_offline Examples.service Examples.q1_csv None
    Examples.world
  = (Raised (RuntimeError ("Failed to reach OpenAI Files API: "
                           ++ "All connection attempts failed")),
     mk_world [files_request Examples.service Examples.q1_csv]
       Examples.fresh_database) /\
  start_agent_run Scenarios.env_runs_offline Examples.service
    Examples.run_request Examples.world
  = (Raised (RuntimeError ("Failed to reach OpenAI Agents API: "
                           ++ "All connection attempts failed")),
     mk_world [threads_request Examples.service Examples.run_request;
               runs_request Examples.service Examples.run_request
                 (VStr "thread_1")]
       Examples.fresh_database).
Proof.
  destruct undelivered_request_is_reported as (U & _ & R).
  split.
  - apply (U Scenarios.env_offline Examples.service Examples.q1_csv None
             Examples.world "All connection attempts failed"); reflexivity.
  - apply (R Scenarios.env_runs_offline Examples.service Examples.run_request
             Examples.world (VStr "thread_1") "All connection attempts failed");
      reflexivity.
Defined.

(** ** Configuration of a run *)

(** X12. [start_agent_run] checks the credential first and the assistant
    id second, and either failure leaves the world as it was: no request
    has gone out and the database is untouched.  A missing credential is
    what is reported when both are missing. *)
Theorem start_agent_run_checks_configuration_first :
  (forall env self request w,
      unset (openai_api_key (_settings self)) = true ->
      start_agent_run env self request w = (Raised api_key_not_configured, w)) /\
  (forall env self request w,
      unset (openai_api_key (_settings self)) = false ->
      unset (openai_assistant_id (_settings self)) = true ->
      start_agent_run env self request w
      = (Raised assistant_id_not_configured, w)).
Proof.
  split.
  - intros env self request w K. unfold_service. now rewrite K.
  - intros env self request w K A. unfold_service. now rewrite K, A.
Qed.

Lemma start_agent_run_checks_configuration_witness :
  start_agent_run Examples.env Examples.service_without_credential
    Examples.run_request Examples.world
  = (Raised api_key_not_configured, Examples.world) /\
  start_agent_run Examples.env Scenarios.service_without_assistant
    Examples.run_request Examples.world
  = (Raised assistant_id_not_configured, Examples.world).
Proof.
  destruct start_agent_run_checks_configuration_first as (K & A).
  split.
  - apply (K Examples.env Examples.service_without_credential
             Examples.run_request Examples.world). reflexivity.
  - apply (A Examples.env Scenarios.service_without_assistant
             Examples.run_request Examples.world); reflexivity.
Defined.


Lemma upload_source_returned env self file provider w result w' :
  upload_source env self file provider w = (Returned result, w') ->
  exists r d,
    http env (files_request self file) = Responded r /\
    success_with r d /\
    result = upload_result env file provider d /\
    truthy (UploadResult.file_id result) = true /\
    requests w' = (requests w ++ [files_request self file])%list /\
    match _store self with
    | None => database w' = database w
    | Some _ =>
        log_upload (engine env) (upload_record result) (database w)
        = (Returned tt, database w')
    end.
Proof.
  unfold files_request, auth_headers, setting, upload_result, upload_record,
    get_or.
  unfold_service. intros H.
  repeat (reduce; first [hyp_step | idtac]; tidy).
  all: injection H as <- <-.
  all: match goal with
       | E : value_get ?v _ _ = Returned _ |- _ => destruct v; try discriminate E
       end.
  all: cbn [value_get] in *.
  all: repeat match goal with
       | E : Returned _ = Returned _ |- _ => injection E as <-
       | u : unit |- _ => destruct u
       end.
  all: eexists _, _; cbn; repeat split; eauto.
  all: now apply negb_false_iff.
Qed.


Lemma start_agent_run_returned env self request w result w' :
  start_agent_run env self request w = (Returned result, w') ->
  exists thread_id r d started_at,
    accepted_thread (http env (threads_request self request)) = Some thread_id /\
    http env (runs_request self request thread_id) = Responded r /\
    success_with r d /\
    started_at_of env d = Returned started_at /\
    result = run_result request (setting (openai_assistant_id (_settings self)))
               thread_id d started_at /\
    truthy (RunResult.run_id result) = true /\
    requests w'
    = (requests w ++ [threads_request self request;
                      runs_request self request thread_id])%list /\
    match _store self with
    | None => database w' = database w
    | Some _ =>
        log_run (engine env) (run_record result) (database w)
        = (Returned tt, database w')
    end.
Proof.
  unfold_service. intros H.
  repeat (reduce; first [hyp_step | idtac]; tidy).
  all: injection H as <- <-.
  all: repeat match goal with
       | E : value_get ?v _ _ = Returned _ |- _ =>
           is_var v; destruct v; try discriminate E
       | E : value_get (VDict _) _ _ = Returned _ |- _ =>
           cbn [value_get] in E; injection E as <-
       | u : unit |- _ => destruct u
       end.
  all: repeat match goal with E : negb _ = false |- _ => apply negb_false_iff in E end.
  all: unfold started_at_of, run_result, run_record, get_or.
  all: eexists _, _, _, _.
  all: (split; [headers; cbn [setting]; unfold accepted_thread, get_or, is_success;
                repeat match goal with E : _ = _ |- _ => rewrite E end;
                reflexivity|]).
  all: (split; [headers; cbn [setting]; eassumption|]).
  all: (split; [split; eassumption|]).
  all: (split; [repeat match goal with
                       | E : is_int_or_float _ = _ |- _ => rewrite E
                       end; first [eassumption | reflexivity]|]).
  all: headers; cbn; repeat split; auto.
  all: now rewrite <- app_assoc.
Qed.

Lemma upload_source_returns env self file provider w r d db' :
  unset (openai_api_key (_settings self)) = false ->
  http env (files_request self file) = Responded r ->
  success_with r d ->
  truthy (get_or d "id" VNone) = true ->
  match _store self with
  | None => db' = database w
  | Some _ =>
      log_upload (engine env) (upload_record (upload_result env file provider d))
        (database w)
      = (Returned tt, db')
  end ->
  upload_source env self file provider w
  = (Returned (upload_result env file provider d),
     mk_world (requests w ++ [files_request self file]) db').
Proof.
  unfold files_request, auth_headers, setting, upload_result, upload_record.
  intros K Hh [S J] T St. unfold_service.
  destruct (openai_api_key (_settings self)) as [key|]; [|discriminate].
  destruct (_store self); along; subst; reflexivity.
Qed.

Lemma start_agent_run_returns env self request w thread_id r d started_at db' :
  unset (openai_api_key (_settings self)) = false ->
  unset (openai_assistant_id (_settings self)) = false ->
  accepted_thread (http env (threads_request self request)) = Some thread_id ->
  http env (runs_request self request thread_id) = Responded r ->
  success_with r d ->
  truthy (get_or d "id" VNone) = true ->
  started_at_of env d = Returned started_at ->
  let result :=
    run_result request (setting (openai_assistant_id (_settings self)))
      thread_id d started_at in
  match _store self with
  | None => db' = database w
  | Some _ =>
      log_run (engine env) (run_record result) (database w)
      = (Returned tt, db')
  end ->
  start_agent_run env self request w
  = (Returned result,
     mk_world (requests w ++ [threads_request self request;
                              runs_request self request thread_id]) db').
Proof.
  unfold threads_request, runs_request, auth_headers, setting, run_result,
    run_record, accepted_thread, started_at_of.
  intros K A Ht Hh [S J] T Sa; cbv zeta; intros St.
  unfold_service.
  destruct (openai_api_key (_settings self)) as [key|]; [|discriminate].
  destruct (openai_assistant_id (_settings self)) as [aid|]; [|discriminate].
  repeat (reduce; first [hyp_step | idtac]; tidy).
  all: along; subst; now rewrite <- ?app_assoc.
Qed.

(** ** When a call returns *)

(** X13. [upload_source] returns exactly when the credential is set, the
    one request it sends is answered by a 2xx JSON object with a truthy
    [id], and the store write (when a store is attached) returns.  The
    result is then the payload's normalisation, the request log has grown
    by that one request, and the database is the one the write left.  A
    request that is answered is one the client did not refuse: a call that
    returns had a base URL that parses and a key that is ASCII. *)
Theorem upload_source_returns_exactly_when :
  forall env self file provider w result w',
    (upload_source env self file provider w = (Returned result, w') <->
     unset (openai_api_key (_settings self)) = false /\
     exists r d,
       http env (files_request self file) = Responded r /\
       success_with r d /\
       truthy (get_or d "id" VNone) = true /\
       result = upload_result env file provider d /\
       requests w' = (requests w ++ [files_request self file])%list /\
       match _store self with
       | None => database w' = database w
       | Some _ =>
           log_upload (engine env) (upload_record result) (database w)
           = (Returned tt, database w')
       end) /\
    (upload_source env self file provider w = (Returned result, w') ->
     parses (_base_url self) = true /\ encodable (auth_headers self) = true).
Proof.
  intros env self file provider w result w'. split; [|
    intros H;
    apply upload_source_returned in H as (r & d & Hh & _);
    apply answered_is_not_refused, not_refused in Hh as (P & E & _);
    now split]. split.
  - intros H. split.
    + destruct (unset (openai_api_key (_settings self))) eqn:K; [|reflexivity].
      revert H. unfold_service. now rewrite K.
    + apply upload_source_returned in H as (r & d & Hh & S & -> & T & Rq & St).
      now exists r, d.
  - intros (K & r & d & Hh & S & T & -> & Rq & St).
    destruct w' as [rq' db']; cbn [requests database] in *. subst rq'.
    apply (upload_source_returns env self file provider w r d db'); auto.
Qed.

(** X14. [start_agent_run] returns exactly when the credential and the
    assistant id are set, the Threads request is accepted, the Runs
    request on that thread is answered by a 2xx JSON object with a truthy
    [id], [created_at] yields a time, and the store write (when a store is
    attached) returns.  The request log has then grown by the two
    requests, in that order.  Neither request was refused: the base URL
    parses, the key is ASCII and the thread id has no control character. *)
Theorem start_agent_run_returns_exactly_when :
  forall env self request w result w',
    (start_agent_run env self request w = (Returned result, w') <->
     unset (openai_api_key (_settings self)) = false /\
     unset (openai_assistant_id (_settings self)) = false /\
     exists thread_id r d started_at,
       accepted_thread (http env (threads_request self request))
         = Some thread_id /\
       http env (runs_request self request thread_id) = Responded r /\
       success_with r d /\
       truthy (get_or d "id" VNone) = true /\
       started_at_of env d = Returned started_at /\
       result = run_result request
                  (setting (openai_assistant_id (_settings self)))
                  thread_id d started_at /\
       requests w'
       = (requests w ++ [threads_request self request;
                         runs_request self request thread_id])%list /\
       match _store self with
       | None => database w' = database w
       | Some _ =>
           log_run (engine env) (run_record result) (database w)
           = (Returned tt, database w')
       end) /\
    (start_agent_run env self request w = (Returned result, w') ->
     parses (_base_url self) = true /\ encodable (auth_headers self) = true /\
     path_parses (ThreadRuns (RunResult.thread_id result)) = true).
Proof.
  intros env self request w result w'. split; [|
    intros H;
    apply start_agent_run_returned in H
      as (t & r & d & sa & _ & Hh & _ & _ & -> & _);
    apply answered_is_not_refused, not_refused in Hh as (P & E & T);
    now repeat split]. split.
  - intros H. split; [|split].
    + destruct (unset (openai_api_key (_settings self))) eqn:K; [|reflexivity].
      revert H. unfold_service. now rewrite K.
    + destruct (unset (openai_api_key (_settings self))) eqn:K.
      * revert H. unfold_service. now rewrite K.
      * destruct (unset (openai_assistant_id (_settings self))) eqn:A;
          [|reflexivity].
        revert H. unfold_service. now rewrite K, A.
    + apply start_agent_run_returned in H
        as (t & r & d & sa & Ht & Hh & S & Sa & -> & T & Rq & St).
      now exists t, r, d, sa.
  - intros (K & A & t & r & d & sa & Ht & Hh & S & T & Sa & -> & Rq & St).
    destruct w' as [rq' db']; cbn [requests database] in *. subst rq'.
    apply (start_agent_run_returns env self request w t r d sa db'); auto.
Qed.

Lemma upload_source_returns_witness :
  exists r d,
    http Examples.env
      (files_request Scenarios.service_without_store Examples.q1_csv)
      = Responded r /\
    success_with r d /\
    truthy (get_or d "id" VNone) = true.
Proof.
  assert (E : upload_source Examples.env Scenarios.service_without_store
                Examples.q1_csv None Examples.world
              = (Returned (upload_result Examples.env Examples.q1_csv None
                             [("id", VStr "file_abc");
                              ("filename", VStr "q1.csv")]),
                 mk_world [files_request Scenarios.service_without_store
                             Examples.q1_csv]
                   Examples.fresh_database))
    by reflexivity.
  apply (proj1 (upload_source_returns_exactly_when _ _ _ _ _ _ _)) in E
    as (_ & r & d & H & S & T & _).
  exists r, d. split; [exact H|]. split; [exact S|exact T].
Defined.

Lemma start_agent_run_returns_witness :
  exists thread_id r d,
    accepted_thread
      (http Examples.env
         (threads_request Scenarios.service_without_store Examples.run_request))
      = Some thread_id /\
    http Examples.env
      (runs_request Scenarios.service_without_store Examples.run_request
         thread_id)
      = Responded r /\
    success_with r d.
Proof.
  assert (E : start_agent_run Examples.env Scenarios.service_without_store
                Examples.run_request Examples.world
              = (Returned (run_result Examples.run_request "asst_1"
                             (VStr "thread_1")
                             [("id", VStr "run_1"); ("status", VStr "queued");
                              ("created_at", VInt 1700000000)]
                             (mk_datetime 2023 11 14 22 13 20 0)),
                 mk_world [threads_request Scenarios.service_without_store
                             Examples.run_request;
                           runs_request Scenarios.service_without_store
                             Examples.run_request (VStr "thread_1")]
                   Examples.fresh_database))
    by reflexivity.
  apply (proj1 (start_agent_run_returns_exactly_when _ _ _ _ _ _)) in E
    as (_ & _ & t & r & d & sa & Ht & H & S & _).
  exists t, r, d. split; [exact Ht|]. split; [exact H|exact S].
Defined.

(** ** What a returned result holds *)

(** X15. What a returned result takes from the call rather than from the
    provider.  For an upload: the byte count is the length of the content
    read from the file, the provider hint is the caller's, the content type
    is the file's or [application/octet-stream], the time is the server's
    clock.  For a run: the thread is the one the Threads request opened,
    the schema profile is the requested one and the metadata is the
    request's, or empty. *)
Theorem a_result_echoes_the_call :
  (forall env self file provider w result,
      fst (upload_source env self file provider w) = Returned result ->
      UploadResult.bytes result
        = Z.of_nat (List.length (UploadFile.contents file)) /\
      UploadResult.provider result = provider /\
      UploadResult.content_type result
        = or_default (UploadFile.content_type file) "application/octet-stream" /\
      UploadResult.uploaded_at result = utcnow env) /\
  (forall env self request w result,
      fst (start_agent_run env self request w) = Returned result ->
      accepted_thread (http env (threads_request self request))
        = Some (RunResult.thread_id result) /\
      RunResult.requested_schema result
        = AgentRunRequest.response_schema request /\
      RunResult.metadata result = metadata_or_empty request).
Proof.
  split.
  - intros env self file provider w result H.
    destruct (upload_source env self file provider w) as [o w'] eqn:E.
    cbn in H; subst o.
    apply upload_source_returned in E as (r & d & _ & _ & -> & _).
    now repeat split.
  - intros env self request w result H.
    destruct (start_agent_run env self request w) as [o w'] eqn:E.
    cbn in H; subst o.
    apply start_agent_run_returned in E as (t & r & d & sa & Ht & _ & _ & _ & -> & _).
    now repeat split.
Qed.

Lemma a_result_echoes_the_call_witness :
  UploadResult.bytes
    (upload_result Examples.env Examples.q1_csv (Some "netsuite")
       [("id", VStr "file_abc"); ("filename", VStr "q1.csv")]) = 1024 /\
  accepted_thread
    (http Examples.env (threads_request Examples.service Examples.run_request))
  = Some (VStr "thread_1").
Proof.
  destruct a_result_echoes_the_call as (U & R).
  split.
  - apply (U Examples.env Examples.service Examples.q1_csv (Some "netsuite")
             Examples.world). reflexivity.
  - apply (R Examples.env Examples.service Examples.run_request
             Examples.world
             (run_result Examples.run_request "asst_1" (VStr "thread_1")
                [("id", VStr "run_1"); ("status", VStr "queued");
                 ("created_at", VInt 1700000000)]
                (mk_datetime 2023 11 14 22 13 20 0))).
    reflexivity.
Defined.

(** ** What a returned call has stored *)

(** X16. After a call that returns on a service with a store, the table
    holds exactly one row under the result's id and that row holds the
    result's values; the other table is as it was. *)
Theorem a_returned_call_has_stored_its_result :
  (forall env self file provider w result w',
      upload_source env self file provider w = (Returned result, w') ->
      _store self <> None ->
      exists row,
        uploads_with (UploadRow.file_id row) (database w') = [row] /\
        upload_row_holds (engine env) (upload_record result) row /\
        runs (database w') = runs (database w)) /\
  (forall env self request w result w',
      start_agent_run env self request w = (Returned result, w') ->
      _store self <> None ->
      exists row,
        runs_with (RunRow.run_id row) (database w') = [row] /\
        run_row_holds (engine env) (run_record result) row /\
        uploads (database w') = uploads (database w)).
Proof.
  split.
  - intros env self file provider w result w' H S.
    apply upload_source_returned in H as (r0 & d0 & _ & _ & _ & _ & _ & St).
    destruct (_store self); [|congruence].
    apply log_upload_returned in St as (t & row & _ & Hd & Hr).
    exists row. rewrite Hd. split; [|now split].
    unfold uploads_with; cbn [uploads rows_of]. apply replaced_row_alone.
  - intros env self request w result w' H S.
    apply start_agent_run_returned in H as (t0 & r0 & d0 & sa0 & _ & _ & _ & _ & _ & _ & _ & St).
    destruct (_store self); [|congruence].
    apply log_run_returned in St as (t & row & _ & Hd & Hr).
    exists row. rewrite Hd. split; [|now split].
    unfold runs_with; cbn [runs rows_of]. apply replaced_row_alone.
Qed.

Lemma a_returned_call_has_stored_its_result_witness :
  (exists row,
      uploads_with (UploadRow.file_id row)
        (database (snd (upload_source Examples.env Examples.service
                          Examples.q1_csv None Examples.world))) = [row] /\
      upload_row_holds Examples.sqlite
        (upload_record
           (upload_result Examples.env Examples.q1_csv None
              [("id", VStr "file_abc"); ("filename", VStr "q1.csv")])) row /\
      runs (database (snd (upload_source Examples.env Examples.service
                             Examples.q1_csv None Examples.world)))
      = runs Examples.fresh_database) /\
  (exists row,
      runs_with (RunRow.run_id row)
        (database (snd (start_agent_run Examples.env Examples.service
                          Examples.run_request Examples.world))) = [row] /\
      run_row_holds Examples.sqlite
        (run_record
           (run_result Examples.run_request "asst_1" (VStr "thread_1")
              [("id", VStr "run_1"); ("status", VStr "queued");
               ("created_at", VInt 1700000000)]
              (mk_datetime 2023 11 14 22 13 20 0))) row /\
      uploads (database (snd (start_agent_run Examples.env Examples.service
                                Examples.run_request Examples.world)))
      = uploads Examples.fresh_database).
Proof.
  destruct a_returned_call_has_stored_its_result as (U & R).
  split.
  - apply (U Examples.env Examples.service Examples.q1_csv None Examples.world);
      [reflexivity|discriminate].
  - apply (R Examples.env Examples.service Examples.run_request Examples.world);
      [reflexivity|discriminate].
Defined.

(** X17. [upload_source] never changes the [runs] table and
    [start_agent_run] never changes the [uploads] table, whatever the
    outcome; a service without a store leaves the whole database as it
    was. *)
Theorem the_service_writes_only_its_own_table :
  (forall env self file provider w,
      runs (database (snd (upload_source env self file provider w)))
      = runs (database w) /\
      (_store self = None ->
       database (snd (upload_source env self file provider w)) = database w)) /\
  (forall env self request w,
      uploads (database (snd (start_agent_run env self request w)))
      = uploads (database w) /\
      (_store self = None ->
       database (snd (start_agent_run env self request w)) = database w)).
Proof.
  split.
  - intros env self file provider w.
    destruct (upload_source env self file provider w) as [[result|x] w'] eqn:E.
    + apply upload_source_returned in E as (r0 & d0 & _ & _ & _ & _ & _ & St).
      cbn [snd]. destruct (_store self).
      * apply log_upload_returned in St as (t & row & _ & Hd & _).
        rewrite Hd. split; [reflexivity|discriminate].
      * rewrite St. now split.
    + pose proof (upload_source_error_keeps_database env self file provider w x)
        as K.
      rewrite E in K. cbn [fst snd] in *. rewrite (K eq_refl). now split.
  - intros env self request w.
    destruct (start_agent_run env self request w) as [[result|x] w'] eqn:E.
    + apply start_agent_run_returned in E
        as (t0 & r0 & d0 & sa0 & _ & _ & _ & _ & _ & _ & _ & St).
      cbn [snd]. destruct (_store self).
      * apply log_run_returned in St as (t & row & _ & Hd & _).
        rewrite Hd. split; [reflexivity|discriminate].
      * rewrite St. now split.
    + pose proof (start_agent_run_error_keeps_database env self request w x)
        as K.
      rewrite E in K. cbn [fst snd] in *. rewrite (K eq_refl). now split.
Qed.

Lemma the_service_writes_only_its_own_table_witness :
  database (snd (upload_source Examples.env Scenarios.service_without_store
                   Examples.q1_csv None Examples.world))
  = Examples.fresh_database /\
  database (snd (start_agent_run Examples.env Scenarios.service_without_store
                   Examples.run_request Examples.world))
  = Examples.fresh_database.
Proof.
  destruct the_service_writes_only_its_own_table as (U & R).
  split.
  - apply (U Examples.env Scenarios.service_without_store Examples.q1_csv None
             Examples.world). reflexivity.
  - apply (R Examples.env Scenarios.service_without_store Examples.run_request
             Examples.world). reflexivity.
Defined.

(** ** Answers the service does not expect *)






(** X19. A [created_at] that counts anything but seconds in the years 1 to
    9999 (milliseconds, say) makes [start_agent_run] fail inside
    [fromtimestamp], after the thread and the run have both been created
    at the provider; the error is not a [RuntimeError] and the run is not
    stored. *)
Theorem created_at_out_of_range_fails_after_the_run_is_created :
  forall env self request w thread_id r d n,
    unset (openai_api_key (_settings self)) = false ->
    unset (openai_assistant_id (_settings self)) = false ->
    accepted_thread (http env (threads_request self request))
      = Some thread_id ->
    http env (runs_request self request thread_id) = Responded r ->
    success_with r d ->
    truthy (get_or d "id" VNone) = true ->
    get_or d "created_at" VNone = VInt n ->
    n < min_timestamp \/ max_timestamp < n ->
    start_agent_run env self request w
    = (Raised TimestampOutOfRange,
       mk_world (requests w ++ [threads_request self request;
                                runs_request self request thread_id])
         (database w)).
Proof.
  unfold threads_request, runs_request, auth_headers, setting, accepted_thread.
  intros env self request w thread_id r d n K A Ht Hh [S J] T C O.
  assert (F : fromtimestamp (VInt n) = Raised TimestampOutOfRange).
  { unfold fromtimestamp, checked_of_epoch.
    destruct ((min_timestamp <=? n) && (n <=? max_timestamp)) eqn:B;
      [|reflexivity].
    apply andb_true_iff in B as [B1 B2]. lia. }
  unfold_service.
  destruct (openai_api_key (_settings self)) as [key|]; [|discriminate].
  destruct (openai_assistant_id (_settings self)) as [aid|]; [|discriminate].
  repeat (reduce; first [hyp_step | idtac]; tidy).
  unfold get_or in *. along. cbn [is_int_or_float]. reduce.
  now rewrite <- app_assoc.
Qed.

Lemma created_at_out_of_range_witness :
  start_agent_run Scenarios.env_milliseconds Examples.service
    Examples.run_request Examples.world
  = (Raised TimestampOutOfRange,
     mk_world [threads_request Examples.service Examples.run_request;
               runs_request Examples.service Examples.run_request
                 (VStr "thread_1")]
       Examples.fresh_database).
Proof.
  apply (created_at_out_of_range_fails_after_the_run_is_created
           Scenarios.env_milliseconds Examples.service Examples.run_request
           Examples.world (VStr "thread_1")
           Scenarios.run_response_in_milliseconds
           [("id", VStr "run_1"); ("created_at", VInt 1700000000000)]
           1700000000000);
    try reflexivity.
  - now split.
  - right. reflexivity.
Defined.

(** ** The body of the run request *)

(** X20. The keys of the run body, in the order in which they are sent:
    [assistant_id] first, then [metadata] when the request has a non-empty
    one, then [response_format] when the profile is in the registry, and
    [instructions] last and always.  [assistant_id] is the configured id
    and [metadata] is the request's own. *)
Theorem run_body_keys :
  forall assistant_id request,
    let run_body := build_run_body assistant_id request in
    map fst run_body
    = ("assistant_id"
       :: (if has_metadata request then ["metadata"] else [])
       ++ (if dict_contains (AgentRunRequest.response_schema request)
                SCHEMA_PROFILES
           then ["response_format"] else [])
       ++ ["instructions"])%list /\
    dict_get "assistant_id" run_body = Some (VStr assistant_id) /\
    dict_get "metadata" run_body
    = if has_metadata request
      then Some (str_dict (metadata_or_empty request))
      else None.
Proof.
  intros assistant_id request run_body; subst run_body.
  unfold build_run_body, get_response_format, has_metadata, metadata_or_empty,
    dict_contains.
  destruct (AgentRunRequest.metadata request) as [[|? ?]|];
    destruct (dict_get _ SCHEMA_PROFILES) as [v|] eqn:E;
    destruct (str_is_empty (strip _));
    try (now repeat split).
  all: simpl in E;
    destruct (String.eqb _ "income_cashflow_expense"); [|discriminate];
    injection E as <-; now repeat split.
Qed.

(** ** The base URL *)

Lemma rstrip_slash_spec (s : string) :
  ends_with_slash (rstrip_slash s) = false /\
  exists n, s = rstrip_slash s ++ slashes n.
Proof.
  induction s as [|c s [IH1 [n IH2]]]; simpl.
  - split; [reflexivity|]. now exists 0%nat.
  - destruct (Ascii.eqb c "/") eqn:Ec; simpl.
    + destruct (rstrip_slash s) as [|c' t] eqn:Et; simpl.
      * split; [reflexivity|]. exists (S n). simpl.
        apply Ascii.eqb_eq in Ec. subst c. now rewrite IH2 at 1.
      * split; [exact IH1|]. exists n. now rewrite IH2 at 1.
    + destruct (rstrip_slash s) as [|c' t] eqn:Et; simpl.
      * split; [exact Ec|]. exists n. now rewrite IH2 at 1.
      * split; [exact IH1|]. exists n. now rewrite IH2 at 1.
Qed.

Lemma rstrip_slash_fixed (s : string) :
  ends_with_slash s = false -> rstrip_slash s = s.
Proof.
  induction s as [|c s IH]; simpl; [reflexivity|].
  destruct s as [|c' t].
  - intros ->. reflexivity.
  - intros H. rewrite (IH H). simpl. now rewrite andb_false_r.
Qed.

(** X21. The base URL a new service keeps is the configured one without
    its trailing slashes: it does not end with a slash, the configured URL
    is that text followed by slashes only, and stripping it again changes
    nothing. *)
Theorem base_url_has_no_trailing_slash :
  forall settings store,
    let base_url := _base_url (new_service settings store) in
    ends_with_slash base_url = false /\
    (exists n, openai_base_url settings = base_url ++ slashes n) /\
    rstrip_slash base_url = base_url.
Proof.
  intros settings store base_url; subst base_url. cbn [new_service _base_url].
  destruct (rstrip_slash_spec (openai_base_url settings)) as [E N].
  split; [exact E|]. split; [exact N|].
  now apply rstrip_slash_fixed.
Qed.

(** ** A store write that fails *)

Lemma upload_source_store_raises env self file provider w r d x db' :
  unset (openai_api_key (_settings self)) = false ->
  http env (files_request self file) = Responded r ->
  success_with r d ->
  truthy (get_or d "id" VNone) = true ->
  _store self <> None ->
  log_upload (engine env) (upload_record (upload_result env file provider d))
    (database w) = (Raised x, db') ->
  upload_source env self file provider w
  = (Raised x, mk_world (requests w ++ [files_request self file]) db').
Proof.
  unfold files_request, auth_headers, setting, upload_result, upload_record.
  intros K Hh [S J] T N St. unfold_service.
  destruct (openai_api_key (_settings self)) as [key|]; [|discriminate].
  destruct (_store self); [|congruence]. along; subst; reflexivity.
Qed.

Lemma start_agent_run_store_raises env self request w thread_id r d started_at
    x db' :
  unset (openai_api_key (_settings self)) = false ->
  unset (openai_assistant_id (_settings self)) = false ->
  accepted_thread (http env (threads_request self request)) = Some thread_id ->
  http env (runs_request self request thread_id) = Responded r ->
  success_with r d ->
  truthy (get_or d "id" VNone) = true ->
  started_at_of env d = Returned started_at ->
  _store self <> None ->
  log_run (engine env)
    (run_record (run_result request
                   (setting (openai_assistant_id (_settings self)))
                   thread_id d started_at))
    (database w) = (Raised x, db') ->
  start_agent_run env self request w
  = (Raised x,
     mk_world (requests w ++ [threads_request self request;
                              runs_request self request thread_id]) db').
Proof.
  unfold threads_request, runs_request, auth_headers, setting, run_result,
    run_record, accepted_thread, started_at_of.
  intros K A Ht Hh [S J] T Sa N St.
  unfold_service.
  destruct (openai_api_key (_settings self)) as [key|]; [|discriminate].
  destruct (openai_assistant_id (_settings self)) as [aid|]; [|discriminate].
  destruct (_store self); [|congruence].
  repeat (reduce; first [hyp_step | idtac]; tidy).
  all: along; subst; now rewrite <- ?app_assoc.
Qed.

End AgentFacts.

(* ===================================================================== *)
(** * Facts about the configuration *)
(* ===================================================================== *)

Module ConfigFacts.
Import Py Service Config.
Import PyFacts.

(** [get_settings] never returns.  Whatever the environment holds,
    [DATA_DIRECTORY] set or not, the default handed to [os.getenv] is
    evaluated first, and it asks the slot descriptor [Settings.data_directory]
    for [as_posix]: the call raises [AttributeError] before any directory
    is made or any [Settings] is built. *)
Lemma get_settings_always_raises :
  forall getenv settings_from,
    get_settings getenv settings_from
    = Raised (AttributeError
                "'member_descriptor' object has no attribute 'as_posix'").
Proof. reflexivity. Qed.

Lemma occurs_append (c : ascii) (a b : string) :
  occurs c (a ++ b) <-> occurs c a \/ occurs c b.
Proof.
  unfold occurs. induction a as [|x a IH]; simpl; [tauto|].
  rewrite IH. tauto.
Qed.

Lemma occurs_strip (c : ascii) (s : string) :
  occurs c (strip s) -> occurs c s.
Proof.
  destruct (strip_spec s) as (l & r & E & _).
  intros H. rewrite E. apply occurs_append; right.
  apply occurs_append; now left.
Qed.

Lemma split_pieces (sep : ascii) (s : string) :
  split sep s <> [] /\
  forall piece, In piece (split sep s) -> ~ occurs sep piece.
Proof.
  induction s as [|c s [IH1 IH2]]; simpl.
  - split; [discriminate|]. intros piece [<-|[]] [].
  - destruct (Ascii.eqb c sep) eqn:E.
    + split; [discriminate|]. intros piece [<-|H]; [intros []|now apply IH2].
    + destruct (split sep s) as [|p ps]; [congruence|].
      split; [discriminate|]. intros piece [<-|H].
      * intros [->|H]; [now rewrite Ascii.eqb_refl in E|].
        apply (IH2 p); [now left|exact H].
      * apply IH2. now right.
Qed.

(** X22. The origins read from [CORS_ALLOW_ORIGINS].  A value that is
    blank gives the class attribute; any other value gives a tuple whose
    items are non-empty, carry no whitespace at either end and hold no
    comma.  The tuple is empty when every piece between the commas is
    blank: such a value gives no origin at all, not the default. *)
Theorem origins_are_trimmed_and_non_empty :
  forall raw,
    match origins_of raw with
    | Tuple items =>
        all_space raw = false /\
        Forall (fun origin =>
                  str_is_empty origin = false /\ trimmed origin /\
                  ~ occurs "," origin) items /\
        ((forall piece, In piece (split "," (strip raw)) ->
                        all_space piece = true) ->
         items = [])
    | ClassDefault a =>
        all_space raw = true /\ a = Settings_attribute "cors_allow_origins"
    end.
Proof.
  intros raw. unfold origins_of. cbv zeta.
  rewrite strip_empty. destruct (all_space raw); cbn [negb]; [now split|].
  split; [reflexivity|]. split.
  - apply Forall_forall. intros origin H.
    apply in_map_iff in H as (piece & <- & H).
    apply filter_In in H as [H N].
    split; [now apply negb_true_iff in N|]. split.
    + now destruct (strip_spec piece) as (_ & _ & _ & _ & _ & T).
    + intros O. apply occurs_strip in O.
      now apply (proj2 (split_pieces "," (strip raw)) piece).
  - intros B. induction (split "," (strip raw)) as [|p ps IH];
      [reflexivity|]. cbn [filter].
    rewrite strip_empty, (B p) by now left. cbn [negb].
    apply IH. intros piece H. apply B. now right.
Qed.

Lemma origins_are_trimmed_and_non_empty_witness :
  Forall (fun origin =>
            str_is_empty origin = false /\ trimmed origin /\
            ~ occurs "," origin)
    ["https://a.example"; "https://b.example"].
Proof.
  pose proof (origins_are_trimmed_and_non_empty
                " https://a.example , https://b.example ") as H.
  assert (E : origins_of " https://a.example , https://b.example "
              = Tuple ["https://a.example"; "https://b.example"])
    by (vm_compute; reflexivity).
  rewrite E in H. exact (proj1 (proj2 H)).
Defined.

End ConfigFacts.

(* ===================================================================== *)
(** * Facts about the routes *)
(* ===================================================================== *)

Module RouteFacts.
Import Py Datetime Storage Schemas Service Store Requests Routes.
Import PyFacts StorageFacts ServiceFacts StoreFacts AgentFacts.

Section Replies.

Variable env : Env.
Variables upload_model run_model : Type.
Variable FileUploadResponse : UploadResult.t -> option upload_model.
Variable AgentRunResponse : RunResult.t -> option run_model.

Lemma bad_gateway_cases {A} (e : exn) :
  (exists msg, e = RuntimeError msg /\ @bad_gateway A e = HTTPException 502 msg) \/
  ((forall msg, e <> RuntimeError msg) /\ @bad_gateway A e = Unhandled e).
Proof.
  destruct e; cbn; try (right; split; [discriminate|reflexivity]).
  left. eauto.
Qed.

Ltac sort_replies :=
  repeat match goal with
  | |- _ /\ _ => split
  | |- _ <-> _ => split
  | |- forall _, _ => intro
  | H : _ /\ _ |- _ => destruct H
  | H : exists _, _ |- _ => destruct H
  | H : Returned _ = Returned _ |- _ => injection H as H; subst
  | H : Raised _ = Raised _ |- _ => injection H as H; subst
  | H : RuntimeError _ = RuntimeError _ |- _ => injection H as H; subst
  | H : HTTPException _ _ = HTTPException _ _ |- _ => injection H as H; subst
  | H : Unhandled _ = Unhandled _ |- _ => injection H as H; subst
  | H : Response _ = Response _ |- _ => injection H as H; subst
  | H : forall msg, RuntimeError ?m <> RuntimeError msg |- _ =>
      now destruct (H m)
  end;
  try discriminate; try congruence; eauto.

Lemma route_replies {A B} (call : outcome A * World) (model : A -> option B) :
  let reply :=
    match call with
    | (Raised exc, w') => (bad_gateway exc, w')
    | (Returned result, w') => (validated model result, w')
    end in
  snd reply = snd call /\
  (forall code detail,
      fst reply = HTTPException code detail <->
      code = 502 /\ fst call = Raised (RuntimeError detail)) /\
  (forall e,
      fst reply = Unhandled e <->
      fst call = Raised e /\ forall msg, e <> RuntimeError msg) /\
  (forall m,
      fst reply = Response m <->
      exists result, fst call = Returned result /\ model result = Some m) /\
  (fst reply = ValidationError <->
   exists result, fst call = Returned result /\ model result = None).
Proof.
  cbv zeta. unfold validated.
  destruct call as [[result|e] w']; cbn.
  - destruct (model result) as [m|] eqn:E; sort_replies.
  - destruct (@bad_gateway_cases B e) as [(msg & -> & K)|(N & K)];
      rewrite K; sort_replies.
Qed.

(** X23. The reply of [create_run] is decided by the outcome of
    [start_agent_run], and the route adds no effect of its own.  An
    [HTTPException] always has status 502 and arises exactly from a
    [RuntimeError], whose message is the detail; every other exception
    leaves the route unhandled; a returned result gives the response
    model, or the validation error of that model. *)
Theorem create_run_reply_is_decided_by_the_call :
  forall request service w,
    let call := start_agent_run env service request w in
    let reply := create_run env run_model AgentRunResponse request service w in
    snd reply = snd call /\
    (forall code detail,
        fst reply = HTTPException code detail <->
        code = 502 /\ fst call = Raised (RuntimeError detail)) /\
    (forall e,
        fst reply = Unhandled e <->
        fst call = Raised e /\ forall msg, e <> RuntimeError msg) /\
    (forall m,
        fst reply = Response m <->
        exists run, fst call = Returned run /\ AgentRunResponse run = Some m) /\
    (fst reply = ValidationError <->
     exists run, fst call = Returned run /\ AgentRunResponse run = None).
Proof.
  intros request service w.
  exact (route_replies (start_agent_run env service request w) AgentRunResponse).
Qed.

(** X24. [upload_file] looks at the content type before anything else.
    A type outside the three accepted ones, or no type at all, is answered
    with 415 and the world is as before: the service is not called.  An
    accepted type hands the file to [upload_source], and the reply is
    decided by its outcome as for [create_run]; a 415 never comes from
    there. *)
Theorem upload_file_checks_the_content_type_first :
  forall file provider service w,
    let call := upload_source env service file provider w in
    let reply :=
      upload_file env upload_model FileUploadResponse file provider service w in
    (supported (UploadFile.content_type file) = false ->
     reply = (HTTPException 415 "Only CSV or XLSX files are supported.", w)) /\
    (supported (UploadFile.content_type file) = true ->
     snd reply = snd call /\
     (forall code detail,
         fst reply = HTTPException code detail <->
         code = 502 /\ fst call = Raised (RuntimeError detail)) /\
     (forall e,
         fst reply = Unhandled e <->
         fst call = Raised e /\ forall msg, e <> RuntimeError msg) /\
     (forall m,
         fst reply = Response m <->
         exists result,
           fst call = Returned result /\ FileUploadResponse result = Some m) /\
     (fst reply = ValidationError <->
      exists result,
        fst call = Returned result /\ FileUploadResponse result = None)).
Proof.
  intros file provider service w. cbv zeta. unfold upload_file.
  split; intros S; rewrite S; cbn [negb]; [reflexivity|].
  exact (route_replies (upload_source env service file provider w)
           FileUploadResponse).
Qed.

(** X25. A service that is not configured is reported to the client as a
    bad gateway: both routes answer 502 with the configuration message as
    detail, and the world is as before. *)
Theorem missing_configuration_is_a_bad_gateway :
  (forall file provider service w,
      supported (UploadFile.content_type file) = true ->
      unset (openai_api_key (_settings service)) = true ->
      upload_file env upload_model FileUploadResponse file provider service w
      = (HTTPException 502 "OPENAI_API_KEY is not configured.", w)) /\
  (forall request service w,
      unset (openai_api_key (_settings service)) = true ->
      create_run env run_model AgentRunResponse request service w
      = (HTTPException 502 "OPENAI_API_KEY is not configured.", w)) /\
  (forall request service w,
      unset (openai_api_key (_settings service)) = false ->
      unset (openai_assistant_id (_settings service)) = true ->
      create_run env run_model AgentRunResponse request service w
      = (HTTPException 502 "OPENAI_ASSISTANT_ID is not configured.", w)).
Proof.
  split; [|split].
  - intros file provider service w S K. unfold upload_file. rewrite S.
    unfold_service. now rewrite K.
  - intros request service w K. unfold create_run. unfold_service.
    now rewrite K.
  - intros request service w K A. unfold create_run. unfold_service.
    now rewrite K, A.
Qed.

(** X26. A store write that fails is not handled by the routes.  The
    provider has accepted the upload (the run), the request is in the log,
    nothing is stored, and the error of the database layer leaves the
    route as it is: the client gets no 502 and no result. *)
Theorem a_failed_store_write_is_not_handled :
  (forall file provider service w r d x,
      supported (UploadFile.content_type file) = true ->
      unset (openai_api_key (_settings service)) = false ->
      http env (files_request service file) = Responded r ->
      success_with r d ->
      truthy (get_or d "id" VNone) = true ->
      _store service <> None ->
      fst (log_upload (engine env)
             (upload_record (upload_result env file provider d)) (database w))
      = Raised x ->
      upload_file env upload_model FileUploadResponse file provider service w
      = (Unhandled x,
         mk_world (requests w ++ [files_request service file]) (database w))) /\
  (forall request service w thread_id r d started_at x,
      unset (openai_api_key (_settings service)) = false ->
      unset (openai_assistant_id (_settings service)) = false ->
      accepted_thread (http env (threads_request service request))
        = Some thread_id ->
      http env (runs_request service request thread_id) = Responded r ->
      success_with r d ->
      truthy (get_or d "id" VNone) = true ->
      started_at_of env d = Returned started_at ->
      _store service <> None ->
      fst (log_run (engine env)
             (run_record (run_result request
                            (setting (openai_assistant_id (_settings service)))
                            thread_id d started_at))
             (database w))
      = Raised x ->
      create_run env run_model AgentRunResponse request service w
      = (Unhandled x,
         mk_world (requests w ++ [threads_request service request;
                                  runs_request service request thread_id])
           (database w))).
Proof.
  split.
  - intros file provider service w r d x S K Hh Sd T N L.
    destruct (the_store_errors (engine env) (database w) x) as (_ & U & _).
    specialize (U _ L).
    destruct (log_upload (engine env)
                (upload_record (upload_result env file provider d))
                (database w)) as [o db'] eqn:E.
    cbn in L; subst o. pose proof (connect_raised _ _ _ _ _ E) as ->.
    unfold upload_file. rewrite S. cbn [negb].
    rewrite (upload_source_store_raises env service file provider w r d x
               (database w)) by assumption.
    now destruct x.
  - intros request service w thread_id r d started_at x K A Ht Hh Sd T Sa N L.
    destruct (the_store_errors (engine env) (database w) x) as (_ & _ & U & _).
    specialize (U _ L).
    destruct (log_run (engine env) _ (database w)) as [o db'] eqn:E.
    cbn in L; subst o. pose proof (connect_raised _ _ _ _ _ E) as ->.
    unfold create_run.
    rewrite (start_agent_run_store_raises env service request w thread_id r d
               started_at x (database w)) by assumption.
    now destruct x.
Qed.


End Replies.

Lemma create_run_reply_witness :
  fst (create_run Examples.env RunResult.t Some Examples.run_request
         Examples.service Examples.world)
  = Response
      (run_result Examples.run_request "asst_1" (VStr "thread_1")
         [("id", VStr "run_1"); ("status", VStr "queued");
          ("created_at", VInt 1700000000)]
         (mk_datetime 2023 11 14 22 13 20 0)).
Proof.
  destruct (create_run_reply_is_decided_by_the_call Examples.env RunResult.t
              Some Examples.run_request Examples.service Examples.world)
    as (_ & _ & _ & R & _).
  apply R. eexists. split; reflexivity.
Defined.

Lemma upload_file_checks_the_content_type_witness :
  upload_file Examples.env UploadResult.t Some Scenarios.notes_txt None
    Examples.service Examples.world
  = (HTTPException 415 "Only CSV or XLSX files are supported.", Examples.world) /\
  snd (upload_file Examples.env UploadResult.t Some Examples.q1_csv None
         Examples.service Examples.world)
  = snd (upload_source Examples.env Examples.service Examples.q1_csv None
           Examples.world).
Proof.
  split.
  - apply (upload_file_checks_the_content_type_first Examples.env
             UploadResult.t Some Scenarios.notes_txt None Examples.service
             Examples.world). reflexivity.
  - apply (upload_file_checks_the_content_type_first Examples.env
             UploadResult.t Some Examples.q1_csv None Examples.service
             Examples.world). reflexivity.
Defined.

Lemma missing_configuration_is_a_bad_gateway_witness :
  upload_file Examples.env UploadResult.t Some Examples.q1_csv None
    Examples.service_without_credential Examples.world
  = (HTTPException 502 "OPENAI_API_KEY is not configured.", Examples.world) /\
  create_run Examples.env RunResult.t Some Examples.run_request
    Examples.service_without_credential Examples.world
  = (HTTPException 502 "OPENAI_API_KEY is not configured.", Examples.world) /\
  create_run Examples.env RunResult.t Some Examples.run_request
    Scenarios.service_without_assistant Examples.world
  = (HTTPException 502 "OPENAI_ASSISTANT_ID is not configured.",
     Examples.world).
Proof.
  split; [|split].
  - apply (missing_configuration_is_a_bad_gateway Examples.env UploadResult.t
             RunResult.t Some Some); reflexivity.
  - apply (missing_configuration_is_a_bad_gateway Examples.env UploadResult.t
             RunResult.t Some Some); reflexivity.
  - apply (missing_configuration_is_a_bad_gateway Examples.env UploadResult.t
             RunResult.t Some Some); reflexivity.
Defined.

Lemma a_failed_store_write_is_not_handled_witness :
  upload_file Examples.env_locked UploadResult.t Some Examples.q1_csv None
    Examples.service Examples.world
  = (Unhandled (SqliteError (OperationalError "database is locked")),
     mk_world [files_request Examples.service Examples.q1_csv]
       Examples.fresh_database) /\
  create_run Examples.env_locked RunResult.t Some Examples.run_request
    Examples.service Examples.world
  = (Unhandled (SqliteError (OperationalError "database is locked")),
     mk_world [threads_request Examples.service Examples.run_request;
               runs_request Examples.service Examples.run_request
                 (VStr "thread_1")]
       Examples.fresh_database).
Proof.
  destruct (a_failed_store_write_is_not_handled Examples.env_locked
              UploadResult.t RunResult.t Some Some) as (U & R).
  split.
  - apply (U Examples.q1_csv None Examples.service Examples.world
             Examples.file_response
             [("id", VStr "file_abc"); ("filename", VStr "q1.csv")]);
      try reflexivity; [now split|discriminate].
  - apply (R Examples.run_request Examples.service Examples.world
             (VStr "thread_1") Examples.run_response
             [("id", VStr "run_1"); ("status", VStr "queued");
              ("created_at", VInt 1700000000)]
             (mk_datetime 2023 11 14 22 13 20 0));
      try reflexivity; [now split|discriminate].
Defined.


End RouteFacts.
